(** * Sleep-session extraction and reconciliation

    A shallow embedding of the decision logic of the sleep-comparison
    scripts: the two vendor normalizers ([oura_api.py],
    [ultrahuman_api.py]), their day reconciliation, the HTTP fetch
    wrappers and the merge of [main_analysis.py].

    Conventions of the embedding:
    - Python [int] is [Z]; [//] is floor division, which is [Z.div] for the
      positive divisor 60.
    - Python exceptions are the [Raise] results of the [result] monad.
    - A Python [dict] is an insertion-ordered association list ([PyDict]);
      [sorted(..., key=...)] is a stable insertion sort.
    - JSON payloads are typed records holding the fields the code reads;
      an HTTP request is a function from its parameters to the response.
      The phase-code fetch is followed a second time on the raw payload,
      whose fields may be absent or [null] ([OuraJson]).
    - A Python [str] is a [string] of characters with code points below
      256.
    - Epoch timestamps and naive local datetimes are seconds in [Z], the
      local time zone being a fixed offset from UTC: a zone whose offset
      changes between two timestamps of one record is not followed.
    - A number in a pandas column is the integer it stands for; this is
      what pandas computes on [exact_number]s, beyond which a [float64]
      column rounds and an [int64] column wraps around.

    The definitions come first, the properties after them; the last part
    settles the claims C1 to C10 of the specification in order. *)

From Stdlib Require Import ZArith Lia.
From stdpp Require Import base tactics option list list_numbers strings sorting.

Local Open Scope Z_scope.

(** ** Exceptions *)

Inductive exn : Type :=
  | KeyError (key : string)
  | TypeError
  | ValueError
  | Exception (status : Z).

Inductive result (A : Type) : Type :=
  | Ok (a : A)
  | Raise (e : exn).
Arguments Ok {A} a.
Arguments Raise {A} e.

(** Sequencing: the first exception raised aborts what follows. *)
#[global] Instance result_ret : MRet result := λ A a, Ok a.
#[global] Instance result_bind : MBind result := λ A B k r,
  match r with
  | Ok a => k a
  | Raise e => Raise e
  end.

(** ** Python dictionaries, in insertion order *)

Module PyDict.
Section dict.
Context {K V : Type} `{EqDecision K}.

(** [d.get(k)] *)
Fixpoint get (d : list (K * V)) (k : K) : option V :=
  match d with
  | [] => None
  | (k', v) :: d' => if decide (k = k') then Some v else get d' k
  end.

(** [d[k] = v]: an existing key keeps its position, a new key goes last. *)
Fixpoint set (d : list (K * V)) (k : K) (v : V) : list (K * V) :=
  match d with
  | [] => [(k, v)]
  | (k', v') :: d' =>
      if decide (k = k') then (k, v) :: d' else (k', v') :: set d' k v
  end.

Definition items (d : list (K * V)) : list (K * V) := d.
Definition values (d : list (K * V)) : list V := d.*2.

End dict.
End PyDict.

(** ** [sorted(l, key=...)]: a stable sort on the key *)

Section sorted.
Context {A K : Type} (key : A → K) (leb : K → K → bool).

Fixpoint insert_sorted (x : A) (l : list A) : list A :=
  match l with
  | [] => [x]
  | y :: l' =>
      if leb (key x) (key y) then x :: y :: l' else y :: insert_sorted x l'
  end.

Definition sorted (l : list A) : list A := foldr insert_sorted [] l.

End sorted.

(** * The phase-code vendor ([oura_api.py]) *)

Module Oura.

(** What [datetime.fromisoformat(time_str)] yields, as far as the code reads
    it: the clock hour and minute of the timestamp. *)
Record datetime := { hour : Z; minute : Z }.

(** One session of the vendor payload. [rem_sleep_duration] may be absent
    from the JSON object (the code tests for the key); [total_sleep_duration]
    is the vendor's own figure until the reconciler overwrites it. *)
Module Raw.
Record session := {
  day : string;
  bedtime_start : datetime;
  bedtime_end : datetime;
  sleep_phase_5_min : string;
  awake_time : Z;
  deep_sleep_duration : Z;
  light_sleep_duration : Z;
  rem_sleep_duration : option Z;
  total_sleep_duration : Z
}.

(** [session['total_sleep_duration'] = total] *)
Definition set_total_sleep_duration (s : session) (total : Z) : session :=
  {| day := day s;
     bedtime_start := bedtime_start s;
     bedtime_end := bedtime_end s;
     sleep_phase_5_min := sleep_phase_5_min s;
     awake_time := awake_time s;
     deep_sleep_duration := deep_sleep_duration s;
     light_sleep_duration := light_sleep_duration s;
     rem_sleep_duration := rem_sleep_duration s;
     total_sleep_duration := total |}.
End Raw.

(** One processed entry, all fields in minutes. *)
Module Entry.
Record t := {
  day : string;
  bedtime_start : Z;
  bedtime_end : Z;
  sleeptime_start : Z;
  sleeptime_end : Z;
  deep_sleep_duration : Z;
  awake_time_filtered_phases : Z;
  awake_time_filtered_subtraction : Z;
  light_sleep_duration : Z;
  rem_sleep_duration : Z;
  total_sleep_duration : Z
}.
End Entry.

(** ** [get_oura_sleep_data] *)

Record response := { status_code : Z; json_data : list Raw.session }.

(** Line 45: the conditional expression covers the whole sum, so a session
    without the [rem_sleep_duration] key counts as 0. *)
Definition computed_total_sleep_duration (session : Raw.session) : Z :=
  match Raw.rem_sleep_duration session with
  | Some rem =>
      Raw.deep_sleep_duration session + Raw.light_sleep_duration session + rem
  | None => 0
  end.

(** Body of the loop of lines 42-48. *)
Definition keep_longest (dates_to_exclude : list string)
    (sleep_data_by_day : list (string * Raw.session)) (session : Raw.session)
    : list (string * Raw.session) :=
  let day := Raw.day session in
  if decide (day ∈ dates_to_exclude) then sleep_data_by_day
  else
    let total_sleep_duration := computed_total_sleep_duration session in
    let replace :=
      match PyDict.get sleep_data_by_day day with
      | None => true
      | Some kept =>
          bool_decide (total_sleep_duration > Raw.total_sleep_duration kept)
      end in
    if replace
    then PyDict.set sleep_data_by_day day
           (Raw.set_total_sleep_duration session total_sleep_duration)
    else sleep_data_by_day.

Definition group_by_day (dates_to_exclude : list string)
    (data : list Raw.session) : list (string * Raw.session) :=
  foldl (keep_longest dates_to_exclude) [] data.

(** What [keep_longest] stores for a session, by name. *)
Definition stored (session : Raw.session) : Raw.session :=
  Raw.set_total_sleep_duration session (computed_total_sleep_duration session).

(** The request is answered by [requests_get start_date (end_date + 1)];
    dates are day numbers. The payload being typed, every field read is
    there and nothing but the status check raises; on the raw payload the
    reads can fail, see [OuraJson.get_oura_sleep_data]. *)
Definition get_oura_sleep_data (requests_get : Z → Z → response)
    (start_date : Z) (end_date : option Z) (dates_to_exclude : list string)
    : result (list Raw.session) :=
  let end_date := default start_date end_date in
  let response := requests_get start_date (end_date + 1) in
  if decide (status_code response = 200) then
    let data := json_data response in
    let sleep_data_by_day := group_by_day dates_to_exclude data in
    Ok (sorted Raw.day String.leb (PyDict.values sleep_data_by_day))
  else Raise (Exception (status_code response)).

(** ** [process_sleep_data] *)

Definition time_to_minutes (time : datetime) : Z :=
  let minutes := hour time * 60 + minute time in
  let minutes := if decide (hour time < 12) then minutes + 24 * 60 else minutes in
  minutes - 24 * 60.

(** [int(phase)] on one character of the phase string. A [string] holds
    characters of code points below 256; among these [int] reads the ten
    characters '0' to '9' and raises [ValueError] on every other one.
    Decimal digits of other scripts, which [int] reads too, have code
    points from 1632 on and are outside the strings followed here. *)
Definition int_of_char (c : Ascii.ascii) : result Z :=
  let n := Z.of_N (Ascii.N_of_ascii c) in
  if decide (48 ≤ n ≤ 57) then Ok (n - 48) else Raise ValueError.

Fixpoint parse_sleep_phases (sleep_phase_str : string) : result (list Z) :=
  match sleep_phase_str with
  | EmptyString => Ok []
  | String c rest =>
      phase ← int_of_char c;
      phases ← parse_sleep_phases rest;
      Ok (phase :: phases)
  end.

Definition phase_duration : Z := 5.

(** [next((i for i, x in enumerate(l) if P x), None)], counting from [i]. *)
Fixpoint next_index {A} (P : A → bool) (i : Z) (l : list A) : option Z :=
  match l with
  | [] => None
  | x :: l' => if P x then Some i else next_index P (i + 1) l'
  end.

Definition not_awake (phase : Z) : bool := bool_decide (phase ≠ 4).

Definition start_index (sleep_phases : list Z) : option Z :=
  next_index not_awake 0 sleep_phases.

Definition end_index (sleep_phases : list Z) : option Z :=
  (λ i, Z.of_nat (length sleep_phases) - i - 1)
    <$> next_index not_awake 0 (reverse sleep_phases).

Definition sleeptime_start (bedtime_start : Z) (sleep_phases : list Z) : Z :=
  bedtime_start +
    match start_index sleep_phases with
    | Some start_index => start_index * phase_duration
    | None => 0
    end.

Definition sleeptime_end (bedtime_start : Z) (sleep_phases : list Z) : Z :=
  bedtime_start +
    match end_index sleep_phases with
    | Some end_index => (end_index + 1) * phase_duration
    | None => Z.of_nat (length sleep_phases) * phase_duration
    end.

(** [l[start:stop]] for [stop ≥ 0] and [start] either [None] or [≥ 0]. *)
Definition slice {A} (l : list A) (start : option Z) (stop : Z) : list A :=
  drop (Z.to_nat (default 0 start)) (take (Z.to_nat stop) l).

(** Line 88. [end_index + 1] is evaluated for the slice bound, so an
    [end_index] of [None] raises [TypeError]. *)
Definition awake_time_filtered_phases (sleep_phases : list Z)
    : result Z :=
  match end_index sleep_phases with
  | None => Raise TypeError
  | Some end_index =>
      let window := slice sleep_phases (start_index sleep_phases) (end_index + 1) in
      Ok (Z.of_nat (length (filter (λ phase, phase = 4) window)) * phase_duration)
  end.

(** Lines 90-92. *)
Definition awake_time_filtered_subtraction (awake_time : Z)
    (bedtime_start bedtime_end sleeptime_start sleeptime_end : Z) : Z :=
  let total_awake_time := awake_time / 60 in
  let trimmed_time :=
    (sleeptime_start - bedtime_start) + (bedtime_end - sleeptime_end) in
  Z.max 0 (total_awake_time - trimmed_time).

(** Body of the loop of lines 69-107 for a day that is not excluded. *)
Definition process_entry (sleep_data : Raw.session) : result Entry.t :=
  let bedtime_start := time_to_minutes (Raw.bedtime_start sleep_data) in
  let bedtime_end := time_to_minutes (Raw.bedtime_end sleep_data) in
  sleep_phases ← parse_sleep_phases (Raw.sleep_phase_5_min sleep_data);
  let sleeptime_start := sleeptime_start bedtime_start sleep_phases in
  let sleeptime_end := sleeptime_end bedtime_start sleep_phases in
  awake_phases ← awake_time_filtered_phases sleep_phases;
  let awake_subtraction :=
    awake_time_filtered_subtraction (Raw.awake_time sleep_data)
      bedtime_start bedtime_end sleeptime_start sleeptime_end in
  rem ← match Raw.rem_sleep_duration sleep_data with
        | Some rem => Ok rem
        | None => Raise (KeyError "rem_sleep_duration")
        end;
  Ok {| Entry.day := Raw.day sleep_data;
        Entry.bedtime_start := bedtime_start;
        Entry.bedtime_end := bedtime_end;
        Entry.sleeptime_start := sleeptime_start;
        Entry.sleeptime_end := sleeptime_end;
        Entry.deep_sleep_duration := Raw.deep_sleep_duration sleep_data / 60;
        Entry.awake_time_filtered_phases := awake_phases;
        Entry.awake_time_filtered_subtraction := awake_subtraction;
        Entry.light_sleep_duration := Raw.light_sleep_duration sleep_data / 60;
        Entry.rem_sleep_duration := rem / 60;
        Entry.total_sleep_duration := Raw.total_sleep_duration sleep_data / 60 |}.

Fixpoint process_sleep_data (sleep_data_list : list Raw.session)
    (dates_to_exclude : list string) : result (list Entry.t) :=
  match sleep_data_list with
  | [] => Ok []
  | sleep_data :: rest =>
      if decide (Raw.day sleep_data ∈ dates_to_exclude)
      then process_sleep_data rest dates_to_exclude
      else
        processed_entry ← process_entry sleep_data;
        processed_data ← process_sleep_data rest dates_to_exclude;
        Ok (processed_entry :: processed_data)
  end.

End Oura.

(** * The segment-list vendor ([ultrahuman_api.py]) *)

Module Ultrahuman.

Module Stage.
Record t := { type : string; stage_time : Z }.
End Stage.

Module Segment.
Record t := { type : string; start : Z; end_ : Z }.
End Segment.

(** The ['object'] of one day's sleep metric; timestamps are epoch seconds
    and [sleep_graph] is the ['data'] list of the graph. *)
Module Raw.
Record t := {
  bedtime_start : Z;
  bedtime_end : Z;
  sleep_stages : list Stage.t;
  sleep_graph : list Segment.t
}.
End Raw.

Module Entry.
Record t := {
  day : string;
  bedtime_start : Z;
  bedtime_end : Z;
  sleeptime_start : Z;
  sleeptime_end : Z;
  deep_sleep_duration : Z;
  awake_time_filtered : Z;
  light_sleep_duration : Z;
  rem_sleep_duration : Z;
  total_sleep_duration : Z
}.
End Entry.

(** What the first loop stores per day. *)
Module Daily.
Record t := { data : Raw.t; duration : Z; reference_date : Z }.
End Daily.

Record response := { status_code : Z; metric_data_6 : Raw.t; text : string }.

Inductive printed : Type :=
  | ErrorRetrieving (current_date : Z) (status : Z)
  | ResponseText (text : string)
  | TotalSleepDataEntries (count : Z).

Definition sum (l : list Z) : Z := foldr Z.add 0 l.

Section env.

(** The machine's local time zone as a fixed offset from UTC in seconds, and
    [date.isoformat] on day numbers (days since 1970-01-01). A naive local
    [datetime] is the number of seconds since the local epoch. With the
    fixed offset [fromtimestamp] is a translation, hence increasing; a
    zone that changes its offset (daylight saving) between two timestamps
    is not followed. *)
Variable utc_offset : Z.
Variable isoformat : Z → string.

Definition fromtimestamp (ts : Z) : Z := ts + utc_offset.
Definition timestamp (dt : Z) : Z := dt - utc_offset.
Definition date (dt : Z) : Z := dt `div` 86400.
(** [dt.replace(hour=0, minute=0, second=0, microsecond=0)] *)
Definition replace_midnight (dt : Z) : Z := dt - dt `mod` 86400.

(** ** [get_ultrahuman_sleep_data] *)

Variable requests_get : Z → response.

(** The [while current_date <= end_date] loop; [fuel] bounds the number of
    iterations and [get_ultrahuman_sleep_data] supplies the whole range. *)
Fixpoint fetch_loop (fuel : nat) (current_date end_date : Z)
    (dates_to_exclude : list string)
    (sleep_data_list : list Raw.t) (stdout : list printed)
    : list Raw.t * list printed :=
  match fuel with
  | O => (sleep_data_list, stdout)
  | S fuel =>
      if decide (current_date ≤ end_date) then
        let '(sleep_data_list, stdout) :=
          if decide (isoformat current_date ∈ dates_to_exclude)
          then (sleep_data_list, stdout)
          else
            let response := requests_get current_date in
            if decide (status_code response = 200)
            then (sleep_data_list ++ [metric_data_6 response], stdout)
            else (sleep_data_list,
                  stdout ++ [ErrorRetrieving current_date (status_code response);
                             ResponseText (text response)]) in
        fetch_loop fuel (current_date + 1) end_date dates_to_exclude
          sleep_data_list stdout
      else (sleep_data_list, stdout)
  end.

(** Returns the list together with what was printed. *)
Definition get_ultrahuman_sleep_data (start_date : Z) (end_date : option Z)
    (dates_to_exclude : list string) : list Raw.t * list printed :=
  let end_date := default start_date end_date in
  fetch_loop (Z.to_nat (end_date - start_date + 1)) start_date end_date
    dates_to_exclude [] [].

(** ** [process_ultrahuman_sleep_data] *)

Definition time_to_minutes (dt reference_date : Z) : Z :=
  let delta := dt - reference_date in
  let days := delta `div` 86400 in
  let seconds := delta `mod` 86400 in
  days * 24 * 60 + seconds `div` 60.

(** Body of the first loop (lines 52-66). *)
Definition keep_longest (dates_to_exclude : list string)
    (daily_sleep_data : list (string * Daily.t)) (sleep_data : Raw.t)
    : list (string * Daily.t) :=
  let bedtime_start := fromtimestamp (Raw.bedtime_start sleep_data) in
  let bedtime_end := fromtimestamp (Raw.bedtime_end sleep_data) in
  let day := isoformat (date bedtime_end) in
  if decide (day ∈ dates_to_exclude) then daily_sleep_data
  else
    let reference_date := replace_midnight bedtime_end in
    let replace :=
      match PyDict.get daily_sleep_data day with
      | None => true
      | Some kept =>
          bool_decide (bedtime_end - bedtime_start > Daily.duration kept)
      end in
    if replace
    then PyDict.set daily_sleep_data day
           {| Daily.data := sleep_data;
              Daily.duration := bedtime_end - bedtime_start;
              Daily.reference_date := reference_date |}
    else daily_sleep_data.

Definition group_by_day (dates_to_exclude : list string)
    (sleep_data_list : list Raw.t) : list (string * Daily.t) :=
  foldl (keep_longest dates_to_exclude) [] sleep_data_list.

(** The key, the score and the stored value of [keep_longest], by name. *)
Definition day_of (sleep_data : Raw.t) : string :=
  isoformat (date (fromtimestamp (Raw.bedtime_end sleep_data))).

Definition bedtime_span (sleep_data : Raw.t) : Z :=
  fromtimestamp (Raw.bedtime_end sleep_data)
  - fromtimestamp (Raw.bedtime_start sleep_data).

Definition stored (sleep_data : Raw.t) : Daily.t :=
  {| Daily.data := sleep_data;
     Daily.duration := bedtime_span sleep_data;
     Daily.reference_date :=
       replace_midnight (fromtimestamp (Raw.bedtime_end sleep_data)) |}.

(** [next((s for s in sleep_stages if s['type'] == tag), {'stage_time': 0})] *)
Definition stage_time_of (tag : string) (sleep_stages : list Stage.t) : Z :=
  match List.find (λ stage, bool_decide (Stage.type stage = tag)) sleep_stages with
  | Some stage => Stage.stage_time stage
  | None => 0
  end.

(** [sum(s['stage_time'] for s in sleep_stages if s['type'] != 'awake')] *)
Definition non_awake_stage_time (sleep_stages : list Stage.t) : Z :=
  sum (Stage.stage_time <$>
       List.filter (λ stage, negb (bool_decide (Stage.type stage = "awake")))
         sleep_stages).

Definition is_awake (segment : Segment.t) : bool :=
  bool_decide (Segment.type segment = "awake").

Definition non_awake_segments (sleep_graph : list Segment.t) : list Segment.t :=
  List.filter (λ segment, negb (is_awake segment)) sleep_graph.

(** [min(...)] and [max(...)] over a sequence known to be non-empty. *)
Definition min_of (x : Z) (l : list Z) : Z := foldl Z.min x l.
Definition max_of (x : Z) (l : list Z) : Z := foldl Z.max x l.

(** Lines 94-98, with the window bounds as timestamps. *)
Definition awake_time_in_window (sleep_graph : list Segment.t)
    (window_start window_end : Z) : Z :=
  sum ((λ segment, Segment.end_ segment - Segment.start segment) <$>
       List.filter (λ segment,
          is_awake segment &&
          bool_decide (window_start ≤ Segment.start segment < window_end))
         sleep_graph) `div` 60.

(** Body of the second loop (lines 68-116). *)
Definition process_entry (day : string) (day_sleep_data : Daily.t) : Entry.t :=
  let sleep_data := Daily.data day_sleep_data in
  let reference_date := Daily.reference_date day_sleep_data in
  let bedtime_start := fromtimestamp (Raw.bedtime_start sleep_data) in
  let bedtime_end := fromtimestamp (Raw.bedtime_end sleep_data) in
  let bedtime_start_minutes := time_to_minutes bedtime_start reference_date in
  let bedtime_end_minutes := time_to_minutes bedtime_end reference_date in
  let sleep_stages := Raw.sleep_stages sleep_data in
  let sleep_graph := Raw.sleep_graph sleep_data in
  let '(sleeptime_start_minutes, sleeptime_end_minutes, awake_time_filtered) :=
    match non_awake_segments sleep_graph with
    | segment :: segments =>
        let sleeptime_start :=
          fromtimestamp (min_of (Segment.start segment) (Segment.start <$> segments)) in
        let sleeptime_end :=
          fromtimestamp (max_of (Segment.end_ segment) (Segment.end_ <$> segments)) in
        (time_to_minutes sleeptime_start reference_date,
         time_to_minutes sleeptime_end reference_date,
         awake_time_in_window sleep_graph
           (timestamp sleeptime_start) (timestamp sleeptime_end))
    | [] => (bedtime_start_minutes, bedtime_end_minutes, 0)
    end in
  {| Entry.day := day;
     Entry.bedtime_start := bedtime_start_minutes;
     Entry.bedtime_end := bedtime_end_minutes;
     Entry.sleeptime_start := sleeptime_start_minutes;
     Entry.sleeptime_end := sleeptime_end_minutes;
     Entry.deep_sleep_duration := stage_time_of "deep_sleep" sleep_stages `div` 60;
     Entry.awake_time_filtered := awake_time_filtered;
     Entry.light_sleep_duration := stage_time_of "light_sleep" sleep_stages `div` 60;
     Entry.rem_sleep_duration := stage_time_of "rem_sleep" sleep_stages `div` 60;
     Entry.total_sleep_duration := non_awake_stage_time sleep_stages `div` 60 |}.

(** Line 46: what the normalizer prints before its loops. *)
Definition process_ultrahuman_sleep_data_stdout (sleep_data_list : list Raw.t)
    : list printed :=
  [TotalSleepDataEntries (Z.of_nat (length sleep_data_list))].

(** The two loops and the final sort, as to what is returned; what is
    printed is [process_ultrahuman_sleep_data_stdout]. *)
Definition process_ultrahuman_sleep_data (sleep_data_list : list Raw.t)
    (dates_to_exclude : list string) : list Entry.t :=
  let daily_sleep_data := group_by_day dates_to_exclude sleep_data_list in
  let processed_data :=
    (λ '(day, day_sleep_data), process_entry day day_sleep_data)
      <$> PyDict.items daily_sleep_data in
  sorted Entry.day String.leb processed_data.

End env.

(** [date.isoformat] for the proleptic Gregorian calendar: the civil date
    of a day number, printed as YYYY-MM-DD. *)
Definition digit (n : Z) : string :=
  String (Ascii.ascii_of_N (Z.to_N (48 + n `mod` 10))) EmptyString.

Definition date_isoformat (days : Z) : string :=
  let z := days + 719468 in
  let era := z `div` 146097 in
  let doe := z `mod` 146097 in
  let yoe := (doe - doe `div` 1460 + doe `div` 36524 - doe `div` 146096) `div` 365 in
  let doy := doe - (365 * yoe + yoe `div` 4 - yoe `div` 100) in
  let mp := (5 * doy + 2) `div` 153 in
  let d := doy - (153 * mp + 2) `div` 5 + 1 in
  let m := if decide (mp < 10) then mp + 3 else mp - 9 in
  let y := yoe + era * 400 + (if decide (m ≤ 2) then 1 else 0) in
  digit (y `div` 1000) +:+ digit (y `div` 100) +:+ digit (y `div` 10) +:+ digit y
    +:+ "-" +:+ digit (m `div` 10) +:+ digit m
    +:+ "-" +:+ digit (d `div` 10) +:+ digit d.

End Ultrahuman.

(** * The merger ([main_analysis.py], [create_dataframes]) *)

Module Merger.

(** A data frame is the list of its rows; a missing value ([NaN], [NaT]) is
    [None]. The anecdotal frame has a [Date] column and numeric columns. *)
Module Anecdotal.
Record t (Timestamp : Type) := {
  Date : Timestamp;
  numeric : list (string * option Z)
}.
Arguments Date {Timestamp} _.
Arguments numeric {Timestamp} _.
End Anecdotal.

(** A row of the merged frame after the missing numeric values are filled. *)
Module Row.
Record t (Timestamp : Type) := {
  Date : Timestamp;
  day : option Timestamp;
  numeric : list (string * Z)
}.
Arguments Date {Timestamp} _.
Arguments day {Timestamp} _.
Arguments numeric {Timestamp} _.
End Row.

(** [series.fillna(0)] on one value: the value is kept as it is, which is
    what the [float64] column of an unmatched row does to an
    [exact_number]. *)
Definition fillna {A} (column : A → Z) (row : option A) : Z :=
  from_option column 0 row.

(** The numeric columns each vendor frame contributes; a column name both
    frames have gets the vendor suffix. *)
Definition oura_columns (row : option Oura.Entry.t) : list (string * Z) :=
  [ ("bedtime_start_oura", fillna Oura.Entry.bedtime_start row);
    ("bedtime_end_oura", fillna Oura.Entry.bedtime_end row);
    ("sleeptime_start_oura", fillna Oura.Entry.sleeptime_start row);
    ("sleeptime_end_oura", fillna Oura.Entry.sleeptime_end row);
    ("deep_sleep_duration_oura", fillna Oura.Entry.deep_sleep_duration row);
    ("awake_time_filtered_phases", fillna Oura.Entry.awake_time_filtered_phases row);
    ("awake_time_filtered_subtraction",
      fillna Oura.Entry.awake_time_filtered_subtraction row);
    ("light_sleep_duration_oura", fillna Oura.Entry.light_sleep_duration row);
    ("rem_sleep_duration_oura", fillna Oura.Entry.rem_sleep_duration row);
    ("total_sleep_duration_oura", fillna Oura.Entry.total_sleep_duration row) ]%string.

Definition ultrahuman_columns (row : option Ultrahuman.Entry.t)
    : list (string * Z) :=
  [ ("bedtime_start_ultrahuman", fillna Ultrahuman.Entry.bedtime_start row);
    ("bedtime_end_ultrahuman", fillna Ultrahuman.Entry.bedtime_end row);
    ("sleeptime_start_ultrahuman", fillna Ultrahuman.Entry.sleeptime_start row);
    ("sleeptime_end_ultrahuman", fillna Ultrahuman.Entry.sleeptime_end row);
    ("deep_sleep_duration_ultrahuman",
      fillna Ultrahuman.Entry.deep_sleep_duration row);
    ("awake_time_filtered", fillna Ultrahuman.Entry.awake_time_filtered row);
    ("light_sleep_duration_ultrahuman",
      fillna Ultrahuman.Entry.light_sleep_duration row);
    ("rem_sleep_duration_ultrahuman",
      fillna Ultrahuman.Entry.rem_sleep_duration row);
    ("total_sleep_duration_ultrahuman",
      fillna Ultrahuman.Entry.total_sleep_duration row) ]%string.

Section merge.
Context {Timestamp : Type} `{EqDecision Timestamp}.

(** [pd.to_datetime] on a day string. *)
Variable to_datetime : string → Timestamp.

(** [left.merge(right, how='left')]: every left row, in order, once per
    right row with the same key, or once with a missing right part when no
    right row has it. A missing left key matches no right row. *)
Definition merge_left {L R : Type} (left_on : L → option Timestamp)
    (right_on : R → Timestamp) (left : list L) (right : list R)
    : list (L * option R) :=
  left ≫= λ l,
    match List.filter (λ r, bool_decide (left_on l = Some (right_on r))) right with
    | [] => [(l, None)]
    | matches => (λ r, (l, Some r)) <$> matches
    end.

(** [df['day']] on the frame built from a list of entries: a frame built
    from the empty list has no columns. *)
Definition day_column {A : Type} (day : A → string) (data : list A)
    : result (list Timestamp) :=
  match data with
  | [] => Raise (KeyError "day")
  | _ => Ok (to_datetime ∘ day <$> data)
  end.

Definition create_dataframes (oura_data : list Oura.Entry.t)
    (ultrahuman_data : list Ultrahuman.Entry.t)
    (anecdotal_data : list (Anecdotal.t Timestamp))
    : result (list (Row.t Timestamp)) :=
  _ ← day_column Oura.Entry.day oura_data;
  _ ← day_column Ultrahuman.Entry.day ultrahuman_data;
  let oura_day := to_datetime ∘ Oura.Entry.day in
  let merged_df :=
    merge_left (Some ∘ Anecdotal.Date) oura_day anecdotal_data oura_data in
  let merged_df :=
    merge_left (λ row : _ * option Oura.Entry.t, oura_day <$> row.2)
      (to_datetime ∘ Ultrahuman.Entry.day) merged_df ultrahuman_data in
  Ok ((λ row,
         let '(anecdotal, oura, ultrahuman) := row in
         {| Row.Date := Anecdotal.Date anecdotal;
            Row.day := oura_day <$> oura;
            Row.numeric :=
              (prod_map id (default 0) <$> Anecdotal.numeric anecdotal)
              ++ oura_columns oura ++ ultrahuman_columns ultrahuman |})
      <$> merged_df).

End merge.

End Merger.

(** * Specification-side notions *)

(** "The first record, in input order, whose score is largest": everything
    before it scores strictly less, nothing after it scores more. *)
Definition is_first_longest {A : Type} (score : A → Z) (l : list A) (x : A)
    : Prop :=
  ∃ l1 l2, l = l1 ++ x :: l2
    ∧ Forall (λ y, score y < score x) l1
    ∧ Forall (λ y, score y ≤ score x) l2.

(** The shape both reconciling loops share: skip an excluded key, store the
    record when its key is new or its score beats the stored one. *)
Section reconcile.
Context {A K V : Type} `{EqDecision K}.
Variables (key : A → K) (score : A → Z) (store : A → V) (stored_score : V → Z).
Variable dates_to_exclude : list K.

Definition reconcile_step (d : list (K * V)) (a : A) : list (K * V) :=
  if decide (key a ∈ dates_to_exclude) then d
  else
    let replace :=
      match PyDict.get d (key a) with
      | None => true
      | Some kept => bool_decide (score a > stored_score kept)
      end in
    if replace then PyDict.set d (key a) (store a) else d.

(** What one key's slot holds after the records [l] went by. *)
Fixpoint slot_after (slot : option V) (l : list A) : option V :=
  match l with
  | [] => slot
  | a :: l' =>
      let replace :=
        match slot with
        | None => true
        | Some kept => bool_decide (score a > stored_score kept)
        end in
      slot_after (if replace then Some (store a) else slot) l'
  end.

End reconcile.

(** * Sample payloads *)

Module Examples.

Definition oura_session (day : string) (start_h start_m end_h end_m : Z)
    (phases : string) (awake deep light rem : Z) : Oura.Raw.session :=
  {| Oura.Raw.day := day;
     Oura.Raw.bedtime_start := {| Oura.hour := start_h; Oura.minute := start_m |};
     Oura.Raw.bedtime_end := {| Oura.hour := end_h; Oura.minute := end_m |};
     Oura.Raw.sleep_phase_5_min := phases;
     Oura.Raw.awake_time := awake;
     Oura.Raw.deep_sleep_duration := deep;
     Oura.Raw.light_sleep_duration := light;
     Oura.Raw.rem_sleep_duration := Some rem;
     Oura.Raw.total_sleep_duration := deep + light + rem |}.

(** Three sessions of 2024-06-20: 200 minutes of sleep, then twice 350. *)
Definition nap_200 : Oura.Raw.session :=
  oura_session "2024-06-20" 13 0 17 0 "4222114" 2400 3000 6000 3000.
Definition night_350 : Oura.Raw.session :=
  oura_session "2024-06-20" 23 0 7 0 "4422241134" 7800 5400 10800 4800.
Definition night_350_again : Oura.Raw.session :=
  oura_session "2024-06-20" 22 30 6 30 "4112223314" 7800 4800 10800 5400.

(** A session of 350 minutes whose stages are 59, 200 and 89 minutes. *)
Definition night_uneven : Oura.Raw.session :=
  oura_session "2024-06-22" 23 0 7 0 "4422241134" 7770 3590 12050 5390.

(** In bed but never asleep. *)
Definition all_awake : Oura.Raw.session :=
  oura_session "2024-06-23" 23 0 23 15 "444" 900 0 0 0.

(** Twenty minutes of sleep across noon. *)
Definition noon_nap : Oura.Raw.session :=
  oura_session "2024-06-25" 11 50 12 10 "1111" 0 0 1200 0.

Definition oura_ok (data : list Oura.Raw.session) (_ _ : Z) : Oura.response :=
  {| Oura.status_code := 200; Oura.json_data := data |}.

Import Ultrahuman.

Definition stage (type : string) (stage_time : Z) : Stage.t :=
  {| Stage.type := type; Stage.stage_time := stage_time |}.
Definition segment (type : string) (start end_ : Z) : Segment.t :=
  {| Segment.type := type; Segment.start := start; Segment.end_ := end_ |}.

(** Midnight of 2024-06-20 (day 19894), UTC. *)
Definition june_20 : Z := 19894 * 86400.

(** Eight hours in bed with 200 minutes of sleep, ending 06:00. *)
Definition long_in_bed : Raw.t :=
  {| Raw.bedtime_start := june_20 - 7200;
     Raw.bedtime_end := june_20 + 21600;
     Raw.sleep_stages :=
       [stage "deep_sleep" 3000; stage "light_sleep" 6000;
        stage "rem_sleep" 3000; stage "awake" 16800];
     Raw.sleep_graph :=
       [segment "awake" (june_20 - 7200) (june_20 + 9600);
        segment "light_sleep" (june_20 + 9600) (june_20 + 21600)] |}.

(** Six hours in bed with 350 minutes of sleep, ending 19:00 the same day. *)
Definition long_asleep : Raw.t :=
  {| Raw.bedtime_start := june_20 + 46800;
     Raw.bedtime_end := june_20 + 68400;
     Raw.sleep_stages :=
       [stage "deep_sleep" 5400; stage "light_sleep" 10800;
        stage "rem_sleep" 4800; stage "awake" 600];
     Raw.sleep_graph :=
       [segment "light_sleep" (june_20 + 46800) (june_20 + 67800);
        segment "awake" (june_20 + 67800) (june_20 + 68400)] |}.

(** The sleep graph of the specification's example, in a ten-minute bedtime. *)
Definition graph_example : Raw.t :=
  {| Raw.bedtime_start := 0;
     Raw.bedtime_end := 600;
     Raw.sleep_stages :=
       [stage "light_sleep" 540; stage "awake" 60];
     Raw.sleep_graph :=
       [segment "light_sleep" 0 300; segment "awake" 300 360;
        segment "light_sleep" 360 600] |}.

(** A summary of two half minutes of sleep. *)
Definition half_minutes : Raw.t :=
  {| Raw.bedtime_start := 0;
     Raw.bedtime_end := 600;
     Raw.sleep_stages := [stage "deep_sleep" 30; stage "light_sleep" 30];
     Raw.sleep_graph := [segment "light_sleep" 0 600] |}.

(** A graph that starts before the reported bedtime. *)
Definition early_graph : Raw.t :=
  {| Raw.bedtime_start := 600;
     Raw.bedtime_end := 1200;
     Raw.sleep_stages := [stage "light_sleep" 900];
     Raw.sleep_graph := [segment "light_sleep" 300 1200] |}.

(** A graph that is awake throughout, with sleep in the summary. *)
Definition awake_graph : Raw.t :=
  {| Raw.bedtime_start := 0;
     Raw.bedtime_end := 1200;
     Raw.sleep_stages := [stage "light_sleep" 600; stage "awake" 600];
     Raw.sleep_graph := [segment "awake" 0 1200] |}.

(** Fifteen minutes in bed, awake before, twice within and after the sleep
    window, which runs from second 100 to second 700. *)
Definition restless_graph : Raw.t :=
  {| Raw.bedtime_start := 0;
     Raw.bedtime_end := 900;
     Raw.sleep_stages := [stage "light_sleep" 450; stage "awake" 450];
     Raw.sleep_graph :=
       [segment "awake" 0 100; segment "light_sleep" 100 300;
        segment "awake" 300 360; segment "awake" 360 450;
        segment "light_sleep" 450 700; segment "awake" 700 900] |}.

Definition ultrahuman_http (failing : list Z) (current_date : Z) : response :=
  {| status_code := if decide (current_date ∈ failing) then 500 else 200;
     metric_data_6 := graph_example;
     text := "Internal Server Error" |}.

End Examples.

(** "Earliest" and "latest" of a list of timestamps. *)
Definition is_earliest (t : Z) (l : list Z) : Prop :=
  t ∈ l ∧ Forall (λ u, t ≤ u) l.
Definition is_latest (t : Z) (l : list Z) : Prop :=
  t ∈ l ∧ Forall (λ u, u ≤ t) l.

(** What fetching day by day amounts to: of the days not excluded, those
    answered with status 200 contribute their payload, in order, and each
    of the others an error report on the output; no day stops the rest. *)
Definition fetch_each_day (isoformat : Z → string)
    (requests_get : Z → Ultrahuman.response) (dates_to_exclude : list string)
    (days : list Z) : list Ultrahuman.Raw.t * list Ultrahuman.printed :=
  let requested := filter (λ day, isoformat day ∉ dates_to_exclude) days in
  (Ultrahuman.metric_data_6 ∘ requests_get
     <$> filter (λ day, Ultrahuman.status_code (requests_get day) = 200)
           requested,
   filter (λ day, Ultrahuman.status_code (requests_get day) ≠ 200) requested
     ≫= λ day,
       [Ultrahuman.ErrorRetrieving day
          (Ultrahuman.status_code (requests_get day));
        Ultrahuman.ResponseText (Ultrahuman.text (requests_get day))]).

(** * The analysis driver ([main_analysis.py]) *)

Module Analysis.

Section fetch.

(** The module-level [DATES_TO_EXCLUDE], the machine's time zone and the
    two HTTP endpoints. *)
Variable DATES_TO_EXCLUDE : list string.
Variable utc_offset : Z.
Variable isoformat : Z → string.
Variable oura_get : Z → Z → Oura.response.
Variable ultrahuman_get : Z → Ultrahuman.response.

(** [fetch_and_process_data]: the phase-code vendor first, then the
    segment-list vendor; an empty raw list is not processed. The result
    carries what was printed, by the segment-list fetch and then by the
    segment-list normalizer when it is called. *)
Definition fetch_and_process_data (start_date end_date : Z)
    : result (list Oura.Entry.t * list Ultrahuman.Entry.t
              * list Ultrahuman.printed) :=
  oura_raw_data ←
    Oura.get_oura_sleep_data oura_get start_date (Some end_date)
      DATES_TO_EXCLUDE;
  oura_processed_data ←
    match oura_raw_data with
    | [] => Ok []
    | _ => Oura.process_sleep_data oura_raw_data DATES_TO_EXCLUDE
    end;
  let '(ultrahuman_raw_data, stdout) :=
    Ultrahuman.get_ultrahuman_sleep_data isoformat ultrahuman_get
      start_date (Some end_date) DATES_TO_EXCLUDE in
  let '(ultrahuman_processed_data, printed) :=
    match ultrahuman_raw_data with
    | [] => ([], [])
    | _ =>
        (Ultrahuman.process_ultrahuman_sleep_data utc_offset isoformat
           ultrahuman_raw_data DATES_TO_EXCLUDE,
         Ultrahuman.process_ultrahuman_sleep_data_stdout ultrahuman_raw_data)
    end in
  Ok (oura_processed_data, ultrahuman_processed_data, stdout ++ printed).

End fetch.

Section errors.
Context {Timestamp : Type}.

(** [df[name]] on one row of a frame whose column names are distinct:
    a frame without the column raises [KeyError]. *)
Definition column (name : string) (row : Merger.Row.t Timestamp) : result Z :=
  match PyDict.get (Merger.Row.numeric row) name with
  | Some value => Ok value
  | None => Raise (KeyError name)
  end.

(** [df[name] = value] on one row: an existing column is overwritten in
    place, a new one is added last. *)
Definition assign (name : string) (value : Z) (row : Merger.Row.t Timestamp)
    : Merger.Row.t Timestamp :=
  {| Merger.Row.Date := Merger.Row.Date row;
     Merger.Row.day := Merger.Row.day row;
     Merger.Row.numeric := PyDict.set (Merger.Row.numeric row) name value |}.

(** [df[target] = abs(df[left] - df[right])], the difference being the
    integers' own, as it is in pandas for [exact_number]s. *)
Definition assign_abs_difference (target left right : string)
    (row : Merger.Row.t Timestamp) : result (Merger.Row.t Timestamp) :=
  l ← column left row;
  r ← column right row;
  Ok (assign target (Z.abs (l - r)) row).

(** [df[target] = df[left] - df[right]] *)
Definition assign_difference (target left right : string)
    (row : Merger.Row.t Timestamp) : result (Merger.Row.t Timestamp) :=
  l ← column left row;
  r ← column right row;
  Ok (assign target (l - r) row).

(** The twelve assignments of [calculate_errors], on one row. *)
Definition calculate_errors_row (row : Merger.Row.t Timestamp)
    : result (Merger.Row.t Timestamp) :=
  row ← assign_abs_difference "sleep_start_error_abs_oura"
          "jared_sleep_start" "sleeptime_start_oura" row;
  row ← assign_abs_difference "sleep_start_error_abs_ultrahuman"
          "jared_sleep_start" "sleeptime_start_ultrahuman" row;
  row ← assign_abs_difference "total_sleep_error_abs_oura"
          "jared_total_sleep" "total_sleep_duration_oura" row;
  row ← assign_abs_difference "total_sleep_error_abs_ultrahuman"
          "jared_total_sleep" "total_sleep_duration_ultrahuman" row;
  row ← assign_abs_difference "sleep_end_error_abs_oura"
          "jared_sleep_end" "sleeptime_end_oura" row;
  row ← assign_abs_difference "sleep_end_error_abs_ultrahuman"
          "jared_sleep_end" "sleeptime_end_ultrahuman" row;
  row ← assign_difference "sleep_start_error_oura"
          "sleeptime_start_oura" "jared_sleep_start" row;
  row ← assign_difference "sleep_start_error_ultrahuman"
          "sleeptime_start_ultrahuman" "jared_sleep_start" row;
  row ← assign_difference "total_sleep_error_oura"
          "total_sleep_duration_oura" "jared_total_sleep" row;
  row ← assign_difference "total_sleep_error_ultrahuman"
          "total_sleep_duration_ultrahuman" "jared_total_sleep" row;
  row ← assign_difference "sleep_end_error_oura"
          "sleeptime_end_oura" "jared_sleep_end" row;
  assign_difference "sleep_end_error_ultrahuman"
    "sleeptime_end_ultrahuman" "jared_sleep_end" row.

(** [calculate_errors], row by row; every row has the frame's columns, and
    a frame without rows is taken to have the columns that are read. *)
Fixpoint calculate_errors (df : list (Merger.Row.t Timestamp))
    : result (list (Merger.Row.t Timestamp)) :=
  match df with
  | [] => Ok []
  | row :: rows =>
      row ← calculate_errors_row row;
      rows ← calculate_errors rows;
      Ok (row :: rows)
  end.

End errors.

End Analysis.

(** A character that [int] reads as a single decimal digit. *)
Definition is_digit (c : Ascii.ascii) : Prop :=
  48 ≤ Z.of_N (Ascii.N_of_ascii c) ≤ 57.

(** The summed time of the summary stages of one kind. *)
Definition tagged_stage_time (tag : string)
    (sleep_stages : list Ultrahuman.Stage.t) : Z :=
  Ultrahuman.sum
    (Ultrahuman.Stage.stage_time <$>
     filter (λ stage, Ultrahuman.Stage.type stage = tag) sleep_stages).

(** Sample frames for the merge: phase-code entries for 2024-06-20 and
    2024-06-22, segment-list entries for 1970-01-01 and 2024-06-20, and
    anecdotal rows for three dates. Timestamps are the day strings. *)
Module MergeExamples.

Definition oura_entries : list Oura.Entry.t :=
  match Oura.process_sleep_data
          [Examples.night_350; Examples.night_uneven] [] with
  | Ok entries => entries
  | Raise _ => []
  end.

Definition ultrahuman_entries : list Ultrahuman.Entry.t :=
  Ultrahuman.process_ultrahuman_sleep_data 0 Ultrahuman.date_isoformat
    [Examples.long_in_bed; Examples.graph_example] [].

Definition anecdotal (date : string) (sleep_start total_sleep sleep_end : Z)
    : Merger.Anecdotal.t string :=
  {| Merger.Anecdotal.Date := date;
     Merger.Anecdotal.numeric :=
       [ ("jared_sleep_start", Some sleep_start);
         ("jared_total_sleep", Some total_sleep);
         ("jared_sleep_end", Some sleep_end) ]%string |}.

Definition anecdotal_rows : list (Merger.Anecdotal.t string) :=
  [ anecdotal "2024-06-20" (-30) 400 415;
    anecdotal "1970-01-01" 2 8 10;
    anecdotal "2024-06-21" 15 420 450 ].

End MergeExamples.

(** The error columns of [calculate_errors]: the absolute error, the signed
    error, and the anecdotal and vendor columns they are computed from. *)
Definition error_columns : list (string * string * string * string) :=
  [ ("sleep_start_error_abs_oura", "sleep_start_error_oura",
     "jared_sleep_start", "sleeptime_start_oura");
    ("sleep_start_error_abs_ultrahuman", "sleep_start_error_ultrahuman",
     "jared_sleep_start", "sleeptime_start_ultrahuman");
    ("total_sleep_error_abs_oura", "total_sleep_error_oura",
     "jared_total_sleep", "total_sleep_duration_oura");
    ("total_sleep_error_abs_ultrahuman", "total_sleep_error_ultrahuman",
     "jared_total_sleep", "total_sleep_duration_ultrahuman");
    ("sleep_end_error_abs_oura", "sleep_end_error_oura",
     "jared_sleep_end", "sleeptime_end_oura");
    ("sleep_end_error_abs_ultrahuman", "sleep_end_error_ultrahuman",
     "jared_sleep_end", "sleeptime_end_ultrahuman") ]%string.

(** The merged row of an anecdotal date for which no vendor has data. *)
Definition unmatched_row : Merger.Row.t string :=
  {| Merger.Row.Date := "2024-06-21";
     Merger.Row.day := None;
     Merger.Row.numeric :=
       [ ("jared_sleep_start", 15); ("jared_total_sleep", 420);
         ("jared_sleep_end", 450) ]%string
       ++ Merger.oura_columns None ++ Merger.ultrahuman_columns None |}.

(** * The phase-code vendor's fetch on the JSON payload

    [get_oura_sleep_data] once more (lines 36-54 of [oura_api.py]), on the
    payload as the vendor sends it rather than on typed records. The body
    is a JSON object that may lack the ['data'] key; ['data'], when
    present, is a list of objects, the sessions; and each field the fetch
    reads in a session may be absent, [null], an integer or a string.
    Fields the fetch does not read are left out. *)

Module OuraJson.

Inductive value : Type :=
  | Null
  | Int (n : Z)
  | Str (s : string).

#[global] Instance value_eq_dec : EqDecision value.
Proof. solve_decision. Defined.

(** A JSON object, as the Python [dict] it is parsed into. *)
Definition object : Type := list (string * value).

(** [data] is [response.json().get('data')]: [None] when the body has no
    such key. *)
Record response := { status_code : Z; data : option (list object) }.

(** [obj[key]] *)
Definition getitem (obj : object) (key : string) : result value :=
  match PyDict.get obj key with
  | Some v => Ok v
  | None => Raise (KeyError key)
  end.

(** [a + b]: integers add, strings concatenate, anything else is a
    [TypeError]. *)
Definition add (a b : value) : result value :=
  match a, b with
  | Int x, Int y => Ok (Int (x + y))
  | Str x, Str y => Ok (Str (x +:+ y))
  | _, _ => Raise TypeError
  end.

(** [a < b] and [a > b]: defined between two integers and between two
    strings only. *)
Definition lt (a b : value) : result bool :=
  match a, b with
  | Int x, Int y => Ok (bool_decide (x < y))
  | Str x, Str y => Ok (String.ltb x y)
  | _, _ => Raise TypeError
  end.

Definition gt (a b : value) : result bool := lt b a.

(** [day in dates_to_exclude], the list holding strings. *)
Definition excluded (day : value) (dates_to_exclude : list string) : bool :=
  match day with
  | Str s => bool_decide (s ∈ dates_to_exclude)
  | _ => false
  end.

(** Line 45, in evaluation order: the key test first; then the deep and
    the light field are read and added, then the rem field is read and
    added. *)
Definition computed_total_sleep_duration (session : object) : result value :=
  match PyDict.get session "rem_sleep_duration" with
  | Some _ =>
      deep ← getitem session "deep_sleep_duration";
      light ← getitem session "light_sleep_duration";
      deep_light ← add deep light;
      rem ← getitem session "rem_sleep_duration";
      add deep_light rem
  | None => Ok (Int 0)
  end.

(** Body of the loop of lines 42-48. *)
Definition keep_longest (dates_to_exclude : list string)
    (sleep_data_by_day : list (value * object)) (session : object)
    : result (list (value * object)) :=
  day ← getitem session "day";
  if excluded day dates_to_exclude then Ok sleep_data_by_day
  else
    total_sleep_duration ← computed_total_sleep_duration session;
    replace ←
      match PyDict.get sleep_data_by_day day with
      | None => Ok true
      | Some kept =>
          kept_total ← getitem kept "total_sleep_duration";
          gt total_sleep_duration kept_total
      end;
    if (replace : bool)
    then Ok (PyDict.set sleep_data_by_day day
               (PyDict.set session "total_sleep_duration" total_sleep_duration))
    else Ok sleep_data_by_day.

Fixpoint group_by_day (dates_to_exclude : list string)
    (sleep_data_by_day : list (value * object)) (data : list object)
    : result (list (value * object)) :=
  match data with
  | [] => Ok sleep_data_by_day
  | session :: rest =>
      sleep_data_by_day ← keep_longest dates_to_exclude sleep_data_by_day session;
      group_by_day dates_to_exclude sleep_data_by_day rest
  end.

(** [sorted(values, key=lambda x: x['day'])]: the keys are read first, then
    the list is sorted stably with [<] on the keys; comparing two keys that
    Python cannot order raises [TypeError]. *)
Fixpoint keyed (values : list object) : result (list (value * object)) :=
  match values with
  | [] => Ok []
  | x :: rest =>
      day ← getitem x "day";
      rest ← keyed rest;
      Ok ((day, x) :: rest)
  end.

Fixpoint insert_sorted (x : value * object) (l : list (value * object))
    : result (list (value * object)) :=
  match l with
  | [] => Ok [x]
  | y :: l' =>
      before ← lt y.1 x.1;
      if (before : bool)
      then l'' ← insert_sorted x l'; Ok (y :: l'')
      else Ok (x :: y :: l')
  end.

Fixpoint sort_keyed (l : list (value * object))
    : result (list (value * object)) :=
  match l with
  | [] => Ok []
  | x :: l' => l'' ← sort_keyed l'; insert_sorted x l''
  end.

Definition sorted_by_day (values : list object) : result (list object) :=
  l ← keyed values;
  l ← sort_keyed l;
  Ok l.*2.

Definition get_oura_sleep_data (requests_get : Z → Z → response)
    (start_date : Z) (end_date : option Z) (dates_to_exclude : list string)
    : result (list object) :=
  let end_date := default start_date end_date in
  let response := requests_get start_date (end_date + 1) in
  if decide (status_code response = 200) then
    data ←
      match data response with
      | Some data => Ok data
      | None => Raise (KeyError "data")
      end;
    sleep_data_by_day ← group_by_day dates_to_exclude [] data;
    sorted_by_day (PyDict.values sleep_data_by_day)
  else Raise (Exception (status_code response)).

End OuraJson.

(** A JSON session holds, in the fields the fetch reads, what a typed
    session holds; and so for a session the fetch returns, whose total is
    the computed one. *)
Definition reads_as (json : OuraJson.object) (session : Oura.Raw.session)
    : Prop :=
  PyDict.get json "day" = Some (OuraJson.Str (Oura.Raw.day session))
  ∧ PyDict.get json "deep_sleep_duration"
    = Some (OuraJson.Int (Oura.Raw.deep_sleep_duration session))
  ∧ PyDict.get json "light_sleep_duration"
    = Some (OuraJson.Int (Oura.Raw.light_sleep_duration session))
  ∧ PyDict.get json "rem_sleep_duration"
    = OuraJson.Int <$> Oura.Raw.rem_sleep_duration session.

Definition reads_as_stored (json : OuraJson.object)
    (session : Oura.Raw.session) : Prop :=
  reads_as json session
  ∧ PyDict.get json "total_sleep_duration"
    = Some (OuraJson.Int (Oura.Raw.total_sleep_duration session)).

(** A stored pair of the two reconciling dictionaries, and a keyed pair of
    the two sorts. *)
Definition reads_as_slot (json : OuraJson.value * OuraJson.object)
    (slot : string * Oura.Raw.session) : Prop :=
  json.1 = OuraJson.Str slot.1 ∧ reads_as_stored json.2 slot.2.

Definition reads_as_keyed (json : OuraJson.value * OuraJson.object)
    (session : Oura.Raw.session) : Prop :=
  json.1 = OuraJson.Str (Oura.Raw.day session)
  ∧ reads_as_stored json.2 session.

(** The exceptions a malformed payload raises. *)
Definition payload_error (e : exn) : Prop :=
  match e with
  | KeyError _ | TypeError => True
  | ValueError | Exception _ => False
  end.

(** What a session that does not stop the fetch must hold: a day, and,
    unless the day is excluded or the rem field is absent, deep, light and
    rem fields that are present and not [null]. *)
Definition readable (dates_to_exclude : list string)
    (json : OuraJson.object) : Prop :=
  ∃ day,
    PyDict.get json "day" = Some day
    ∧ (OuraJson.excluded day dates_to_exclude = true
       ∨ PyDict.get json "rem_sleep_duration" = None
       ∨ ∃ deep light rem,
           PyDict.get json "deep_sleep_duration" = Some deep
           ∧ PyDict.get json "light_sleep_duration" = Some light
           ∧ PyDict.get json "rem_sleep_duration" = Some rem
           ∧ deep ≠ OuraJson.Null ∧ light ≠ OuraJson.Null
           ∧ rem ≠ OuraJson.Null).

(** Sample JSON sessions: a complete one, one without the deep field and
    one whose deep field is [null]. *)
Module JsonExamples.
Import OuraJson.

Definition complete : object :=
  [ ("day", Str "2024-06-20"); ("deep_sleep_duration", Int 5400);
    ("light_sleep_duration", Int 10800); ("rem_sleep_duration", Int 4800);
    ("total_sleep_duration", Int 21000) ]%string.

Definition no_deep : object :=
  [ ("day", Str "2024-06-21"); ("light_sleep_duration", Int 10800);
    ("rem_sleep_duration", Int 4800) ]%string.

Definition null_deep : object :=
  [ ("day", Str "2024-06-21"); ("deep_sleep_duration", Null);
    ("light_sleep_duration", Int 10800);
    ("rem_sleep_duration", Int 4800) ]%string.

Definition no_day : object :=
  [ ("deep_sleep_duration", Int 5400); ("light_sleep_duration", Int 10800);
    ("rem_sleep_duration", Int 4800) ]%string.

Definition answered (data : option (list object)) (_ _ : Z) : response :=
  {| status_code := 200; data := data |}.

End JsonExamples.

(** An integer on which pandas computes without rounding and without
    wrap-around, in an [int64] as in a [float64] column: of magnitude at
    most 2^52, so that the difference of two such integers, at most 2^53,
    is exact in either type. *)
Definition exact_number (v : Z) : Prop := Z.abs v ≤ 2 ^ 52.

#[global] Instance exact_number_dec v : Decision (exact_number v).
Proof. unfold exact_number. apply _. Defined.

Definition exact_columns (columns : list (string * Z)) : Prop :=
  Forall (λ column, exact_number column.2) columns.

#[global] Instance exact_columns_dec columns : Decision (exact_columns columns).
Proof. unfold exact_columns. apply _. Defined.

(** The driver without its two emptiness checks: each vendor's fetch
    followed by its normalizer. *)
Definition fetch_then_process (dates_to_exclude : list string)
    (utc_offset : Z) (isoformat : Z → string)
    (oura_get : Z → Z → Oura.response)
    (ultrahuman_get : Z → Ultrahuman.response) (start_date end_date : Z)
    : result (list Oura.Entry.t * list Ultrahuman.Entry.t
              * list Ultrahuman.printed) :=
  oura_raw_data ←
    Oura.get_oura_sleep_data oura_get start_date (Some end_date)
      dates_to_exclude;
  oura_processed_data ←
    Oura.process_sleep_data oura_raw_data dates_to_exclude;
  let '(ultrahuman_raw_data, stdout) :=
    Ultrahuman.get_ultrahuman_sleep_data isoformat ultrahuman_get
      start_date (Some end_date) dates_to_exclude in
  Ok (oura_processed_data,
      Ultrahuman.process_ultrahuman_sleep_data utc_offset isoformat
        ultrahuman_raw_data dates_to_exclude,
      stdout
      ++ Ultrahuman.process_ultrahuman_sleep_data_stdout ultrahuman_raw_data).

(** * Properties *)

(** ** Lists *)

Lemma filter_none {A} (P : A → Prop) `{∀ x, Decision (P x)} (l : list A) :
  (∀ x, x ∈ l → ¬ P x) → filter P l = [].
Proof.
  induction l as [|x l IH]; intros Hl; [done|].
  rewrite filter_cons_False by (apply Hl; left).
  apply IH. intros y Hy. apply Hl. by right.
Qed.

(** ** Dictionaries *)

Section dict_facts.
Context {K V : Type} `{EqDecision K}.
Implicit Types (d : list (K * V)) (k : K) (v : V).

Lemma get_set_eq d k v : PyDict.get (PyDict.set d k v) k = Some v.
Proof.
  induction d as [|[k' v'] d IH]; simpl.
  - by rewrite decide_True.
  - destruct (decide (k = k')) as [->|Hne]; simpl.
    + by rewrite decide_True.
    + by rewrite decide_False.
Qed.

Lemma get_set_ne d k k' v :
  k ≠ k' → PyDict.get (PyDict.set d k v) k' = PyDict.get d k'.
Proof.
  intros Hne. induction d as [|[k0 v0] d IH]; simpl.
  - by rewrite decide_False.
  - destruct (decide (k = k0)) as [->|Hne0]; simpl.
    + by rewrite !(decide_False (P := k' = k0)).
    + by rewrite IH.
Qed.

Lemma keys_set d k v :
  (PyDict.set d k v).*1 = if PyDict.get d k is Some _ then d.*1 else d.*1 ++ [k].
Proof.
  induction d as [|[k0 v0] d IH]; [done|]. cbn [PyDict.set PyDict.get].
  destruct (decide (k = k0)) as [->|Hne]; [done|].
  rewrite !fmap_cons, IH. by destruct (PyDict.get d k).
Qed.

Lemma get_None d k : PyDict.get d k = None ↔ k ∉ d.*1.
Proof.
  induction d as [|[k0 v0] d IH]; simpl.
  - split; [intros _; apply not_elem_of_nil | done].
  - rewrite not_elem_of_cons. destruct (decide (k = k0)) as [->|Hne].
    + split; [done | by intros [? _]].
    + rewrite IH. split; [by split | by intros [_ ?]].
Qed.

Lemma NoDup_keys_set d k v : NoDup d.*1 → NoDup (PyDict.set d k v).*1.
Proof.
  intros Hnd. rewrite keys_set. destruct (PyDict.get d k) eqn:Hg; [done|].
  apply NoDup_app. split_and!; [done| |apply NoDup_singleton].
  intros x Hx ->%list_elem_of_singleton. by apply get_None in Hg.
Qed.

Lemma elem_of_get d k v : NoDup d.*1 → (k, v) ∈ d ↔ PyDict.get d k = Some v.
Proof.
  induction d as [|[k0 v0] d IH]; simpl; intros Hnd.
  - split; [by intros ?%elem_of_nil | done].
  - apply NoDup_cons in Hnd as [Hk0 Hnd]. rewrite elem_of_cons, IH by done.
    destruct (decide (k = k0)) as [->|Hne].
    + split.
      * intros [[= ->]|Hg]; [done|]. exfalso. apply Hk0, list_elem_of_fmap.
        exists (k0, v). split; [done|]. by apply IH.
      * intros [= ->]. by left.
    + split; [intros [[= ? ?]|?]; [done | done] | by right].
Qed.

Lemma elem_of_set d k v k' v' :
  (k', v') ∈ PyDict.set d k v → (k', v') ∈ d ∨ (k' = k ∧ v' = v).
Proof.
  induction d as [|[k0 v0] d IH]; simpl.
  - intros [= -> ->]%list_elem_of_singleton. by right.
  - destruct (decide (k = k0)) as [->|Hne].
    + intros [[= -> ->]|?]%elem_of_cons; [by right | left; by right].
    + intros [->|[?|?]%IH]%elem_of_cons; [left; by left|left; by right|by right].
Qed.

(** With distinct keys, a key selects exactly its own item. *)
Lemma filter_key_get d k v :
  NoDup d.*1 → PyDict.get d k = Some v → filter (λ kv, kv.1 = k) d = [(k, v)].
Proof.
  induction d as [|[k0 v0] d IH]; simpl; [done|].
  intros [Hk0 Hnd]%NoDup_cons. destruct (decide (k = k0)) as [->|Hne].
  - intros [= ->]. rewrite filter_cons_True by done. f_equal.
    apply filter_none. intros [k1 v1] Hin Hk1.
    simpl in Hk1; subst. apply Hk0, list_elem_of_fmap. by exists (k0, v1).
  - intros Hg. rewrite filter_cons_False by (simpl; congruence). by apply IH.
Qed.

Lemma filter_key_None d k :
  PyDict.get d k = None → filter (λ kv, kv.1 = k) d = [].
Proof.
  intros Hg%get_None. apply filter_none.
  intros [k1 v1] Hin Hk1. simpl in Hk1; subst.
  apply Hg, list_elem_of_fmap. by exists (k, v1).
Qed.

End dict_facts.

(** ** Sorting *)

Section sorted_facts.
Context {A K : Type} (key : A → K) (leb : K → K → bool).

Lemma insert_sorted_Permutation x l : insert_sorted key leb x l ≡ₚ x :: l.
Proof.
  induction l as [|y l IH]; simpl; [done|].
  destruct (leb _ _); [done|]. rewrite IH. apply Permutation_swap.
Qed.

Lemma sorted_Permutation l : sorted key leb l ≡ₚ l.
Proof.
  induction l as [|x l IH]; simpl; [done|].
  by rewrite insert_sorted_Permutation, IH.
Qed.

Lemma elem_of_sorted x l : x ∈ sorted key leb l ↔ x ∈ l.
Proof. by rewrite sorted_Permutation. Qed.

(** Selecting one key from the sorted image of a dictionary's items. *)
Lemma filter_sorted_items {V} `{EqDecision K} (f : K * V → A)
    (d : list (K * V)) (k : K) (kv : K * V) :
  (∀ kv, kv ∈ d → key (f kv) = kv.1) →
  filter (λ kv, kv.1 = k) d = [kv] →
  filter (λ x, key x = k) (sorted key leb (f <$> d)) = [f kv].
Proof.
  intros Hkey Hd. apply Permutation_singleton_r.
  rewrite sorted_Permutation.
  assert (filter (λ x, key x = k) (f <$> d)
          = f <$> filter (λ kv, kv.1 = k) d) as ->; [|by rewrite Hd].
  clear Hd. induction d as [|kv' d IH]; [done|]. rewrite fmap_cons.
  assert (key (f kv') = kv'.1) as Hkv' by (apply Hkey; left).
  destruct (decide (kv'.1 = k)) as [Heq|Hne].
  - rewrite !filter_cons_True by congruence. rewrite fmap_cons. f_equal.
    apply IH. intros ? ?. apply Hkey. by right.
  - rewrite !filter_cons_False by congruence.
    apply IH. intros ? ?. apply Hkey. by right.
Qed.

End sorted_facts.

(** ** Reconciliation, generically *)

Section reconcile_facts.
Context {A K V : Type} `{EqDecision K}.
Variables (key : A → K) (score : A → Z) (store : A → V) (stored_score : V → Z).
Variable dates_to_exclude : list K.
Hypothesis stored_score_store : ∀ a, stored_score (store a) = score a.

#[local] Abbreviation step := (reconcile_step key score store stored_score dates_to_exclude).
#[local] Abbreviation after := (slot_after score store stored_score).

Lemma reconcile_get (l : list A) (d : list (K * V)) (k : K) :
  k ∉ dates_to_exclude →
  PyDict.get (foldl step d l) k
  = after (PyDict.get d k) (filter (λ a, key a = k) l).
Proof.
  intros Hk. revert d. induction l as [|a l IH]; intros d; [done|].
  cbn [foldl]. rewrite IH. unfold reconcile_step.
  destruct (decide (key a = k)) as [<-|Hne].
  - rewrite filter_cons_True by done. rewrite decide_False by done.
    cbn [slot_after].
    destruct (PyDict.get d (key a)) as [kept|] eqn:Hget.
    + destruct (bool_decide _); [by rewrite get_set_eq | by rewrite Hget].
    + by rewrite get_set_eq.
  - rewrite filter_cons_False by done.
    destruct (decide (key a ∈ dates_to_exclude)); [done|].
    destruct (match PyDict.get d (key a) with None => _ | _ => _ end); [|done].
    by rewrite get_set_ne.
Qed.

Lemma reconcile_excluded (l : list A) (d : list (K * V)) (k : K) :
  k ∈ dates_to_exclude → PyDict.get (foldl step d l) k = PyDict.get d k.
Proof.
  intros Hk. revert d. induction l as [|a l IH]; intros d; [done|].
  cbn [foldl]. rewrite IH. unfold reconcile_step.
  destruct (decide (key a ∈ dates_to_exclude)) as [|Hin]; [done|].
  destruct (match PyDict.get d (key a) with None => _ | _ => _ end); [|done].
  apply get_set_ne. intros Heq. by rewrite Heq in Hin.
Qed.

Lemma reconcile_NoDup (l : list A) (d : list (K * V)) :
  NoDup d.*1 → NoDup (foldl step d l).*1.
Proof.
  revert d. induction l as [|a l IH]; intros d Hd; [done|].
  cbn [foldl]. apply IH. unfold reconcile_step.
  destruct (decide _); [done|].
  destruct (match PyDict.get d (key a) with None => _ | _ => _ end); [|done].
  by apply NoDup_keys_set.
Qed.

(** Every stored value is the stored form of a record of the input that
    has the slot's key. *)
Lemma reconcile_elem_of (l : list A) (d : list (K * V)) k v :
  (k, v) ∈ foldl step d l →
  (k, v) ∈ d ∨ ∃ a, a ∈ l ∧ key a = k ∧ v = store a ∧ k ∉ dates_to_exclude.
Proof.
  revert d. induction l as [|a l IH]; intros d; [by left|].
  cbn [foldl]. intros [Hin|(a' & ? & ? & ? & ?)]%IH.
  - unfold reconcile_step in Hin.
    destruct (decide (key a ∈ dates_to_exclude)); [by left|].
    destruct (match PyDict.get d (key a) with None => _ | _ => _ end);
      [|by left].
    apply elem_of_set in Hin as [?|[-> ->]]; [by left|].
    right. exists a. split_and!; [left|..]; done.
  - right. exists a'. split_and!; [by right|done..].
Qed.

Lemma slot_after_first_longest (l pre : list A) (c : A) :
  is_first_longest score pre c →
  ∃ x, after (Some (store c)) l = Some (store x)
       ∧ is_first_longest score (pre ++ l) x.
Proof.
  revert pre c. induction l as [|a l IH]; intros pre c Hc.
  - exists c. by rewrite app_nil_r.
  - cbn [slot_after]. rewrite stored_score_store.
    replace (pre ++ a :: l) with ((pre ++ [a]) ++ l) by by rewrite <-app_assoc.
    destruct Hc as (l1 & l2 & -> & Hl1 & Hl2). case_bool_decide as Hgt.
    + apply IH. exists (l1 ++ c :: l2), []. split_and!; [done| |done].
      rewrite Forall_app, Forall_cons. split_and!; [|lia|].
      * eapply Forall_impl; [exact Hl1|]. simpl. lia.
      * eapply Forall_impl; [exact Hl2|]. simpl. lia.
    + apply IH. exists l1, (l2 ++ [a]). split_and!; [|done|].
      * by rewrite <-!app_assoc.
      * rewrite Forall_app, Forall_singleton. split; [done|lia].
Qed.

Lemma slot_after_None (l : list A) :
  l ≠ [] →
  ∃ x, after None l = Some (store x) ∧ is_first_longest score l x.
Proof.
  destruct l as [|a l]; [done|]. intros _. cbn [slot_after].
  apply (slot_after_first_longest l [a] a).
  exists [], []. by split_and!.
Qed.

(** The reconciler keeps, for a day that is not excluded and has records,
    the first of the day's records with the largest score. *)
Lemma reconcile_first_longest (l : list A) (k : K) :
  k ∉ dates_to_exclude → filter (λ a, key a = k) l ≠ [] →
  ∃ x, PyDict.get (foldl step [] l) k = Some (store x)
       ∧ is_first_longest score (filter (λ a, key a = k) l) x.
Proof.
  intros Hk Hne. rewrite reconcile_get by done. by apply slot_after_None.
Qed.

Lemma reconcile_items (l : list A) (k : K) :
  k ∉ dates_to_exclude → filter (λ a, key a = k) l ≠ [] →
  ∃ x, is_first_longest score (filter (λ a, key a = k) l) x
       ∧ filter (λ kv, kv.1 = k) (foldl step [] l) = [(k, store x)].
Proof.
  intros Hk Hne. destruct (reconcile_first_longest l k Hk Hne) as (x & Hx & ?).
  exists x. split; [done|]. apply filter_key_get; [|done].
  apply reconcile_NoDup, NoDup_nil_2.
Qed.

Lemma reconcile_items_excluded (l : list A) (k : K) :
  k ∈ dates_to_exclude → filter (λ kv, kv.1 = k) (foldl step [] l) = [].
Proof.
  intros Hk. apply filter_key_None. by rewrite reconcile_excluded.
Qed.

End reconcile_facts.

(** * Facts about the phase-code vendor *)

Section oura_facts.
Import Oura.

(** ** Scanning the phase sequence *)

Lemma next_index_Some {A} (P : A → bool) (l : list A) (i j : Z) :
  next_index P i l = Some j →
  ∃ n : nat, j = i + Z.of_nat n
    ∧ (∃ x, l !! n = Some x ∧ P x = true)
    ∧ ∀ (m : nat) y, l !! m = Some y → P y = true → (n ≤ m)%nat.
Proof.
  revert i. induction l as [|x l IH]; intros i; simpl; [done|].
  destruct (P x) eqn:HP.
  - intros [= <-]. exists 0%nat. split_and!; [lia|by exists x|lia].
  - intros (n & -> & (y & Hy & HPy) & Hmin)%IH. exists (S n).
    split_and!; [lia|by exists y|].
    intros [|m] z Hz HPz; simpl in Hz; [congruence|].
    apply le_n_S. by eapply Hmin.
Qed.

Lemma next_index_None {A} (P : A → bool) (l : list A) (i : Z) :
  next_index P i l = None ↔ Forall (λ x, P x = false) l.
Proof.
  revert i. induction l as [|x l IH]; intros i; simpl; [done|].
  rewrite Forall_cons. destruct (P x).
  - split; [done|by intros [? _]].
  - rewrite IH. split; [by split|by intros [_ ?]].
Qed.

Lemma start_index_None phases :
  start_index phases = None ↔ Forall (λ phase, phase = 4) phases.
Proof.
  unfold start_index. rewrite next_index_None. apply Forall_iff.
  intros phase. unfold not_awake. case_bool_decide; naive_solver.
Qed.

Lemma end_index_None phases :
  end_index phases = None ↔ Forall (λ phase, phase = 4) phases.
Proof.
  unfold end_index. rewrite fmap_None, next_index_None.
  rewrite <-(reverse_involutive phases) at 2. rewrite Forall_reverse.
  rewrite reverse_involutive. apply Forall_iff.
  intros phase. unfold not_awake. case_bool_decide; naive_solver.
Qed.

(** The first and the last non-awake bucket lie inside the sequence, the
    first not after the last. *)
Lemma start_end_index phases s e :
  start_index phases = Some s → end_index phases = Some e →
  0 ≤ s ≤ e ∧ e < Z.of_nat (length phases).
Proof.
  unfold start_index, end_index.
  intros (n & -> & (x & Hx & HPx) & Hmin)%next_index_Some.
  intros (j & (n' & -> & (y & Hy & HPy) & Hmin')%next_index_Some & ->)%fmap_Some.
  pose proof (lookup_lt_Some _ _ _ Hx) as Hn.
  pose proof (lookup_lt_Some _ _ _ Hy) as Hn'. rewrite length_reverse in Hn'.
  assert (reverse phases !! (length phases - S n)%nat = Some x) as Hrev.
  { rewrite reverse_lookup by lia. rewrite <-Hx. f_equal. lia. }
  pose proof (Hmin' _ _ Hrev HPx). lia.
Qed.

Lemma sleeptime_bounds bedtime_start phases :
  ¬ Forall (λ phase, phase = 4) phases →
  bedtime_start ≤ sleeptime_start bedtime_start phases
  ∧ sleeptime_start bedtime_start phases < sleeptime_end bedtime_start phases
  ∧ sleeptime_end bedtime_start phases
    ≤ bedtime_start + 5 * Z.of_nat (length phases).
Proof.
  intros Hawake. unfold sleeptime_start, sleeptime_end, phase_duration.
  destruct (start_index phases) as [s|] eqn:Hs;
    [|by apply start_index_None in Hs].
  destruct (end_index phases) as [e|] eqn:He;
    [|by apply end_index_None in He].
  pose proof (start_end_index _ _ _ Hs He). lia.
Qed.

(** ** What [process_entry] and [process_sleep_data] return *)

Lemma parse_sleep_phases_length str phases :
  parse_sleep_phases str = Ok phases →
  length phases = String.length str.
Proof.
  revert phases. induction str as [|c str IH]; intros phases; simpl.
  - by intros [= <-].
  - destruct (int_of_char c); [|done]. simpl.
    destruct (parse_sleep_phases str) as [phases'|]; [|done]. simpl.
    intros [= <-]. simpl. f_equal. by apply IH.
Qed.

Lemma process_entry_Ok sleep_data entry :
  process_entry sleep_data = Ok entry →
  ∃ phases rem,
    parse_sleep_phases (Raw.sleep_phase_5_min sleep_data) = Ok phases
    ∧ ¬ Forall (λ phase, phase = 4) phases
    ∧ Raw.rem_sleep_duration sleep_data = Some rem
    ∧ Entry.day entry = Raw.day sleep_data
    ∧ Entry.bedtime_start entry = time_to_minutes (Raw.bedtime_start sleep_data)
    ∧ Entry.bedtime_end entry = time_to_minutes (Raw.bedtime_end sleep_data)
    ∧ Entry.sleeptime_start entry
      = sleeptime_start (Entry.bedtime_start entry) phases
    ∧ Entry.sleeptime_end entry
      = sleeptime_end (Entry.bedtime_start entry) phases
    ∧ Entry.awake_time_filtered_subtraction entry
      = awake_time_filtered_subtraction (Raw.awake_time sleep_data)
          (Entry.bedtime_start entry) (Entry.bedtime_end entry)
          (Entry.sleeptime_start entry) (Entry.sleeptime_end entry)
    ∧ Entry.deep_sleep_duration entry = Raw.deep_sleep_duration sleep_data / 60
    ∧ Entry.light_sleep_duration entry = Raw.light_sleep_duration sleep_data / 60
    ∧ Entry.rem_sleep_duration entry = rem / 60
    ∧ Entry.total_sleep_duration entry
      = Raw.total_sleep_duration sleep_data / 60.
Proof.
  unfold process_entry.
  destruct (parse_sleep_phases _) as [phases|] eqn:Hparse; [|done]. simpl.
  unfold awake_time_filtered_phases.
  destruct (end_index phases) as [e|] eqn:He; [|done]. simpl.
  destruct (Raw.rem_sleep_duration sleep_data) as [rem|] eqn:Hrem; [|done].
  simpl. intros [= <-]. exists phases, rem. simpl. split_and!; try done.
  intros Hawake%end_index_None. congruence.
Qed.

Lemma process_sleep_data_elem_of data dates_to_exclude out entry :
  process_sleep_data data dates_to_exclude = Ok out → entry ∈ out →
  ∃ sleep_data, sleep_data ∈ data
    ∧ (Raw.day sleep_data ∉ dates_to_exclude)
    ∧ process_entry sleep_data = Ok entry.
Proof.
  revert out. induction data as [|sleep_data data IH]; intros out; simpl.
  - by intros [= <-] ?%elem_of_nil.
  - destruct (decide (Raw.day sleep_data ∈ dates_to_exclude)) as [|Hday].
    + intros Hout Hin. destruct (IH _ Hout Hin) as (r & ? & ? & ?).
      exists r. split_and!; [by right|done..].
    + destruct (process_entry sleep_data) as [e|] eqn:He; [|done]. simpl.
      destruct (process_sleep_data data dates_to_exclude) as [es|]; [|done].
      simpl. intros [= <-] [->|Hin]%elem_of_cons.
      * exists sleep_data. split_and!; [left|done..].
      * destruct (IH _ eq_refl Hin) as (r & ? & ? & ?).
        exists r. split_and!; [by right|done..].
Qed.

(** ** The reconciling fetch *)

Lemma oura_keep_longest_reconcile dates_to_exclude :
  keep_longest dates_to_exclude
  = reconcile_step Raw.day computed_total_sleep_duration stored
      Raw.total_sleep_duration dates_to_exclude.
Proof. reflexivity. Qed.

Lemma stored_total_sleep_duration session :
  Raw.total_sleep_duration (stored session)
  = computed_total_sleep_duration session.
Proof. reflexivity. Qed.

Lemma get_oura_sleep_data_Ok requests_get start_date end_date excl out :
  get_oura_sleep_data requests_get start_date end_date excl = Ok out →
  let response := requests_get start_date (default start_date end_date + 1) in
  status_code response = 200
  ∧ out = sorted Raw.day String.leb
            (PyDict.values (group_by_day excl (json_data response))).
Proof.
  unfold get_oura_sleep_data. simpl. case_decide; [|done]. by intros [= <-].
Qed.

Lemma group_by_day_elem_of excl data day session :
  (day, session) ∈ group_by_day excl data →
  ∃ raw, raw ∈ data ∧ Raw.day raw = day ∧ session = stored raw ∧ day ∉ excl.
Proof.
  unfold group_by_day. rewrite oura_keep_longest_reconcile.
  intros [?%elem_of_nil|?]%reconcile_elem_of; done.
Qed.

Lemma get_oura_sleep_data_elem_of requests_get start_date end_date excl out session :
  get_oura_sleep_data requests_get start_date end_date excl = Ok out →
  session ∈ out →
  ∃ raw,
    raw ∈ json_data (requests_get start_date (default start_date end_date + 1))
    ∧ session = stored raw ∧ Raw.day raw ∉ excl.
Proof.
  intros [_ ->]%get_oura_sleep_data_Ok.
  rewrite elem_of_sorted. unfold PyDict.values.
  intros ([day s] & -> & Hin)%list_elem_of_fmap.
  apply group_by_day_elem_of in Hin as (raw & ? & <- & -> & ?). by exists raw.
Qed.

(** Of the sessions of one day, the fetch returns the first longest. *)
Lemma get_oura_sleep_data_first_longest
    requests_get start_date end_date excl out day :
  get_oura_sleep_data requests_get start_date end_date excl = Ok out →
  let data :=
    json_data (requests_get start_date (default start_date end_date + 1)) in
  day ∉ excl → filter (λ s, Raw.day s = day) data ≠ [] →
  ∃ kept,
    is_first_longest computed_total_sleep_duration
      (filter (λ s, Raw.day s = day) data) kept
    ∧ filter (λ s, Raw.day s = day) out = [stored kept].
Proof.
  intros [_ ->]%get_oura_sleep_data_Ok data Hday Hne.
  destruct (reconcile_items Raw.day computed_total_sleep_duration stored
    Raw.total_sleep_duration excl stored_total_sleep_duration data day Hday Hne)
    as (kept & Hkept & Hitems).
  exists kept. split; [done|]. unfold PyDict.values, group_by_day.
  rewrite oura_keep_longest_reconcile.
  apply (filter_sorted_items Raw.day String.leb snd _ day (day, stored kept));
    [|done].
  intros [k v] Hin. rewrite <-oura_keep_longest_reconcile in Hin.
  by apply group_by_day_elem_of in Hin as (raw & _ & <- & -> & _).
Qed.

End oura_facts.

(** * Facts about the segment-list vendor *)

Section ultrahuman_facts.
Import Ultrahuman.
Variable utc_offset : Z.
Variable isoformat : Z → string.

Lemma timestamp_fromtimestamp ts :
  timestamp utc_offset (fromtimestamp utc_offset ts) = ts.
Proof. unfold timestamp, fromtimestamp. lia. Qed.

(** [time_to_minutes] is the whole number of minutes from the reference. *)
Lemma time_to_minutes_div dt reference_date :
  time_to_minutes dt reference_date = (dt - reference_date) `div` 60.
Proof.
  unfold time_to_minutes. generalize (dt - reference_date). intros delta.
  rewrite (Z.div_mod delta 86400) at 3 by lia.
  replace (86400 * (delta `div` 86400) + delta `mod` 86400)
    with (delta `mod` 86400 + (delta `div` 86400 * 24 * 60) * 60) by lia.
  rewrite Z.div_add by lia. lia.
Qed.

Lemma time_to_minutes_mono dt1 dt2 reference_date :
  dt1 ≤ dt2 →
  time_to_minutes dt1 reference_date ≤ time_to_minutes dt2 reference_date.
Proof.
  intros. rewrite !time_to_minutes_div. apply Z.div_le_mono; lia.
Qed.

Lemma min_of_spec x l :
  min_of x l ∈ x :: l ∧ Forall (λ y, min_of x l ≤ y) (x :: l).
Proof.
  unfold min_of. revert x. induction l as [|y l IH]; intros x; simpl.
  - split; [left|by apply Forall_singleton].
  - destruct (IH (x `min` y)) as [Hin Hle]. split.
    + apply elem_of_cons in Hin as [->|Hin]; [|by do 2 right].
      destruct (Z.min_spec x y) as [[_ ->]|[_ ->]]; [left|right; left].
    + apply Forall_cons in Hle as [Hxy Hle].
      rewrite !Forall_cons. split_and!; [lia..|done].
Qed.

Lemma max_of_spec x l :
  max_of x l ∈ x :: l ∧ Forall (λ y, y ≤ max_of x l) (x :: l).
Proof.
  unfold max_of. revert x. induction l as [|y l IH]; intros x; simpl.
  - split; [left|by apply Forall_singleton].
  - destruct (IH (x `max` y)) as [Hin Hle]. split.
    + apply elem_of_cons in Hin as [->|Hin]; [|by do 2 right].
      destruct (Z.max_spec x y) as [[_ ->]|[_ ->]]; [right; left|left].
    + apply Forall_cons in Hle as [Hxy Hle].
      rewrite !Forall_cons. split_and!; [lia..|done].
Qed.

Lemma process_entry_day day daily :
  Entry.day (process_entry utc_offset day daily) = day.
Proof.
  unfold process_entry.
  by destruct (non_awake_segments (Raw.sleep_graph (Daily.data daily))).
Qed.

Lemma ultrahuman_keep_longest_reconcile dates_to_exclude :
  keep_longest utc_offset isoformat dates_to_exclude
  = reconcile_step (day_of utc_offset isoformat) (bedtime_span utc_offset)
      (stored utc_offset) Daily.duration dates_to_exclude.
Proof. reflexivity. Qed.

Lemma process_ultrahuman_sleep_data_elem_of data excl entry :
  entry ∈ process_ultrahuman_sleep_data utc_offset isoformat data excl →
  ∃ sleep_data, sleep_data ∈ data
    ∧ (day_of utc_offset isoformat sleep_data ∉ excl)
    ∧ entry = process_entry utc_offset
                (day_of utc_offset isoformat sleep_data)
                (stored utc_offset sleep_data).
Proof.
  unfold process_ultrahuman_sleep_data, PyDict.items, group_by_day.
  rewrite elem_of_sorted, ultrahuman_keep_longest_reconcile.
  intros ([day daily] & -> & Hin)%list_elem_of_fmap.
  apply reconcile_elem_of in Hin as [?%elem_of_nil|(r & ? & <- & -> & ?)];
    [done|]. by exists r.
Qed.

(** Of the records of one day, the normalizer keeps the first with the
    longest bedtime span. *)
Lemma process_ultrahuman_sleep_data_first_longest data excl day :
  day ∉ excl →
  filter (λ r, day_of utc_offset isoformat r = day) data ≠ [] →
  ∃ kept,
    is_first_longest (bedtime_span utc_offset)
      (filter (λ r, day_of utc_offset isoformat r = day) data) kept
    ∧ filter (λ e, Entry.day e = day)
        (process_ultrahuman_sleep_data utc_offset isoformat data excl)
      = [process_entry utc_offset day (stored utc_offset kept)].
Proof.
  intros Hday Hne.
  destruct (reconcile_items (day_of utc_offset isoformat)
    (bedtime_span utc_offset) (stored utc_offset) Daily.duration excl
    (λ _, eq_refl) data day Hday Hne) as (kept & Hkept & Hitems).
  exists kept. split; [done|].
  unfold process_ultrahuman_sleep_data, PyDict.items, group_by_day.
  rewrite ultrahuman_keep_longest_reconcile.
  apply (filter_sorted_items Entry.day String.leb
    (λ '(day, daily), process_entry utc_offset day daily)
    _ day (day, stored utc_offset kept)); [|done].
  intros [k v] _. apply process_entry_day.
Qed.

Lemma is_first_longest_elem_of {A} (score : A → Z) (l : list A) (x : A) :
  is_first_longest score l x → x ∈ l.
Proof.
  intros (l1 & l2 & -> & _). apply elem_of_app. right. left.
Qed.

(** Every entry is computed from the record kept for its day, the first of
    that day with the longest bedtime span. *)
Lemma process_ultrahuman_sleep_data_kept data excl entry :
  entry ∈ process_ultrahuman_sleep_data utc_offset isoformat data excl →
  ∃ kept,
    is_first_longest (bedtime_span utc_offset)
      (filter (λ r, day_of utc_offset isoformat r = Entry.day entry) data) kept
    ∧ (Entry.day entry ∉ excl)
    ∧ entry = process_entry utc_offset (Entry.day entry)
                (stored utc_offset kept).
Proof.
  intros Hentry.
  destruct (process_ultrahuman_sleep_data_elem_of _ _ _ Hentry)
    as (r & Hr & Hday & Heq).
  assert (Entry.day entry = day_of utc_offset isoformat r) as Hentry_day
    by (rewrite Heq; apply process_entry_day).
  destruct (process_ultrahuman_sleep_data_first_longest data excl
    (Entry.day entry)) as (kept & Hkept & Hfilter).
  - by rewrite Hentry_day.
  - intros Hnil.
    by apply (filter_nil_not_elem_of _ _ r Hnil).
  - exists kept. split_and!; [done|by rewrite Hentry_day|].
    assert (entry ∈ filter (λ e, Entry.day e = Entry.day entry)
      (process_ultrahuman_sleep_data utc_offset isoformat data excl)) as Hin
      by by apply list_elem_of_filter.
    rewrite Hfilter in Hin. by apply list_elem_of_singleton in Hin.
Qed.

End ultrahuman_facts.

(** * The claims *)

(** ** C1: day reconciliation *)

(** C1, as stated, fails for the segment-list vendor: of two records of the
    same day, eight hours in bed with 200 minutes of sleep and then six hours
    in bed with 350 minutes of sleep, the normalizer keeps the 200-minute
    one. *)
Lemma reconciler_keeps_longer_bedtime :
  let out :=
    Ultrahuman.process_ultrahuman_sleep_data 0 Ultrahuman.date_isoformat
      [Examples.long_in_bed; Examples.long_asleep] [] in
  Ultrahuman.day_of 0 Ultrahuman.date_isoformat Examples.long_in_bed
  = Ultrahuman.day_of 0 Ultrahuman.date_isoformat Examples.long_asleep
  ∧ Ultrahuman.Entry.total_sleep_duration <$>
      Ultrahuman.process_ultrahuman_sleep_data 0 Ultrahuman.date_isoformat
        [Examples.long_asleep] [] = [350]
  ∧ Ultrahuman.Entry.total_sleep_duration <$> out = [200]
  ∧ out = Ultrahuman.process_ultrahuman_sleep_data 0 Ultrahuman.date_isoformat
            [Examples.long_in_bed] [].
Proof. vm_compute. by split_and!. Qed.

(** C1 (amended). For a day that is not excluded and has records, the
    phase-code vendor's fetch keeps exactly the first record, in input order,
    whose computed deep+light+rem total is largest; the segment-list
    vendor's normalizer keeps exactly the first record whose bedtime span
    (bedtime end minus bedtime start) is largest. *)
Theorem reconciler_keeps_first_longest :
  (∀ requests_get start_date end_date excl out day,
     Oura.get_oura_sleep_data requests_get start_date end_date excl = Ok out →
     let data :=
       Oura.json_data
         (requests_get start_date (default start_date end_date + 1)) in
     day ∉ excl → filter (λ s, Oura.Raw.day s = day) data ≠ [] →
     ∃ kept,
       is_first_longest Oura.computed_total_sleep_duration
         (filter (λ s, Oura.Raw.day s = day) data) kept
       ∧ filter (λ s, Oura.Raw.day s = day) out = [Oura.stored kept])
  ∧ (∀ utc_offset isoformat data excl day,
     day ∉ excl →
     filter (λ r, Ultrahuman.day_of utc_offset isoformat r = day) data ≠ [] →
     ∃ kept,
       is_first_longest (Ultrahuman.bedtime_span utc_offset)
         (filter (λ r, Ultrahuman.day_of utc_offset isoformat r = day) data)
         kept
       ∧ filter (λ e, Ultrahuman.Entry.day e = day)
           (Ultrahuman.process_ultrahuman_sleep_data utc_offset isoformat
              data excl)
         = [Ultrahuman.process_entry utc_offset day
              (Ultrahuman.stored utc_offset kept)]).
Proof.
  split.
  - intros *. apply get_oura_sleep_data_first_longest.
  - intros *. apply process_ultrahuman_sleep_data_first_longest.
Qed.

Lemma reconciler_keeps_first_longest_witness :
  (∃ kept,
     is_first_longest Oura.computed_total_sleep_duration
       (filter (λ s, Oura.Raw.day s = "2024-06-20")
          [Examples.nap_200; Examples.night_350; Examples.night_350_again]) kept
     ∧ filter (λ s, Oura.Raw.day s = "2024-06-20")
         [Oura.stored Examples.night_350] = [Oura.stored kept])
  ∧ (∃ kept,
     is_first_longest (Ultrahuman.bedtime_span 0)
       (filter (λ r, Ultrahuman.day_of 0 Ultrahuman.date_isoformat r
                     = "2024-06-20")
          [Examples.long_asleep; Examples.long_in_bed]) kept
     ∧ filter (λ e, Ultrahuman.Entry.day e = "2024-06-20")
         (Ultrahuman.process_ultrahuman_sleep_data 0 Ultrahuman.date_isoformat
            [Examples.long_asleep; Examples.long_in_bed] [])
       = [Ultrahuman.process_entry 0 "2024-06-20"
            (Ultrahuman.stored 0 kept)]).
Proof.
  split.
  - apply (proj1 reconciler_keeps_first_longest
      (Examples.oura_ok
         [Examples.nap_200; Examples.night_350; Examples.night_350_again])
      19894 None [] [Oura.stored Examples.night_350] "2024-06-20"%string).
    + vm_compute. reflexivity.
    + apply not_elem_of_nil.
    + vm_compute. discriminate.
  - apply (proj2 reconciler_keeps_first_longest 0 Ultrahuman.date_isoformat
      [Examples.long_asleep; Examples.long_in_bed] [] "2024-06-20"%string).
    + apply not_elem_of_nil.
    + vm_compute. discriminate.
Defined.

(** The claim's two examples on the phase-code vendor: of 200 and 350
    minutes the 350 is kept, and of two sessions of 350 the first. *)
Example reconciler_examples :
  Oura.get_oura_sleep_data
    (Examples.oura_ok [Examples.nap_200; Examples.night_350]) 19894 None []
  = Ok [Oura.stored Examples.night_350]
  ∧ Oura.get_oura_sleep_data
      (Examples.oura_ok [Examples.night_350; Examples.night_350_again])
      19894 None []
    = Ok [Oura.stored Examples.night_350].
Proof. split; vm_compute; reflexivity. Qed.

(** ** C2: total sleep and the stage minutes *)

Lemma div_60_sum (a b c : Z) :
  a / 60 + b / 60 + c / 60 ≤ (a + b + c) / 60 ≤ a / 60 + b / 60 + c / 60 + 2.
Proof. Z.div_mod_to_equations. lia. Qed.

Section stage_summary.
Import Ultrahuman.

Lemma sum_cons x l : sum (x :: l) = x + sum l.
Proof. reflexivity. Qed.

Lemma stage_time_of_absent tag sleep_stages :
  tag ∉ Stage.type <$> sleep_stages → stage_time_of tag sleep_stages = 0.
Proof.
  unfold stage_time_of. induction sleep_stages as [|stage l IH]; [done|].
  rewrite fmap_cons, not_elem_of_cons. intros [Hne Hl]. simpl.
  rewrite bool_decide_eq_false_2 by done. by apply IH.
Qed.

Lemma stage_time_of_cons tag stage sleep_stages :
  stage_time_of tag (stage :: sleep_stages)
  = if decide (Stage.type stage = tag) then Stage.stage_time stage
    else stage_time_of tag sleep_stages.
Proof. unfold stage_time_of. simpl. by case_bool_decide; case_decide. Qed.

(** A summary of distinct stages of the four kinds: the non-awake stage
    times are the deep, light and rem times. *)
Lemma non_awake_stage_time_sum sleep_stages :
  NoDup (Stage.type <$> sleep_stages) →
  Forall (λ stage, Stage.type stage
            ∈ ["deep_sleep"; "light_sleep"; "rem_sleep"; "awake"]%string)
    sleep_stages →
  non_awake_stage_time sleep_stages
  = stage_time_of "deep_sleep" sleep_stages
    + stage_time_of "light_sleep" sleep_stages
    + stage_time_of "rem_sleep" sleep_stages.
Proof.
  unfold non_awake_stage_time.
  induction sleep_stages as [|stage l IH]; [done|].
  rewrite fmap_cons, NoDup_cons, Forall_cons. intros [Hnew Hnd] [Hty Hl].
  rewrite !stage_time_of_cons. specialize (IH Hnd Hl).
  cbn [List.filter]. rewrite !elem_of_cons, elem_of_nil in Hty.
  destruct Hty as [Hty|[Hty|[Hty|[Hty|[]]]]]; rewrite Hty in *;
    pose proof (stage_time_of_absent _ _ Hnew);
    [rewrite bool_decide_eq_false_2 by done..
    |rewrite bool_decide_eq_true_2 by done];
    cbn [negb]; rewrite ?fmap_cons, ?sum_cons, IH; simpl; lia.
Qed.

End stage_summary.

(** C2, as stated, fails on both vendors: stages of 59, 200 and 89 whole
    minutes come with a total of 350 for the phase-code vendor, and two
    stages of half a minute with a total of 1 for the segment-list vendor. *)
Lemma total_sleep_exceeds_stage_minutes :
  Oura.get_oura_sleep_data
    (Examples.oura_ok [Examples.night_uneven]) 19896 None []
  = Ok [Oura.stored Examples.night_uneven]
  ∧ (∃ entry,
      Oura.process_sleep_data [Oura.stored Examples.night_uneven] []
      = Ok [entry]
      ∧ Oura.Entry.total_sleep_duration entry = 350
      ∧ Oura.Entry.deep_sleep_duration entry
        + Oura.Entry.light_sleep_duration entry
        + Oura.Entry.rem_sleep_duration entry = 348)
  ∧ (∃ entry,
      Ultrahuman.process_ultrahuman_sleep_data 0 Ultrahuman.date_isoformat
        [Examples.half_minutes] [] = [entry]
      ∧ Ultrahuman.Entry.total_sleep_duration entry = 1
      ∧ Ultrahuman.Entry.deep_sleep_duration entry
        + Ultrahuman.Entry.light_sleep_duration entry
        + Ultrahuman.Entry.rem_sleep_duration entry = 0).
Proof.
  split_and!; [vm_compute; reflexivity|..];
    (eexists; split_and!; [vm_compute; reflexivity|reflexivity..]).
Qed.

Lemma ultrahuman_process_entry_stages utc_offset day daily :
  let sleep_stages := Ultrahuman.Raw.sleep_stages (Ultrahuman.Daily.data daily) in
  let entry := Ultrahuman.process_entry utc_offset day daily in
  Ultrahuman.Entry.total_sleep_duration entry
  = Ultrahuman.non_awake_stage_time sleep_stages / 60
  ∧ Ultrahuman.Entry.deep_sleep_duration entry
    = Ultrahuman.stage_time_of "deep_sleep" sleep_stages / 60
  ∧ Ultrahuman.Entry.light_sleep_duration entry
    = Ultrahuman.stage_time_of "light_sleep" sleep_stages / 60
  ∧ Ultrahuman.Entry.rem_sleep_duration entry
    = Ultrahuman.stage_time_of "rem_sleep" sleep_stages / 60.
Proof.
  unfold Ultrahuman.process_entry.
  by destruct (Ultrahuman.non_awake_segments _).
Qed.

(** C2 (amended). The total is the summed stage seconds divided by 60 with
    truncation, (deep+light+rem seconds) // 60 for the phase-code vendor
    after its fetch and (sum of the non-awake summary stage times) // 60 for
    the segment-list vendor, while the deep, light and rem minutes are
    truncated one by one: the total is at least deep+light+rem minutes and
    at most 2 more (for the segment-list vendor when the summary holds
    distinct stages of the kinds deep_sleep, light_sleep, rem_sleep and
    awake). *)
Theorem total_sleep_is_truncated_stage_sum :
  (∀ requests_get start_date end_date excl raw excl' out entry,
     Oura.get_oura_sleep_data requests_get start_date end_date excl = Ok raw →
     Oura.process_sleep_data raw excl' = Ok out → entry ∈ out →
     ∃ session rem,
       session ∈ Oura.json_data
         (requests_get start_date (default start_date end_date + 1))
       ∧ Oura.Raw.rem_sleep_duration session = Some rem
       ∧ Oura.Entry.total_sleep_duration entry
         = (Oura.Raw.deep_sleep_duration session
            + Oura.Raw.light_sleep_duration session + rem) / 60
       ∧ Oura.Entry.deep_sleep_duration entry
         = Oura.Raw.deep_sleep_duration session / 60
       ∧ Oura.Entry.light_sleep_duration entry
         = Oura.Raw.light_sleep_duration session / 60
       ∧ Oura.Entry.rem_sleep_duration entry = rem / 60
       ∧ Oura.Entry.deep_sleep_duration entry
         + Oura.Entry.light_sleep_duration entry
         + Oura.Entry.rem_sleep_duration entry
         ≤ Oura.Entry.total_sleep_duration entry
         ≤ Oura.Entry.deep_sleep_duration entry
           + Oura.Entry.light_sleep_duration entry
           + Oura.Entry.rem_sleep_duration entry + 2)
  ∧ (∀ utc_offset isoformat data excl entry,
     entry ∈ Ultrahuman.process_ultrahuman_sleep_data utc_offset isoformat
               data excl →
     ∃ sleep_data,
       sleep_data ∈ data
       ∧ Ultrahuman.Entry.day entry
         = Ultrahuman.day_of utc_offset isoformat sleep_data
       ∧ let sleep_stages := Ultrahuman.Raw.sleep_stages sleep_data in
         Ultrahuman.Entry.total_sleep_duration entry
         = Ultrahuman.non_awake_stage_time sleep_stages / 60
         ∧ Ultrahuman.Entry.deep_sleep_duration entry
           = Ultrahuman.stage_time_of "deep_sleep" sleep_stages / 60
         ∧ Ultrahuman.Entry.light_sleep_duration entry
           = Ultrahuman.stage_time_of "light_sleep" sleep_stages / 60
         ∧ Ultrahuman.Entry.rem_sleep_duration entry
           = Ultrahuman.stage_time_of "rem_sleep" sleep_stages / 60
         ∧ (NoDup (Ultrahuman.Stage.type <$> sleep_stages) →
            Forall (λ stage, Ultrahuman.Stage.type stage
                      ∈ ["deep_sleep"; "light_sleep"; "rem_sleep"; "awake"]%string)
              sleep_stages →
            Ultrahuman.Entry.deep_sleep_duration entry
            + Ultrahuman.Entry.light_sleep_duration entry
            + Ultrahuman.Entry.rem_sleep_duration entry
            ≤ Ultrahuman.Entry.total_sleep_duration entry
            ≤ Ultrahuman.Entry.deep_sleep_duration entry
              + Ultrahuman.Entry.light_sleep_duration entry
              + Ultrahuman.Entry.rem_sleep_duration entry + 2)).
Proof.
  split.
  - intros * Hraw Hout Hentry.
    destruct (process_sleep_data_elem_of _ _ _ _ Hout Hentry)
      as (kept & Hkept & _ & Hok).
    destruct (get_oura_sleep_data_elem_of _ _ _ _ _ _ Hraw Hkept)
      as (session & Hsession & -> & _).
    apply process_entry_Ok in Hok
      as (phases & rem & _ & _ & Hrem & _ & _ & _ & _ & _ & _
          & Hdeep & Hlight & Hrem' & Htotal).
    simpl in Hrem, Hdeep, Hlight, Htotal.
    unfold Oura.computed_total_sleep_duration in Htotal.
    rewrite Hrem in Htotal. exists session, rem.
    pose proof (div_60_sum (Oura.Raw.deep_sleep_duration session)
      (Oura.Raw.light_sleep_duration session) rem) as Hsum.
    rewrite <-Hdeep, <-Hlight, <-Hrem', <-Htotal in Hsum.
    split_and!; (done || lia).
  - intros * Hentry.
    apply process_ultrahuman_sleep_data_elem_of in Hentry
      as (sleep_data & Hin & _ & ->).
    exists sleep_data. split_and!; [done|apply process_entry_day|].
    destruct (ultrahuman_process_entry_stages utc_offset
      (Ultrahuman.day_of utc_offset isoformat sleep_data)
      (Ultrahuman.stored utc_offset sleep_data))
      as (Htotal & Hdeep & Hlight & Hrem).
    simpl in Htotal, Hdeep, Hlight, Hrem. simpl.
    split_and!; try done. intros Hnd Hkinds.
    rewrite Htotal, Hdeep, Hlight, Hrem.
    rewrite (non_awake_stage_time_sum _ Hnd Hkinds). apply div_60_sum.
Qed.

Lemma total_sleep_is_truncated_stage_sum_witness :
  (∃ entry,
     Oura.process_sleep_data [Oura.stored Examples.night_uneven] []
     = Ok [entry]
     ∧ Oura.Entry.deep_sleep_duration entry
       + Oura.Entry.light_sleep_duration entry
       + Oura.Entry.rem_sleep_duration entry
       ≤ Oura.Entry.total_sleep_duration entry
       ≤ Oura.Entry.deep_sleep_duration entry
         + Oura.Entry.light_sleep_duration entry
         + Oura.Entry.rem_sleep_duration entry + 2)
  ∧ (∃ entry,
     Ultrahuman.process_ultrahuman_sleep_data 0 Ultrahuman.date_isoformat
       [Examples.long_asleep] [] = [entry]
     ∧ Ultrahuman.Entry.deep_sleep_duration entry
       + Ultrahuman.Entry.light_sleep_duration entry
       + Ultrahuman.Entry.rem_sleep_duration entry
       ≤ Ultrahuman.Entry.total_sleep_duration entry
       ≤ Ultrahuman.Entry.deep_sleep_duration entry
         + Ultrahuman.Entry.light_sleep_duration entry
         + Ultrahuman.Entry.rem_sleep_duration entry + 2).
Proof.
  split.
  - eexists. split; [vm_compute; reflexivity|].
    edestruct (proj1 total_sleep_is_truncated_stage_sum
      (Examples.oura_ok [Examples.night_uneven]) 19896 None []
      [Oura.stored Examples.night_uneven] [])
      as (session & rem & _ & _ & _ & _ & _ & _ & Hbounds);
      [vm_compute; reflexivity|vm_compute; reflexivity|left|exact Hbounds].
  - eexists. split; [vm_compute; reflexivity|].
    edestruct (proj2 total_sleep_is_truncated_stage_sum 0
      Ultrahuman.date_isoformat [Examples.long_asleep] [])
      as (sleep_data & Hin & _ & _ & _ & _ & _ & Hbounds); [left|].
    apply list_elem_of_singleton in Hin as ->.
    apply Hbounds; compute_done.
Defined.

(** ** C3: clock time to minute offset *)

(** C3, as stated, fails: 07:30 is before noon and maps to 450, not to
    450 - 1440. *)
Lemma time_to_minutes_morning_counterexample :
  let time := {| Oura.hour := 7; Oura.minute := 30 |} in
  ¬ (Oura.hour time < 12 →
     Oura.time_to_minutes time
     = Oura.hour time * 60 + Oura.minute time - 1440).
Proof. intros time Hclaim. by specialize (Hclaim eq_refl). Qed.

(** C3 (amended). A bedtime timestamp with clock hour h and minute m maps
    to h*60+m when h is before noon (the 24*60 minutes are added and
    subtracted again), and to h*60+m - 1440 when h is noon or later: the
    evening is negative, the morning positive. *)
Theorem time_to_minutes_spec (time : Oura.datetime) :
  (Oura.hour time < 12 →
   Oura.time_to_minutes time = Oura.hour time * 60 + Oura.minute time)
  ∧ (12 ≤ Oura.hour time →
     Oura.time_to_minutes time
     = Oura.hour time * 60 + Oura.minute time - 1440).
Proof.
  unfold Oura.time_to_minutes. split; intros Hhour; case_decide; lia.
Qed.

Lemma time_to_minutes_spec_witness :
  Oura.time_to_minutes {| Oura.hour := 7; Oura.minute := 30 |} = 450
  ∧ Oura.time_to_minutes {| Oura.hour := 23; Oura.minute := 15 |} = -45.
Proof.
  split.
  - apply (proj1 (time_to_minutes_spec {| Oura.hour := 7; Oura.minute := 30 |})).
    simpl. lia.
  - apply (proj2 (time_to_minutes_spec {| Oura.hour := 23; Oura.minute := 15 |})).
    simpl. lia.
Defined.

(** ** C4: the ordering of bedtime and sleep bounds *)

Lemma ultrahuman_process_entry_window utc_offset day sleep_data :
  let entry :=
    Ultrahuman.process_entry utc_offset day
      (Ultrahuman.stored utc_offset sleep_data) in
  let reference_date :=
    Ultrahuman.replace_midnight
      (Ultrahuman.fromtimestamp utc_offset
         (Ultrahuman.Raw.bedtime_end sleep_data)) in
  let minutes ts :=
    Ultrahuman.time_to_minutes (Ultrahuman.fromtimestamp utc_offset ts)
      reference_date in
  Ultrahuman.Entry.bedtime_start entry
  = minutes (Ultrahuman.Raw.bedtime_start sleep_data)
  ∧ Ultrahuman.Entry.bedtime_end entry
    = minutes (Ultrahuman.Raw.bedtime_end sleep_data)
  ∧ match Ultrahuman.non_awake_segments
            (Ultrahuman.Raw.sleep_graph sleep_data) with
    | [] =>
        Ultrahuman.Entry.sleeptime_start entry
        = Ultrahuman.Entry.bedtime_start entry
        ∧ Ultrahuman.Entry.sleeptime_end entry
          = Ultrahuman.Entry.bedtime_end entry
        ∧ Ultrahuman.Entry.awake_time_filtered entry = 0
    | segment :: segments =>
        let sleep_start :=
          Ultrahuman.min_of (Ultrahuman.Segment.start segment)
            (Ultrahuman.Segment.start <$> segments) in
        let sleep_end :=
          Ultrahuman.max_of (Ultrahuman.Segment.end_ segment)
            (Ultrahuman.Segment.end_ <$> segments) in
        Ultrahuman.Entry.sleeptime_start entry = minutes sleep_start
        ∧ Ultrahuman.Entry.sleeptime_end entry = minutes sleep_end
        ∧ Ultrahuman.Entry.awake_time_filtered entry
          = Ultrahuman.awake_time_in_window
              (Ultrahuman.Raw.sleep_graph sleep_data) sleep_start sleep_end
    end.
Proof.
  unfold Ultrahuman.process_entry. simpl.
  destruct (Ultrahuman.non_awake_segments _) as [|segment segments]; simpl;
    [done|].
  by rewrite !timestamp_fromtimestamp.
Qed.

(** C4, as stated, fails in each of its parts: a phase-code nap from 11:50
    to 12:10 has its sleep end after its bedtime end; a sleep graph that
    starts before the reported bedtime has its sleep start before the
    bedtime start; a graph that is awake throughout comes with the sleep
    of the stage summary, not with 0; and a phase string that is awake
    throughout yields no session at all. *)
Lemma bounds_ordering_counterexample :
  (∃ entry,
     Oura.process_sleep_data [Examples.noon_nap] [] = Ok [entry]
     ∧ ¬ Oura.Entry.sleeptime_end entry ≤ Oura.Entry.bedtime_end entry)
  ∧ (∃ entry,
     Ultrahuman.process_ultrahuman_sleep_data 0 Ultrahuman.date_isoformat
       [Examples.early_graph] [] = [entry]
     ∧ ¬ Ultrahuman.Entry.bedtime_start entry
         ≤ Ultrahuman.Entry.sleeptime_start entry)
  ∧ (∃ entry,
     Ultrahuman.process_ultrahuman_sleep_data 0 Ultrahuman.date_isoformat
       [Examples.awake_graph] [] = [entry]
     ∧ Ultrahuman.non_awake_segments
         (Ultrahuman.Raw.sleep_graph Examples.awake_graph) = []
     ∧ Ultrahuman.Entry.total_sleep_duration entry ≠ 0)
  ∧ Oura.process_sleep_data [Examples.all_awake] [] = Raise TypeError.
Proof.
  split_and!; [eexists; split_and!; [vm_compute; reflexivity|..]..|];
    by vm_compute.
Qed.

(** C4 (amended). Every session of the phase-code normalizer is computed
    from a record of the input and has
    bedtime_start ≤ sleep_start ≤ sleep_end ≤ bedtime_start + 5*L, L being
    the number of phase codes of its record; sleep_end is measured along the
    phase string and is not bounded by bedtime_end, and the total sleep is
    the record's total_sleep_duration // 60. Every session of the
    segment-list normalizer is computed from the record kept for its day,
    its times being read on a local clock at a fixed offset from UTC: the
    total sleep is the summed non-awake stage seconds // 60 whatever the
    sleep graph holds; a record without non-awake segments has its sleep
    bounds equal to its bedtime bounds and 0 awake minutes; and a record
    whose non-awake segments lie within the bedtime interval, each with
    start ≤ end, has bedtime_start ≤ sleep_start ≤ sleep_end ≤ bedtime_end. *)
Theorem bounds_ordering :
  (∀ data excl out entry,
     Oura.process_sleep_data data excl = Ok out → entry ∈ out →
     ∃ sleep_data,
       sleep_data ∈ data
       ∧ Oura.process_entry sleep_data = Ok entry
       ∧ Oura.Entry.total_sleep_duration entry
         = Oura.Raw.total_sleep_duration sleep_data / 60
       ∧ Oura.Entry.bedtime_start entry ≤ Oura.Entry.sleeptime_start entry
       ∧ Oura.Entry.sleeptime_start entry ≤ Oura.Entry.sleeptime_end entry
       ∧ Oura.Entry.sleeptime_end entry
         ≤ Oura.Entry.bedtime_start entry
           + 5 * Z.of_nat (String.length (Oura.Raw.sleep_phase_5_min sleep_data)))
  ∧ (∀ utc_offset isoformat data excl entry,
     entry ∈ Ultrahuman.process_ultrahuman_sleep_data utc_offset isoformat
               data excl →
     ∃ sleep_data,
       is_first_longest (Ultrahuman.bedtime_span utc_offset)
         (filter (λ r, Ultrahuman.day_of utc_offset isoformat r
                       = Ultrahuman.Entry.day entry) data) sleep_data
       ∧ entry = Ultrahuman.process_entry utc_offset
                   (Ultrahuman.Entry.day entry)
                   (Ultrahuman.stored utc_offset sleep_data)
       ∧ Ultrahuman.Entry.total_sleep_duration entry
         = Ultrahuman.non_awake_stage_time
             (Ultrahuman.Raw.sleep_stages sleep_data) / 60
       ∧ let non_awake :=
           Ultrahuman.non_awake_segments
             (Ultrahuman.Raw.sleep_graph sleep_data) in
         (non_awake = [] →
          Ultrahuman.Entry.sleeptime_start entry
          = Ultrahuman.Entry.bedtime_start entry
          ∧ Ultrahuman.Entry.sleeptime_end entry
            = Ultrahuman.Entry.bedtime_end entry
          ∧ Ultrahuman.Entry.awake_time_filtered entry = 0)
         ∧ (non_awake ≠ [] →
            Forall (λ segment,
                Ultrahuman.Raw.bedtime_start sleep_data
                ≤ Ultrahuman.Segment.start segment
                ∧ Ultrahuman.Segment.start segment
                  ≤ Ultrahuman.Segment.end_ segment
                ∧ Ultrahuman.Segment.end_ segment
                  ≤ Ultrahuman.Raw.bedtime_end sleep_data) non_awake →
            Ultrahuman.Entry.bedtime_start entry
            ≤ Ultrahuman.Entry.sleeptime_start entry
            ∧ Ultrahuman.Entry.sleeptime_start entry
              ≤ Ultrahuman.Entry.sleeptime_end entry
            ∧ Ultrahuman.Entry.sleeptime_end entry
              ≤ Ultrahuman.Entry.bedtime_end entry)).
Proof.
  split.
  - intros * Hout Hentry.
    destruct (process_sleep_data_elem_of _ _ _ _ Hout Hentry)
      as (sleep_data & Hin & _ & Hok).
    pose proof Hok as Hentry_ok. apply process_entry_Ok in Hok
      as (phases & rem & Hparse & Hawake & _ & _ & _ & _ & -> & -> & _
          & _ & _ & _ & Htotal).
    exists sleep_data.
    rewrite <-(parse_sleep_phases_length _ _ Hparse).
    pose proof (sleeptime_bounds (Oura.Entry.bedtime_start entry) _ Hawake).
    split_and!; [done..|lia|lia|lia].
  - intros * Hentry.
    apply process_ultrahuman_sleep_data_kept in Hentry
      as (sleep_data & Hkept & _ & Hentry).
    exists sleep_data. split_and!; [done..| |].
    { rewrite Hentry at 1.
      apply (ultrahuman_process_entry_stages utc_offset
        (Ultrahuman.Entry.day entry) (Ultrahuman.stored utc_offset sleep_data)). }
    destruct (ultrahuman_process_entry_window utc_offset
      (Ultrahuman.Entry.day entry) sleep_data) as (Hstart & Hend & Hwindow).
    rewrite <-Hentry in Hstart, Hend, Hwindow.
    simpl.
    destruct (Ultrahuman.non_awake_segments _) as [|segment segments].
    { split; [by intros _|by intros []]. }
    split; [by intros [=]|]. intros _ Hsegments.
    destruct Hwindow as (-> & -> & _). rewrite Hstart, Hend.
    destruct (min_of_spec (Ultrahuman.Segment.start segment)
      (Ultrahuman.Segment.start <$> segments)) as [Hmin_in Hmin].
    destruct (max_of_spec (Ultrahuman.Segment.end_ segment)
      (Ultrahuman.Segment.end_ <$> segments)) as [Hmax_in Hmax].
    change (?f segment :: (?f <$> segments)) with (f <$> segment :: segments)
      in Hmin_in, Hmax_in, Hmin, Hmax.
    apply list_elem_of_fmap in Hmin_in as (smin & Hmin_eq & Hsmin).
    apply list_elem_of_fmap in Hmax_in as (smax & Hmax_eq & Hsmax).
    rewrite Forall_forall in Hsegments.
    apply Forall_cons in Hmin as [Hmin _]. apply Forall_cons in Hmax as [Hmax _].
    pose proof (Hsegments _ Hsmin). pose proof (Hsegments _ Hsmax).
    pose proof (Hsegments segment ltac:(left)).
    unfold Ultrahuman.fromtimestamp.
    split_and!; apply time_to_minutes_mono; simpl in *; lia.
Qed.

(** A phase-code night; two segment-list records of one day, of which the
    second, with the longer bedtime, is kept and has its sleep window
    inside its bedtime; and a record that is awake throughout, with the
    stage summary's 10 minutes of sleep. *)
Lemma bounds_ordering_witness :
  (∃ entry,
     Oura.process_sleep_data [Examples.night_350] [] = Ok [entry]
     ∧ Oura.Entry.total_sleep_duration entry = 350
     ∧ Oura.Entry.bedtime_start entry ≤ Oura.Entry.sleeptime_start entry
     ∧ Oura.Entry.sleeptime_start entry ≤ Oura.Entry.sleeptime_end entry)
  ∧ (∃ entry,
     Ultrahuman.process_ultrahuman_sleep_data 0 Ultrahuman.date_isoformat
       [Examples.graph_example; Examples.restless_graph] [] = [entry]
     ∧ Ultrahuman.Entry.total_sleep_duration entry = 450 / 60
     ∧ Ultrahuman.Entry.bedtime_start entry
       ≤ Ultrahuman.Entry.sleeptime_start entry
     ∧ Ultrahuman.Entry.sleeptime_start entry
       ≤ Ultrahuman.Entry.sleeptime_end entry
     ∧ Ultrahuman.Entry.sleeptime_end entry
       ≤ Ultrahuman.Entry.bedtime_end entry)
  ∧ (∃ entry,
     Ultrahuman.process_ultrahuman_sleep_data 0 Ultrahuman.date_isoformat
       [Examples.awake_graph] [] = [entry]
     ∧ Ultrahuman.Entry.total_sleep_duration entry = 10
     ∧ Ultrahuman.Entry.sleeptime_start entry
       = Ultrahuman.Entry.bedtime_start entry
     ∧ Ultrahuman.Entry.sleeptime_end entry
       = Ultrahuman.Entry.bedtime_end entry
     ∧ Ultrahuman.Entry.awake_time_filtered entry = 0).
Proof.
  split_and!.
  - eexists. split; [vm_compute; reflexivity|].
    edestruct (proj1 bounds_ordering [Examples.night_350] [])
      as (sleep_data & Hin & _ & Htotal & Hstart & Hend & _);
      [vm_compute; reflexivity|left|].
    apply list_elem_of_singleton in Hin as ->.
    split_and!; [exact Htotal|exact Hstart|exact Hend].
  - eexists. split; [vm_compute; reflexivity|].
    edestruct (proj2 bounds_ordering 0 Ultrahuman.date_isoformat
      [Examples.graph_example; Examples.restless_graph] [])
      as (sleep_data & Hkept & _ & Htotal & _ & Hordered); [left|].
    assert (sleep_data = Examples.restless_graph) as ->.
    { destruct Hkept as (l1 & l2 & Hlist & Hbefore & Hafter).
      vm_compute in Hlist.
      destruct l1 as [|r1 [|r2 [|r3 l1]]]; simplify_eq; try done;
        apply Forall_cons in Hafter as [Hafter _]; by vm_compute in Hafter. }
    split; [exact Htotal|].
    apply Hordered; [vm_compute; discriminate|].
    vm_compute. repeat constructor; discriminate.
  - eexists. split; [vm_compute; reflexivity|].
    edestruct (proj2 bounds_ordering 0 Ultrahuman.date_isoformat
      [Examples.awake_graph] [])
      as (sleep_data & Hkept & _ & Htotal & Hfallback & _); [left|].
    assert (sleep_data = Examples.awake_graph) as ->.
    { apply is_first_longest_elem_of in Hkept. vm_compute in Hkept.
      by apply list_elem_of_singleton in Hkept. }
    split; [exact Htotal|]. apply Hfallback. vm_compute. reflexivity.
Defined.

(** ** C5: a phase sequence that is awake throughout *)

(** C5 fails on the code. For a record whose phase sequence consists of the
    awake code 4 only (the empty sequence included), lines 81 and 85 fall
    back to sleep_start = bedtime_start and sleep_end = bedtime_start + 5*L,
    but line 88 then evaluates [end_index + 1] with [end_index] being
    [None]: the record raises [TypeError], and since the loop catches
    nothing, a list that holds such a record on a day that is not excluded
    yields no session at all, neither for this record nor for any other. *)
Theorem all_awake_raises data excl sleep_data phases :
  sleep_data ∈ data →
  Oura.Raw.day sleep_data ∉ excl →
  Oura.parse_sleep_phases (Oura.Raw.sleep_phase_5_min sleep_data) = Ok phases →
  Forall (λ phase, phase = 4) phases →
  Oura.start_index phases = None
  ∧ Oura.end_index phases = None
  ∧ Oura.process_entry sleep_data = Raise TypeError
  ∧ Oura.process_sleep_data [sleep_data] excl = Raise TypeError
  ∧ ∃ e, Oura.process_sleep_data data excl = Raise e.
Proof.
  intros Hin Hday Hparse Hawake.
  pose proof (proj2 (start_index_None phases) Hawake) as Hstart.
  pose proof (proj2 (end_index_None phases) Hawake) as Hend.
  assert (Oura.process_entry sleep_data = Raise TypeError) as Hraise.
  { unfold Oura.process_entry. rewrite Hparse. cbn [mbind result_bind].
    unfold Oura.awake_time_filtered_phases. by rewrite Hend. }
  split_and!; [done..| |].
  - cbn [Oura.process_sleep_data]. rewrite decide_False by done.
    by rewrite Hraise.
  - destruct (Oura.process_sleep_data data excl) as [out|e] eqn:Hout;
      [|by exists e].
    exfalso. clear Hparse Hawake Hstart Hend. revert out Hout.
    induction data as [|r data IH]; intros out; [by apply elem_of_nil in Hin|].
    cbn [Oura.process_sleep_data].
    apply elem_of_cons in Hin as [<-|Hin].
    + rewrite decide_False by done. by rewrite Hraise.
    + destruct (decide (Oura.Raw.day r ∈ excl)); [by apply IH|].
      destruct (Oura.process_entry r); [|done]. cbn [mbind result_bind].
      destruct (Oura.process_sleep_data data excl) as [out'|]; [|done].
      intros _. by apply (IH Hin out').
Qed.

(** A night of sleep followed by a quarter of an hour awake in bed: the
    phase string "444" raises [TypeError] and the night's session is lost
    with it. *)
Lemma all_awake_raises_witness :
  Oura.process_entry Examples.all_awake = Raise TypeError
  ∧ Oura.process_sleep_data [Examples.all_awake] [] = Raise TypeError
  ∧ (∃ entry, Oura.process_sleep_data [Examples.night_350] [] = Ok [entry])
  ∧ ∃ e,
      Oura.process_sleep_data [Examples.night_350; Examples.all_awake] []
      = Raise e.
Proof.
  destruct (all_awake_raises [Examples.night_350; Examples.all_awake] []
    Examples.all_awake [4; 4; 4])
    as (_ & _ & Hentry & Hsingle & Hlist);
    [right; left|apply not_elem_of_nil|reflexivity
    |repeat constructor|].
  split_and!; [exact Hentry|exact Hsingle| |exact Hlist].
  eexists. vm_compute. reflexivity.
Defined.

(** ** C6: awake minutes inside the sleep window *)

Lemma List_filter_stdpp {A} (f : A → bool) (P : A → Prop)
    `{∀ x, Decision (P x)} (l : list A) :
  (∀ x, f x = true ↔ P x) → List.filter f l = filter P l.
Proof.
  intros Hf. induction l as [|x l IH]; [done|]. simpl.
  destruct (f x) eqn:Hfx.
  - rewrite filter_cons_True by by apply Hf. by rewrite IH.
  - rewrite filter_cons_False; [done|]. rewrite <-Hf. congruence.
Qed.

Lemma is_earliest_unique t t' l : is_earliest t l → is_earliest t' l → t = t'.
Proof.
  intros [Hin Hle] [Hin' Hle']. rewrite Forall_forall in Hle, Hle'.
  pose proof (Hle _ Hin'). pose proof (Hle' _ Hin). lia.
Qed.

Lemma is_latest_unique t t' l : is_latest t l → is_latest t' l → t = t'.
Proof.
  intros [Hin Hle] [Hin' Hle']. rewrite Forall_forall in Hle, Hle'.
  pose proof (Hle _ Hin'). pose proof (Hle' _ Hin). lia.
Qed.

Lemma non_awake_segments_filter sleep_graph :
  Ultrahuman.non_awake_segments sleep_graph
  = filter (λ segment, Ultrahuman.Segment.type segment ≠ "awake") sleep_graph.
Proof.
  apply List_filter_stdpp. intros segment. unfold Ultrahuman.is_awake.
  case_bool_decide; naive_solver.
Qed.

Lemma awake_time_in_window_filter sleep_graph sleep_start sleep_end :
  Ultrahuman.awake_time_in_window sleep_graph sleep_start sleep_end
  = Ultrahuman.sum
      ((λ segment,
          Ultrahuman.Segment.end_ segment - Ultrahuman.Segment.start segment)
       <$> filter (λ segment,
             Ultrahuman.Segment.type segment = "awake"
             ∧ sleep_start ≤ Ultrahuman.Segment.start segment < sleep_end)
           sleep_graph) / 60.
Proof.
  unfold Ultrahuman.awake_time_in_window. do 3 f_equal.
  apply List_filter_stdpp. intros segment. unfold Ultrahuman.is_awake.
  rewrite andb_true_iff, !bool_decide_eq_true. done.
Qed.

(** C6. Every session of the segment-list normalizer is computed from the
    record kept for its day. When that record has a non-awake sleep-graph
    segment, with sleep_start the earliest start and sleep_end the latest
    end of the non-awake segments (timestamps in seconds), the awake
    minutes of the session are the summed durations of the awake segments
    whose start lies in [sleep_start, sleep_end), divided by 60 with
    truncation; without such a segment they are 0. On the graph
    (asleep,0,300),(awake,300,360),(asleep,360,600) the window is 0 to 600
    seconds, minutes 0 to 10, with 1 awake minute. *)
Theorem awake_minutes_in_window :
  (∀ utc_offset isoformat data excl entry,
     entry ∈ Ultrahuman.process_ultrahuman_sleep_data utc_offset isoformat
               data excl →
     ∃ sleep_data,
       is_first_longest (Ultrahuman.bedtime_span utc_offset)
         (filter (λ r, Ultrahuman.day_of utc_offset isoformat r
                       = Ultrahuman.Entry.day entry) data) sleep_data
       ∧ entry = Ultrahuman.process_entry utc_offset
                   (Ultrahuman.Entry.day entry)
                   (Ultrahuman.stored utc_offset sleep_data)
       ∧ let sleep_graph := Ultrahuman.Raw.sleep_graph sleep_data in
         let non_awake :=
           filter (λ segment, Ultrahuman.Segment.type segment ≠ "awake")
             sleep_graph in
         (non_awake = [] → Ultrahuman.Entry.awake_time_filtered entry = 0)
         ∧ (non_awake ≠ [] →
            ∃ sleep_start sleep_end,
              is_earliest sleep_start (Ultrahuman.Segment.start <$> non_awake)
              ∧ is_latest sleep_end (Ultrahuman.Segment.end_ <$> non_awake)
              ∧ Ultrahuman.Entry.awake_time_filtered entry
                = Ultrahuman.sum
                    ((λ segment,
                        Ultrahuman.Segment.end_ segment
                        - Ultrahuman.Segment.start segment)
                     <$> filter (λ segment,
                           Ultrahuman.Segment.type segment = "awake"
                           ∧ sleep_start ≤ Ultrahuman.Segment.start segment
                             < sleep_end)
                         sleep_graph) / 60))
  ∧ (let non_awake :=
       filter (λ segment, Ultrahuman.Segment.type segment ≠ "awake")
         (Ultrahuman.Raw.sleep_graph Examples.graph_example) in
     is_earliest 0 (Ultrahuman.Segment.start <$> non_awake)
     ∧ is_latest 600 (Ultrahuman.Segment.end_ <$> non_awake)
     ∧ ∃ entry,
         Ultrahuman.process_ultrahuman_sleep_data 0 Ultrahuman.date_isoformat
           [Examples.graph_example] [] = [entry]
         ∧ Ultrahuman.Entry.sleeptime_start entry = 0
         ∧ Ultrahuman.Entry.sleeptime_end entry = 10
         ∧ Ultrahuman.Entry.awake_time_filtered entry = 1).
Proof.
  split.
  - intros * Hentry.
    apply process_ultrahuman_sleep_data_kept in Hentry
      as (sleep_data & Hkept & _ & Hentry).
    exists sleep_data. split_and!; [done..|]. simpl.
    rewrite <-non_awake_segments_filter.
    destruct (ultrahuman_process_entry_window utc_offset
      (Ultrahuman.Entry.day entry) sleep_data) as (_ & _ & Hwindow).
    rewrite <-Hentry in Hwindow.
    destruct (Ultrahuman.non_awake_segments _) as [|segment segments].
    + split; [|done]. intros _. by destruct Hwindow as (_ & _ & ->).
    + split; [done|]. intros _. destruct Hwindow as (_ & _ & ->).
      eexists _, _. split_and!;
        [apply min_of_spec|apply max_of_spec|apply awake_time_in_window_filter].
  - split_and!.
    + split; [vm_compute; left|]. vm_compute. repeat constructor; discriminate.
    + split; [vm_compute; right; left|].
      vm_compute. repeat constructor; discriminate.
    + eexists. split_and!; [vm_compute; reflexivity|reflexivity..].
Qed.

(** Two records of one day, the second with the longer bedtime: the session
    is computed from the second, whose sleep window runs from second 100 to
    second 700 and holds two awake segments of 60 and 90 seconds; the awake
    segments before second 100 and from second 700 on are not counted. *)
Lemma awake_minutes_in_window_witness :
  ∃ entry,
    Ultrahuman.process_ultrahuman_sleep_data 0 Ultrahuman.date_isoformat
      [Examples.graph_example; Examples.restless_graph] [] = [entry]
    ∧ is_earliest 100
        (Ultrahuman.Segment.start <$>
         filter (λ segment, Ultrahuman.Segment.type segment ≠ "awake")
           (Ultrahuman.Raw.sleep_graph Examples.restless_graph))
    ∧ is_latest 700
        (Ultrahuman.Segment.end_ <$>
         filter (λ segment, Ultrahuman.Segment.type segment ≠ "awake")
           (Ultrahuman.Raw.sleep_graph Examples.restless_graph))
    ∧ Ultrahuman.Entry.awake_time_filtered entry = ((360 - 300) + (450 - 360)) / 60
    ∧ Ultrahuman.Entry.awake_time_filtered entry = 2.
Proof.
  eexists. split; [vm_compute; reflexivity|].
  assert (is_earliest 100
    (Ultrahuman.Segment.start <$>
     filter (λ segment, Ultrahuman.Segment.type segment ≠ "awake")
       (Ultrahuman.Raw.sleep_graph Examples.restless_graph))) as Hearliest.
  { split; [vm_compute; left|]. vm_compute. repeat constructor; discriminate. }
  assert (is_latest 700
    (Ultrahuman.Segment.end_ <$>
     filter (λ segment, Ultrahuman.Segment.type segment ≠ "awake")
       (Ultrahuman.Raw.sleep_graph Examples.restless_graph))) as Hlatest.
  { split; [vm_compute; right; left|].
    vm_compute. repeat constructor; discriminate. }
  edestruct (proj1 awake_minutes_in_window 0 Ultrahuman.date_isoformat
    [Examples.graph_example; Examples.restless_graph] [])
    as (sleep_data & Hkept & _ & _ & Hwindow); [left|].
  assert (sleep_data = Examples.restless_graph) as ->.
  { destruct Hkept as (l1 & l2 & Hlist & Hbefore & Hafter).
    vm_compute in Hlist.
    destruct l1 as [|r1 [|r2 [|r3 l1]]]; simplify_eq; try done;
      apply Forall_cons in Hafter as [Hafter _]; by vm_compute in Hafter. }
  destruct Hwindow as (sleep_start & sleep_end & Hstart & Hend & Hawake);
    [vm_compute; discriminate|].
  rewrite (is_earliest_unique _ _ _ Hstart Hearliest),
    (is_latest_unique _ _ _ Hend Hlatest) in Hawake.
  split_and!; [done|done|exact Hawake|exact Hawake].
Defined.

(** ** C7: the merge with the anecdotal series *)

Section merger_facts.
Import Merger.
Context {Timestamp : Type} `{EqDecision Timestamp}.
Variable to_datetime : string → Timestamp.

(** With distinct keys on the right, at most one right row matches. *)
Lemma filter_unique_key {R} (right_on : R → Timestamp) (right : list R)
    (key : option Timestamp) :
  NoDup (right_on <$> right) →
  List.filter (λ r, bool_decide (key = Some (right_on r))) right
  = option_list
      (List.find (λ r, bool_decide (key = Some (right_on r))) right).
Proof.
  induction right as [|r right IH]; [done|].
  rewrite fmap_cons, NoDup_cons. intros [Hr Hnd]. simpl.
  case_bool_decide as Hkey; [|by apply IH]. simpl. f_equal.
  rewrite IH by done.
  destruct (List.find _ right) as [r'|] eqn:Hfind; [|done].
  apply find_some in Hfind as [Hin Hr'%bool_decide_eq_true].
  destruct Hr. apply list_elem_of_fmap. exists r'.
  split; [congruence|by apply list_elem_of_In].
Qed.

Lemma merge_left_unique {L R} (left_on : L → option Timestamp)
    (right_on : R → Timestamp) (left : list L) (right : list R) :
  NoDup (right_on <$> right) →
  merge_left left_on right_on left right
  = (λ l, (l, List.find (λ r, bool_decide (left_on l = Some (right_on r)))
                right)) <$> left.
Proof.
  intros Hnd. unfold merge_left.
  induction left as [|l left IH]; [done|].
  rewrite bind_cons, fmap_cons, IH, filter_unique_key by done.
  by destruct (List.find _ right).
Qed.

Lemma find_no_match {R} (right_on : R → Timestamp) (right : list R)
    (key : Timestamp) :
  key ∉ right_on <$> right →
  List.find (λ r, bool_decide (Some key = Some (right_on r))) right = None.
Proof.
  intros Hkey. destruct (List.find _ right) as [r|] eqn:Hfind; [|done].
  apply find_some in Hfind as [Hin [= Hr]%bool_decide_eq_true].
  destruct Hkey. apply list_elem_of_fmap. exists r.
  split; [done|by apply list_elem_of_In].
Qed.

Lemma find_false {R} (right : list R) : List.find (λ _, false) right = None.
Proof. by induction right. Qed.

Lemma day_column_nonempty {A} (day : A → string) (data : list A) :
  data ≠ [] → day_column to_datetime day data = Ok (to_datetime ∘ day <$> data).
Proof. by destruct data. Qed.

(** Without vendor data the merge raises. *)
Lemma create_dataframes_empty oura_data ultrahuman_data anecdotal_data :
  oura_data = [] ∨ ultrahuman_data = [] →
  create_dataframes to_datetime oura_data ultrahuman_data anecdotal_data
  = Raise (KeyError "day").
Proof.
  unfold create_dataframes. intros [->| ->]; [done|]. by destruct oura_data.
Qed.

(** With data of both vendors, one entry per day each, the merge is the
    left join on the anecdotal rows: one row per anecdotal row, in order,
    and a row whose date has no phase-code entry carries 0 in every vendor
    column. *)
Lemma create_dataframes_left_join oura_data ultrahuman_data anecdotal_data :
  oura_data ≠ [] → ultrahuman_data ≠ [] →
  NoDup (to_datetime ∘ Oura.Entry.day <$> oura_data) →
  NoDup (to_datetime ∘ Ultrahuman.Entry.day <$> ultrahuman_data) →
  ∃ rows,
    create_dataframes to_datetime oura_data ultrahuman_data anecdotal_data
    = Ok rows
    ∧ Row.Date <$> rows = Anecdotal.Date <$> anecdotal_data
    ∧ Forall2 (λ anecdotal row,
        Anecdotal.Date anecdotal
          ∉ (to_datetime ∘ Oura.Entry.day <$> oura_data) →
        Row.day row = None
        ∧ Row.numeric row
          = (prod_map id (default 0) <$> Anecdotal.numeric anecdotal)
            ++ oura_columns None ++ ultrahuman_columns None)
        anecdotal_data rows.
Proof.
  intros Houra Hultrahuman Hnd_oura Hnd_ultrahuman.
  unfold create_dataframes. rewrite !day_column_nonempty by done.
  cbn [mbind result_bind]. rewrite !merge_left_unique by done.
  eexists. split; [reflexivity|]. rewrite <-!list_fmap_compose. split.
  - by apply list_fmap_ext.
  - apply Forall2_fmap_r, Forall_Forall2_diag, Forall_forall.
    intros anecdotal _ Hday.
    pose proof (find_no_match _ _ _ Hday) as Hfind.
    simpl in Hfind |- *. rewrite Hfind. simpl. by rewrite find_false.
Qed.

End merger_facts.

(** C7 fails on the code: with no session from either vendor, a day that is
    present only in the anecdotal series yields no zero-filled row; the
    merge raises [KeyError] on the ['day'] column of the empty frame. *)
Theorem merger_raises_without_vendor_data :
  Merger.create_dataframes id [] []
    [ {| Merger.Anecdotal.Date := "2024-06-20"%string;
         Merger.Anecdotal.numeric := [("jared_total_sleep"%string, Some 400)] |} ]
  = Raise (KeyError "day").
Proof. reflexivity. Qed.

(** ** C8: failing fetches *)

Lemma fetch_each_day_cons isoformat requests_get excl day days :
  fetch_each_day isoformat requests_get excl (day :: days)
  = let rest := fetch_each_day isoformat requests_get excl days in
    if decide (isoformat day ∈ excl) then rest
    else if decide (Ultrahuman.status_code (requests_get day) = 200)
    then (Ultrahuman.metric_data_6 (requests_get day) :: rest.1, rest.2)
    else (rest.1,
          Ultrahuman.ErrorRetrieving day
            (Ultrahuman.status_code (requests_get day))
          :: Ultrahuman.ResponseText (Ultrahuman.text (requests_get day))
          :: rest.2).
Proof.
  unfold fetch_each_day. simpl.
  destruct (decide (isoformat day ∈ excl)) as [Hex|Hex].
  - by rewrite (filter_cons_False _ day days) by by intros ?.
  - rewrite (filter_cons_True _ day days) by done.
    destruct (decide (Ultrahuman.status_code (requests_get day) = 200))
      as [Hok|Hfail].
    + rewrite filter_cons_True by done. by rewrite filter_cons_False by by intros ?.
    + rewrite filter_cons_False by done. by rewrite filter_cons_True by done.
Qed.

Lemma fetch_loop_spec isoformat requests_get excl end_date fuel :
  ∀ current_date sleep_data_list stdout,
    Z.of_nat fuel = Z.max 0 (end_date - current_date + 1) →
    Ultrahuman.fetch_loop isoformat requests_get fuel current_date end_date
      excl sleep_data_list stdout
    = let fetched :=
        fetch_each_day isoformat requests_get excl
          (seqZ current_date (Z.of_nat fuel)) in
      (sleep_data_list ++ fetched.1, stdout ++ fetched.2).
Proof.
  induction fuel as [|fuel IH]; intros current_date l out Hfuel.
  - simpl. by rewrite !app_nil_r.
  - cbn [Ultrahuman.fetch_loop]. rewrite decide_True by lia.
    rewrite seqZ_cons by lia. rewrite fetch_each_day_cons.
    replace (Z.pred (Z.of_nat (S fuel))) with (Z.of_nat fuel) by lia.
    replace (Z.succ current_date) with (current_date + 1) by lia.
    destruct (decide (isoformat current_date ∈ excl)).
    { rewrite IH by lia. done. }
    destruct (decide (Ultrahuman.status_code (requests_get current_date) = 200)).
    + rewrite IH by lia. simpl. by rewrite <-!app_assoc.
    + rewrite IH by lia. simpl. by rewrite <-!app_assoc.
Qed.

(** *** The fetch on the JSON payload *)

Section json_facts.
Import OuraJson.

Lemma getitem_Ok obj key v : getitem obj key = Ok v ↔ PyDict.get obj key = Some v.
Proof. unfold getitem. destruct (PyDict.get obj key); naive_solver. Qed.

Lemma getitem_Raise obj key e : getitem obj key = Raise e → payload_error e.
Proof. unfold getitem. by destruct (PyDict.get obj key); intros [= <-]. Qed.

Lemma add_Ok a b c : add a b = Ok c → a ≠ Null ∧ b ≠ Null.
Proof. by destruct a, b. Qed.

Lemma add_Raise a b e : add a b = Raise e → payload_error e.
Proof. by destruct a, b; intros [= <-]. Qed.

Lemma lt_Raise a b e : lt a b = Raise e → payload_error e.
Proof. by destruct a, b; intros [= <-]. Qed.

Lemma computed_total_sleep_duration_Raise session e :
  computed_total_sleep_duration session = Raise e → payload_error e.
Proof.
  unfold computed_total_sleep_duration.
  destruct (PyDict.get session "rem_sleep_duration"); [|done].
  destruct (getitem session "deep_sleep_duration") as [deep|] eqn:Hdeep;
    [|intros [= <-]; by eapply getitem_Raise].
  cbn [mbind result_bind].
  destruct (getitem session "light_sleep_duration") as [light|] eqn:Hlight;
    [|intros [= <-]; by eapply getitem_Raise].
  cbn [mbind result_bind].
  destruct (add deep light) as [deep_light|] eqn:Hadd;
    [|intros [= <-]; by eapply add_Raise].
  cbn [mbind result_bind].
  destruct (getitem session "rem_sleep_duration") as [rem|] eqn:Hrem;
    [|intros [= <-]; by eapply getitem_Raise].
  cbn [mbind result_bind]. apply add_Raise.
Qed.

Lemma keep_longest_Raise excl d session e :
  keep_longest excl d session = Raise e → payload_error e.
Proof.
  unfold keep_longest.
  destruct (getitem session "day") as [day|] eqn:Hday;
    [|intros [= <-]; by eapply getitem_Raise].
  cbn [mbind result_bind]. destruct (excluded day excl); [done|].
  destruct (computed_total_sleep_duration session) as [total|] eqn:Htotal;
    [|intros [= <-]; by eapply computed_total_sleep_duration_Raise].
  cbn [mbind result_bind].
  destruct (PyDict.get d day) as [kept|]; cbn [mbind result_bind].
  - destruct (getitem kept "total_sleep_duration") as [kept_total|] eqn:Hkept;
      [|intros [= <-]; by eapply getitem_Raise].
    cbn [mbind result_bind].
    destruct (gt total kept_total) as [[]|] eqn:Hgt; cbn [mbind result_bind];
      [done..|]. intros [= <-]. by eapply lt_Raise.
  - done.
Qed.

Lemma group_by_day_Raise excl d data e :
  group_by_day excl d data = Raise e → payload_error e.
Proof.
  revert d. induction data as [|session data IH]; intros d; [done|].
  cbn [group_by_day].
  destruct (keep_longest excl d session) as [d'|] eqn:Hkeep;
    [|intros [= <-]; by eapply keep_longest_Raise].
  apply IH.
Qed.

Lemma keyed_Raise values e : keyed values = Raise e → payload_error e.
Proof.
  induction values as [|x values IH]; [done|]. cbn [keyed].
  destruct (getitem x "day") eqn:Hday;
    [|intros [= <-]; by eapply getitem_Raise].
  cbn [mbind result_bind]. destruct (keyed values); [done|].
  intros [= <-]. by apply IH.
Qed.

Lemma insert_sorted_Raise x l e :
  insert_sorted x l = Raise e → payload_error e.
Proof.
  induction l as [|y l IH]; [done|]. cbn [insert_sorted].
  destruct (lt y.1 x.1) as [[]|] eqn:Hlt; cbn [mbind result_bind];
    [|done|intros [= <-]; by eapply lt_Raise].
  destruct (insert_sorted x l); [done|]. intros [= <-]. by apply IH.
Qed.

Lemma sort_keyed_Raise l e : sort_keyed l = Raise e → payload_error e.
Proof.
  induction l as [|x l IH]; [done|]. cbn [sort_keyed].
  destruct (sort_keyed l) as [l'|]; cbn [mbind result_bind];
    [apply insert_sorted_Raise|]. intros [= <-]. by apply IH.
Qed.

Lemma sorted_by_day_Raise values e :
  sorted_by_day values = Raise e → payload_error e.
Proof.
  unfold sorted_by_day.
  destruct (keyed values) as [l|] eqn:Hkeyed;
    [|intros [= <-]; by eapply keyed_Raise].
  cbn [mbind result_bind].
  destruct (sort_keyed l) as [l'|] eqn:Hsort; [done|].
  intros [= <-]. by eapply sort_keyed_Raise.
Qed.

(** On an answered request only the payload can make the fetch raise. *)
Lemma get_oura_sleep_data_Raise requests_get start_date end_date excl e :
  get_oura_sleep_data requests_get start_date end_date excl = Raise e →
  let response := requests_get start_date (default start_date end_date + 1) in
  if decide (status_code response = 200) then payload_error e
  else e = Exception (status_code response).
Proof.
  unfold get_oura_sleep_data. simpl. case_decide; [|by intros [= <-]].
  destruct (data _) as [data|]; [|by intros [= <-]].
  cbn [mbind result_bind].
  destruct (group_by_day excl [] data) as [d|] eqn:Hgroup;
    [|intros [= <-]; by eapply group_by_day_Raise].
  apply sorted_by_day_Raise.
Qed.

(** *** What a returning fetch has read *)

Lemma keep_longest_readable excl d session d' :
  keep_longest excl d session = Ok d' → readable excl session.
Proof.
  unfold keep_longest, readable, getitem.
  destruct (PyDict.get session "day") as [day|]; [|done].
  cbn [mbind result_bind]. intros Hkeep. exists day. split; [done|].
  destruct (excluded day excl); [by left|]. right.
  unfold computed_total_sleep_duration, getitem in Hkeep.
  destruct (PyDict.get session "rem_sleep_duration") as [rem|]; [|by left].
  right.
  destruct (PyDict.get session "deep_sleep_duration") as [deep|]; [|done].
  destruct (PyDict.get session "light_sleep_duration") as [light|]; [|done].
  cbn [mbind result_bind] in Hkeep.
  destruct (add deep light) as [deep_light|] eqn:Hadd; [|done].
  cbn [mbind result_bind] in Hkeep.
  destruct (add deep_light rem) as [total|] eqn:Htotal; [|done].
  apply add_Ok in Hadd as [? ?]. apply add_Ok in Htotal as [_ ?].
  by exists deep, light, rem.
Qed.

Lemma group_by_day_readable excl d data d' :
  group_by_day excl d data = Ok d' → Forall (readable excl) data.
Proof.
  revert d. induction data as [|session data IH]; intros d; [done|].
  cbn [group_by_day].
  destruct (keep_longest excl d session) as [d''|] eqn:Hkeep; [|done].
  cbn [mbind result_bind]. intros Hrest. constructor.
  - by eapply keep_longest_readable.
  - by eapply IH.
Qed.

Lemma get_oura_sleep_data_readable requests_get start_date end_date excl out :
  get_oura_sleep_data requests_get start_date end_date excl = Ok out →
  let response := requests_get start_date (default start_date end_date + 1) in
  status_code response = 200
  ∧ ∃ payload, data response = Some payload ∧ Forall (readable excl) payload.
Proof.
  unfold get_oura_sleep_data. simpl. case_decide; [|done].
  destruct (data _) as [payload|]; [|done]. cbn [mbind result_bind].
  destruct (group_by_day excl [] payload) as [d|] eqn:Hgroup; [|done].
  intros _. split; [done|]. exists payload. split; [done|].
  by eapply group_by_day_readable.
Qed.

End json_facts.

(** *** Typed payloads *)

Section json_typed.

Lemma leb_negb_ltb (s1 s2 : string) :
  String.leb s1 s2 = negb (String.ltb s2 s1).
Proof.
  unfold String.leb, String.ltb. rewrite (String.compare_antisym s2 s1).
  by destruct (String.compare s1 s2).
Qed.

Lemma get_reads_as_slot d_json d k :
  Forall2 reads_as_slot d_json d →
  option_Forall2 reads_as_stored
    (PyDict.get d_json (OuraJson.Str k)) (PyDict.get d k).
Proof.
  induction 1 as [|[kj oj] [kt st] d_json d [Hk Hstored] _ IH]; [constructor|].
  simpl in Hk. subst kj. simpl.
  destruct (decide (k = kt)) as [->|Hne].
  - rewrite decide_True by done. by constructor.
  - rewrite decide_False by congruence. done.
Qed.

Lemma set_reads_as_slot d_json d k json session :
  Forall2 reads_as_slot d_json d → reads_as_stored json session →
  Forall2 reads_as_slot
    (PyDict.set d_json (OuraJson.Str k) json) (PyDict.set d k session).
Proof.
  intros Hd Hstored.
  induction Hd as [|[kj oj] [kt st] d_json d [Hk Hslot] Hd IH].
  { simpl. constructor; [by split|constructor]. }
  simpl in Hk. subst kj. simpl.
  destruct (decide (k = kt)) as [->|Hne].
  - rewrite decide_True by done. constructor; [by split|done].
  - rewrite decide_False by congruence. constructor; [by split|done].
Qed.

Lemma computed_total_sleep_duration_reads_as json session :
  reads_as json session →
  OuraJson.computed_total_sleep_duration json
  = Ok (OuraJson.Int (Oura.computed_total_sleep_duration session)).
Proof.
  intros (_ & Hdeep & Hlight & Hrem).
  unfold OuraJson.computed_total_sleep_duration,
    Oura.computed_total_sleep_duration, OuraJson.getitem.
  rewrite Hrem, Hdeep, Hlight.
  by destruct (Oura.Raw.rem_sleep_duration session).
Qed.

Lemma set_total_reads_as_stored json session total :
  reads_as json session →
  reads_as_stored
    (PyDict.set json "total_sleep_duration" (OuraJson.Int total))
    (Oura.Raw.set_total_sleep_duration session total).
Proof.
  intros (Hday & Hdeep & Hlight & Hrem). split; [|apply get_set_eq].
  split_and!; by rewrite get_set_ne by done.
Qed.

Lemma keep_longest_reads_as excl d_json d json session :
  Forall2 reads_as_slot d_json d → reads_as json session →
  ∃ d_json',
    OuraJson.keep_longest excl d_json json = Ok d_json'
    ∧ Forall2 reads_as_slot d_json' (Oura.keep_longest excl d session).
Proof.
  intros Hd Hjson. pose proof Hjson as (Hday & _).
  unfold OuraJson.keep_longest, Oura.keep_longest, OuraJson.getitem.
  rewrite Hday. cbn [mbind result_bind OuraJson.excluded].
  destruct (decide (Oura.Raw.day session ∈ excl)) as [Hex|Hex].
  { rewrite bool_decide_eq_true_2 by done. by eexists. }
  rewrite bool_decide_eq_false_2 by done.
  rewrite (computed_total_sleep_duration_reads_as _ _ Hjson).
  cbn [mbind result_bind].
  destruct (get_reads_as_slot _ _ (Oura.Raw.day session) Hd)
    as [kept_json kept [_ Hkept]|]; cbn [mbind result_bind].
  - rewrite Hkept. cbn [mbind result_bind OuraJson.gt OuraJson.lt].
    case_bool_decide as Hgt.
    + rewrite bool_decide_eq_true_2 by lia. eexists. split; [done|].
      apply set_reads_as_slot; [done|]. by apply set_total_reads_as_stored.
    + rewrite bool_decide_eq_false_2 by lia. by eexists.
  - eexists. split; [done|].
    apply set_reads_as_slot; [done|]. by apply set_total_reads_as_stored.
Qed.

Lemma group_by_day_reads_as excl d_json d payload data :
  Forall2 reads_as_slot d_json d → Forall2 reads_as payload data →
  ∃ d_json',
    OuraJson.group_by_day excl d_json payload = Ok d_json'
    ∧ Forall2 reads_as_slot d_json' (foldl (Oura.keep_longest excl) d data).
Proof.
  intros Hd Hdata. revert d_json d Hd.
  induction Hdata as [|json session payload data Hjson _ IH]; intros d_json d Hd.
  { by exists d_json. }
  destruct (keep_longest_reads_as excl _ _ _ _ Hd Hjson) as (d' & Hkeep & Hd').
  cbn [OuraJson.group_by_day foldl]. rewrite Hkeep. cbn [mbind result_bind].
  by apply IH.
Qed.

Lemma keyed_reads_as values sessions :
  Forall2 reads_as_stored values sessions →
  ∃ l,
    OuraJson.keyed values = Ok l
    ∧ l.*2 = values ∧ Forall2 reads_as_keyed l sessions.
Proof.
  induction 1
    as [|json session values sessions Hstored _ (l & Hl & Hvalues & IH)].
  { by exists []. }
  pose proof Hstored as ((Hday & _) & _).
  exists ((OuraJson.Str (Oura.Raw.day session), json) :: l).
  cbn [OuraJson.keyed]. unfold OuraJson.getitem. rewrite Hday, Hl.
  cbn [mbind result_bind].
  split_and!; [done|by rewrite fmap_cons, Hvalues|by constructor].
Qed.

Lemma insert_sorted_reads_as x session l sessions :
  reads_as_keyed x session → Forall2 reads_as_keyed l sessions →
  ∃ l',
    OuraJson.insert_sorted x l = Ok l'
    ∧ Forall2 reads_as_keyed l'
        (insert_sorted Oura.Raw.day String.leb session sessions).
Proof.
  intros Hx Hl.
  induction Hl as [|y s l sessions Hy Hl (l' & Hl' & IH)].
  { exists [x]. split; [done|]. simpl. constructor; [done|constructor]. }
  cbn [OuraJson.insert_sorted insert_sorted].
  destruct Hx as [Hxk Hxs], Hy as [Hyk Hys].
  rewrite Hxk, Hyk. cbn [OuraJson.lt mbind result_bind]. rewrite leb_negb_ltb.
  destruct (String.ltb (Oura.Raw.day s) (Oura.Raw.day session)); cbn [negb].
  - rewrite Hl'. cbn [mbind result_bind]. eexists. split; [done|].
    constructor; [by split|done].
  - eexists. split; [done|].
    constructor; [by split|]. constructor; [by split|done].
Qed.

Lemma sort_keyed_reads_as l sessions :
  Forall2 reads_as_keyed l sessions →
  ∃ l',
    OuraJson.sort_keyed l = Ok l'
    ∧ Forall2 reads_as_keyed l' (sorted Oura.Raw.day String.leb sessions).
Proof.
  induction 1 as [|x session l sessions Hx _ (l' & Hl' & IH)].
  { by exists []. }
  cbn [OuraJson.sort_keyed]. rewrite Hl'. cbn [mbind result_bind].
  by apply insert_sorted_reads_as.
Qed.

Lemma sorted_by_day_reads_as values sessions :
  Forall2 reads_as_stored values sessions →
  ∃ out,
    OuraJson.sorted_by_day values = Ok out
    ∧ Forall2 reads_as_stored out (sorted Oura.Raw.day String.leb sessions).
Proof.
  intros (l & Hl & _ & Hkeyed)%keyed_reads_as.
  destruct (sort_keyed_reads_as _ _ Hkeyed) as (l' & Hl' & Hsorted).
  unfold OuraJson.sorted_by_day. rewrite Hl. cbn [mbind result_bind].
  rewrite Hl'. cbn [mbind result_bind]. eexists. split; [done|].
  apply Forall2_fmap_l. eapply Forall2_impl; [exact Hsorted|].
  by intros [k json] session [_ Hstored].
Qed.

(** On a payload whose sessions are typed, the fetch on JSON does what the
    fetch on typed records does. *)
Lemma get_oura_sleep_data_typed
    requests_get_json requests_get start_date end_date excl :
  (∀ start stop,
     OuraJson.status_code (requests_get_json start stop)
     = Oura.status_code (requests_get start stop)
     ∧ ∃ payload,
         OuraJson.data (requests_get_json start stop) = Some payload
         ∧ Forall2 reads_as payload (Oura.json_data (requests_get start stop))) →
  match Oura.get_oura_sleep_data requests_get start_date end_date excl with
  | Ok sessions =>
      ∃ out,
        OuraJson.get_oura_sleep_data requests_get_json start_date end_date excl
        = Ok out
        ∧ Forall2 reads_as_stored out sessions
  | Raise e =>
      OuraJson.get_oura_sleep_data requests_get_json start_date end_date excl
      = Raise e
  end.
Proof.
  intros Htyped.
  unfold OuraJson.get_oura_sleep_data, Oura.get_oura_sleep_data. simpl.
  destruct (Htyped start_date (default start_date end_date + 1))
    as (-> & payload & -> & Hpayload).
  case_decide; [|done]. cbn [mbind result_bind].
  destruct (group_by_day_reads_as excl [] [] _ _ (Forall2_nil_2 _ _ _) Hpayload)
    as (d & -> & Hd).
  cbn [mbind result_bind]. apply sorted_by_day_reads_as.
  unfold PyDict.values, Oura.group_by_day.
  apply Forall2_fmap. eapply Forall2_impl; [exact Hd|].
  by intros [k json] [k' session] [_ Hstored].
Qed.

End json_typed.

(** C8, as stated, fails in its "only if": a request answered with status
    200 still makes the phase-code fetch raise, and return nothing, when
    the body has no ['data'] key, when a session has no ['day'] key, and
    when a session of a day that is not excluded holds the rem field
    together with a deep field that is missing or [null]. The same
    sessions go through when their day is excluded. *)
Lemma fetch_raises_on_answered_request :
  OuraJson.status_code (JsonExamples.answered None 19894 19895) = 200
  ∧ OuraJson.get_oura_sleep_data (JsonExamples.answered None) 19894 None []
    = Raise (KeyError "data")
  ∧ OuraJson.get_oura_sleep_data
      (JsonExamples.answered (Some [JsonExamples.no_day])) 19894 None []
    = Raise (KeyError "day")
  ∧ OuraJson.get_oura_sleep_data
      (JsonExamples.answered
         (Some [JsonExamples.complete; JsonExamples.no_deep])) 19894 None []
    = Raise (KeyError "deep_sleep_duration")
  ∧ OuraJson.get_oura_sleep_data
      (JsonExamples.answered
         (Some [JsonExamples.complete; JsonExamples.null_deep])) 19894 None []
    = Raise TypeError
  ∧ ∃ out,
      OuraJson.get_oura_sleep_data
        (JsonExamples.answered
           (Some [JsonExamples.complete; JsonExamples.no_deep]))
        19894 None ["2024-06-21"%string]
      = Ok [out].
Proof.
  split_and!; [reflexivity..|]. eexists. vm_compute. reflexivity.
Qed.

(** C8 (amended). The body of the response being a JSON object whose
    ['data'], when present, is a list of sessions with fields that are
    absent, [null], integers or strings: the phase-code vendor's fetch
    raises the exception of line 54 exactly when the response status is not
    200. On a status of 200 it can only raise [KeyError] or [TypeError],
    from the payload; when
    it returns, the status was 200, the body held the ['data'] key and
    every session held a day and, unless that day is excluded or the rem
    field is absent, deep, light and rem fields that are present and not
    [null]; and on a payload whose sessions are typed (a string day,
    integer deep and light fields, an integer rem field or none) it returns
    what the fetch on typed records returns. Either way it returns all of
    its result or nothing. The segment-list vendor's fetch, each answer of
    status 200 carrying the sleep metric, always returns: over the days of
    the range it collects the payload of every day answered with status 200
    and prints an error for every other requested day, which contributes no
    entry and does not keep the later days from being fetched. *)
Theorem fetch_failure_handling :
  (∀ requests_get start_date end_date excl,
     let response :=
       requests_get start_date (default start_date end_date + 1) in
     let fetched :=
       OuraJson.get_oura_sleep_data requests_get start_date end_date excl in
     ((∃ status, fetched = Raise (Exception status))
      ↔ OuraJson.status_code response ≠ 200)
     ∧ (OuraJson.status_code response ≠ 200 →
        fetched = Raise (Exception (OuraJson.status_code response)))
     ∧ (OuraJson.status_code response = 200 →
        ∀ e, fetched = Raise e → payload_error e)
     ∧ (∀ out,
        fetched = Ok out →
        OuraJson.status_code response = 200
        ∧ ∃ payload,
            OuraJson.data response = Some payload
            ∧ Forall (readable excl) payload))
  ∧ (∀ requests_get_json requests_get start_date end_date excl,
     (∀ start stop,
        OuraJson.status_code (requests_get_json start stop)
        = Oura.status_code (requests_get start stop)
        ∧ ∃ payload,
            OuraJson.data (requests_get_json start stop) = Some payload
            ∧ Forall2 reads_as payload
                (Oura.json_data (requests_get start stop))) →
     match Oura.get_oura_sleep_data requests_get start_date end_date excl with
     | Ok sessions =>
         ∃ out,
           OuraJson.get_oura_sleep_data requests_get_json
             start_date end_date excl = Ok out
           ∧ Forall2 reads_as_stored out sessions
     | Raise e =>
         OuraJson.get_oura_sleep_data requests_get_json
           start_date end_date excl = Raise e
     end)
  ∧ (∀ isoformat requests_get start_date end_date excl,
     Ultrahuman.get_ultrahuman_sleep_data isoformat requests_get
       start_date end_date excl
     = fetch_each_day isoformat requests_get excl
         (seqZ start_date (default start_date end_date - start_date + 1))).
Proof.
  split_and!.
  - intros requests_get start_date end_date excl response fetched.
    assert (OuraJson.status_code response ≠ 200 →
      fetched = Raise (Exception (OuraJson.status_code response))) as Hfailed.
    { intros Hstatus. unfold fetched, OuraJson.get_oura_sleep_data. simpl.
      fold response. by rewrite decide_False by done. }
    assert (OuraJson.status_code response = 200 →
      ∀ e, fetched = Raise e → payload_error e) as Hanswered.
    { intros Hstatus e Hraise.
      apply get_oura_sleep_data_Raise in Hraise. simpl in Hraise.
      fold response in Hraise. by rewrite decide_True in Hraise by done. }
    split_and!; [|done|done|].
    + split; [|by eexists; apply Hfailed].
      intros [status Hraise] Hstatus.
      apply (Hanswered Hstatus _ Hraise).
    + intros out Hout. by apply get_oura_sleep_data_readable in Hout.
  - intros *. apply get_oura_sleep_data_typed.
  - intros *. unfold Ultrahuman.get_ultrahuman_sleep_data.
    rewrite fetch_loop_spec by lia. simpl.
    destruct (decide (0 ≤ default start_date end_date - start_date + 1)).
    + by rewrite Z2Nat.id by done.
    + rewrite Z2Nat.nonpos by lia. by rewrite !seqZ_nil by lia.
Qed.

(** Days 1 to 4 with days 2 and 3 answered by status 500: the payloads of
    days 1 and 4 are returned and two errors are printed. *)
Example fetch_failure_example :
  Ultrahuman.get_ultrahuman_sleep_data Ultrahuman.date_isoformat
    (Examples.ultrahuman_http [2; 3]) 1 (Some 4) []
  = ([Examples.graph_example; Examples.graph_example],
     [Ultrahuman.ErrorRetrieving 2 500;
      Ultrahuman.ResponseText "Internal Server Error";
      Ultrahuman.ErrorRetrieving 3 500;
      Ultrahuman.ResponseText "Internal Server Error"]).
Proof. vm_compute. reflexivity. Qed.

(** A request answered 404; a typed payload of one session, returned with
    its computed total; and the segment-list fetch over four days. *)
Lemma fetch_failure_handling_witness :
  OuraJson.get_oura_sleep_data
    (λ _ _, {| OuraJson.status_code := 404;
               OuraJson.data := Some [JsonExamples.complete] |})
    19894 None [] = Raise (Exception 404)
  ∧ (∃ out,
      OuraJson.get_oura_sleep_data
        (JsonExamples.answered (Some [JsonExamples.complete])) 19894 None []
      = Ok out
      ∧ Forall2 reads_as_stored out [Oura.stored Examples.night_350])
  ∧ Ultrahuman.get_ultrahuman_sleep_data Ultrahuman.date_isoformat
      (Examples.ultrahuman_http [2; 3]) 1 (Some 4) []
    = fetch_each_day Ultrahuman.date_isoformat
        (Examples.ultrahuman_http [2; 3]) [] (seqZ 1 4).
Proof.
  split_and!.
  - apply (proj1 (proj2 (proj1 fetch_failure_handling
      (λ _ _, {| OuraJson.status_code := 404;
                 OuraJson.data := Some [JsonExamples.complete] |})
      19894 None []))).
    simpl. discriminate.
  - apply (proj1 (proj2 fetch_failure_handling)
      (JsonExamples.answered (Some [JsonExamples.complete]))
      (Examples.oura_ok [Examples.night_350]) 19894 None []).
    intros start stop. split; [reflexivity|].
    exists [JsonExamples.complete]. split; [reflexivity|].
    constructor; [|constructor]. by split_and!.
  - apply (proj2 (proj2 fetch_failure_handling)).
Defined.

(** ** C9: excluded days *)

(** C9. A day of the exclusion list has no session in the output of the
    phase-code fetch, of the phase-code normalizer or of the segment-list
    normalizer, whatever records the input holds for it. *)
Theorem excluded_days_absent :
  (∀ requests_get start_date end_date excl out session,
     Oura.get_oura_sleep_data requests_get start_date end_date excl = Ok out →
     session ∈ out → Oura.Raw.day session ∉ excl)
  ∧ (∀ data excl out entry,
     Oura.process_sleep_data data excl = Ok out → entry ∈ out →
     Oura.Entry.day entry ∉ excl)
  ∧ (∀ utc_offset isoformat data excl entry,
     entry ∈ Ultrahuman.process_ultrahuman_sleep_data utc_offset isoformat
               data excl →
     Ultrahuman.Entry.day entry ∉ excl).
Proof.
  split_and!.
  - intros * Hout Hin.
    by destruct (get_oura_sleep_data_elem_of _ _ _ _ _ _ Hout Hin)
      as (raw & _ & -> & ?).
  - intros * Hout Hin.
    destruct (process_sleep_data_elem_of _ _ _ _ Hout Hin)
      as (sleep_data & _ & Hday & Hok).
    apply process_entry_Ok in Hok as (_ & _ & _ & _ & _ & -> & _). done.
  - intros * Hin.
    apply process_ultrahuman_sleep_data_elem_of in Hin
      as (sleep_data & _ & Hday & ->).
    by rewrite process_entry_day.
Qed.

Lemma excluded_days_absent_witness :
  (Oura.Raw.day (Oura.stored Examples.night_uneven) ∉ ["2024-06-20"%string])
  ∧ (∃ entry,
      Oura.process_sleep_data [Examples.nap_200; Examples.night_uneven]
        ["2024-06-20"%string] = Ok [entry]
      ∧ Oura.Entry.day entry ∉ ["2024-06-20"%string])
  ∧ (∃ entry,
      Ultrahuman.process_ultrahuman_sleep_data 0 Ultrahuman.date_isoformat
        [Examples.long_in_bed; Examples.graph_example] ["2024-06-20"%string]
      = [entry]
      ∧ Ultrahuman.Entry.day entry ∉ ["2024-06-20"%string]).
Proof.
  split_and!.
  - apply (proj1 excluded_days_absent
      (Examples.oura_ok [Examples.nap_200; Examples.night_uneven]) 19894
      (Some 19896) ["2024-06-20"%string] [Oura.stored Examples.night_uneven]).
    + vm_compute. reflexivity.
    + left.
  - eexists. split; [vm_compute; reflexivity|].
    eapply (proj1 (proj2 excluded_days_absent)
      [Examples.nap_200; Examples.night_uneven] ["2024-06-20"%string]);
      [vm_compute; reflexivity|left].
  - eexists. split; [vm_compute; reflexivity|].
    eapply (proj2 (proj2 excluded_days_absent) 0 Ultrahuman.date_isoformat
      [Examples.long_in_bed; Examples.graph_example]).
    vm_compute. left.
Defined.

(** ** C10: the subtraction-based awake measure *)

(** C10. In every session of the phase-code normalizer the subtraction-based
    awake measure is max(0, awake_time // 60 - trimmed), the trimmed edges
    being (sleep_start - bedtime_start) + (bedtime_end - sleep_end), and so
    it is never negative. *)
Theorem awake_subtraction_clamped data excl out entry :
  Oura.process_sleep_data data excl = Ok out → entry ∈ out →
  ∃ sleep_data,
    sleep_data ∈ data
    ∧ Oura.process_entry sleep_data = Ok entry
    ∧ Oura.Entry.awake_time_filtered_subtraction entry
      = Z.max 0
          (Oura.Raw.awake_time sleep_data / 60
           - ((Oura.Entry.sleeptime_start entry - Oura.Entry.bedtime_start entry)
              + (Oura.Entry.bedtime_end entry - Oura.Entry.sleeptime_end entry)))
    ∧ 0 ≤ Oura.Entry.awake_time_filtered_subtraction entry.
Proof.
  intros Hout Hentry.
  destruct (process_sleep_data_elem_of _ _ _ _ Hout Hentry)
    as (sleep_data & Hin & _ & Hok).
  pose proof Hok as Hentry_ok. apply process_entry_Ok in Hok
    as (_ & _ & _ & _ & _ & Hday & _ & _ & _ & _ & Hsub & _).
  exists sleep_data. split_and!; [done..| |].
  - by rewrite Hsub.
  - rewrite Hsub. unfold Oura.awake_time_filtered_subtraction. lia.
Qed.

(** The trimmed edges (445 minutes) exceed the reported awake time (130
    minutes), and the measure is 0. *)
Lemma awake_subtraction_clamped_witness :
  ∃ entry,
    Oura.process_sleep_data [Examples.night_350] [] = Ok [entry]
    ∧ Oura.Raw.awake_time Examples.night_350 / 60
      - ((Oura.Entry.sleeptime_start entry - Oura.Entry.bedtime_start entry)
         + (Oura.Entry.bedtime_end entry - Oura.Entry.sleeptime_end entry))
      = -315
    ∧ Oura.Entry.awake_time_filtered_subtraction entry = 0.
Proof.
  eexists. split; [vm_compute; reflexivity|].
  edestruct (awake_subtraction_clamped [Examples.night_350] [])
    as (sleep_data & Hin & _ & Hsub & _); [vm_compute; reflexivity|left|].
  apply list_elem_of_singleton in Hin as ->.
  split; [reflexivity|exact Hsub].
Defined.

(** * Further properties of the code *)

(** ** Sorting by day *)

Section sorted_by_key.
Context {A : Type} (key : A → string).

Lemma insert_sorted_Sorted x l :
  Sorted (λ a b, String.leb (key a) (key b) = true) l →
  Sorted (λ a b, String.leb (key a) (key b) = true)
    (insert_sorted key String.leb x l).
Proof.
  induction l as [|y l IH]; intros Hl; simpl.
  - by repeat constructor.
  - destruct (String.leb (key x) (key y)) eqn:Hxy.
    + constructor; [done|by constructor].
    + apply Sorted_inv in Hl as [Hl Hy]. constructor; [by apply IH|].
      assert (String.leb (key y) (key x) = true) as Hyx.
      { destruct (String.leb_total (key x) (key y)); congruence. }
      destruct l as [|z l]; simpl; [by constructor|].
      destruct (String.leb (key x) (key z)); constructor; [done|].
      by apply HdRel_inv in Hy.
Qed.

Lemma sorted_Sorted l :
  Sorted (λ a b, String.leb (key a) (key b) = true) (sorted key String.leb l).
Proof.
  induction l as [|x l IH]; simpl; [constructor|].
  by apply insert_sorted_Sorted.
Qed.

Lemma leb_ne_ltb (s1 s2 : string) :
  String.leb s1 s2 = true → s1 ≠ s2 → String.ltb s1 s2 = true.
Proof.
  unfold String.leb, String.ltb.
  destruct (String.compare s1 s2) eqn:Hcmp; [|done..].
  by intros _ []; apply String.compare_eq_iff.
Qed.

(** Sorted keys without duplicates increase strictly. *)
Lemma Sorted_leb_NoDup_ltb l :
  Sorted (λ a b, String.leb (key a) (key b) = true) l →
  NoDup (key <$> l) →
  Sorted (λ a b, String.ltb (key a) (key b) = true) l.
Proof.
  induction l as [|x l IH]; [constructor|].
  rewrite fmap_cons, NoDup_cons. intros [Hl Hx]%Sorted_inv [Hnew Hnd].
  constructor; [by apply IH|].
  destruct l as [|y l]; constructor. apply HdRel_inv in Hx.
  apply leb_ne_ltb; [done|]. intros Heq. apply Hnew. rewrite Heq. left.
Qed.

End sorted_by_key.

(** ** The phase-code fetch *)

Lemma oura_group_by_day_keys excl data :
  Oura.Raw.day <$> PyDict.values (Oura.group_by_day excl data)
  = (Oura.group_by_day excl data).*1.
Proof.
  unfold PyDict.values. rewrite <-list_fmap_compose.
  apply Forall_fmap_ext, Forall_forall. intros [day session] Hin.
  by apply group_by_day_elem_of in Hin as (raw & _ & <- & -> & _).
Qed.

Lemma oura_group_by_day_NoDup excl data :
  NoDup (Oura.group_by_day excl data).*1.
Proof.
  unfold Oura.group_by_day. rewrite oura_keep_longest_reconcile.
  apply reconcile_NoDup, NoDup_nil_2.
Qed.

(** X1. The phase-code fetch returns its sessions in strictly increasing
    order of their day, so no two of them share a day. *)
Theorem oura_fetch_sorted_distinct requests_get start_date end_date excl out :
  Oura.get_oura_sleep_data requests_get start_date end_date excl = Ok out →
  Sorted (λ a b, String.ltb (Oura.Raw.day a) (Oura.Raw.day b) = true) out
  ∧ NoDup (Oura.Raw.day <$> out).
Proof.
  intros [_ ->]%get_oura_sleep_data_Ok.
  assert (NoDup (Oura.Raw.day <$>
    sorted Oura.Raw.day String.leb
      (PyDict.values (Oura.group_by_day excl
         (Oura.json_data
            (requests_get start_date (default start_date end_date + 1)))))))
    as Hnd.
  { rewrite sorted_Permutation, oura_group_by_day_keys.
    apply oura_group_by_day_NoDup. }
  split; [|done]. apply Sorted_leb_NoDup_ltb; [apply sorted_Sorted|done].
Qed.

Lemma oura_fetch_sorted_distinct_witness :
  Sorted (λ a b, String.ltb (Oura.Raw.day a) (Oura.Raw.day b) = true)
    [Oura.stored Examples.night_350; Oura.stored Examples.night_uneven]
  ∧ NoDup (Oura.Raw.day <$>
      [Oura.stored Examples.night_350; Oura.stored Examples.night_uneven]).
Proof.
  apply (oura_fetch_sorted_distinct
    (Examples.oura_ok
       [Examples.night_uneven; Examples.nap_200; Examples.night_350])
    19894 (Some 19896) []).
  vm_compute. reflexivity.
Defined.

(** X2. The days of the sessions returned by the phase-code fetch are
    exactly the days of the payload that are not excluded. *)
Theorem oura_fetch_days requests_get start_date end_date excl out day :
  Oura.get_oura_sleep_data requests_get start_date end_date excl = Ok out →
  day ∈ Oura.Raw.day <$> out
  ↔ (day ∉ excl)
    ∧ day ∈ Oura.Raw.day <$>
        Oura.json_data
          (requests_get start_date (default start_date end_date + 1)).
Proof.
  intros Hout. split.
  - intros (session & -> & Hin)%list_elem_of_fmap.
    destruct (get_oura_sleep_data_elem_of _ _ _ _ _ _ Hout Hin)
      as (raw & Hraw & -> & Hday).
    split; [done|]. apply list_elem_of_fmap. by exists raw.
  - intros [Hday (raw & -> & Hraw)%list_elem_of_fmap].
    destruct (get_oura_sleep_data_first_longest _ _ _ _ _ (Oura.Raw.day raw)
      Hout Hday) as (kept & _ & Hkept).
    { intros Hnil. apply (filter_nil_not_elem_of _ _ raw Hnil eq_refl Hraw). }
    apply list_elem_of_fmap. exists (Oura.stored kept).
    assert (Oura.stored kept ∈ filter
      (λ s, Oura.Raw.day s = Oura.Raw.day raw) out) as Hin
      by (rewrite Hkept; left).
    apply list_elem_of_filter in Hin as [Heq Hin]. by split.
Qed.

Lemma oura_fetch_days_witness :
  "2024-06-22"%string ∈ Oura.Raw.day <$>
    [Oura.stored Examples.night_350; Oura.stored Examples.night_uneven]
  ↔ ("2024-06-22"%string ∉ @nil string)
    ∧ "2024-06-22"%string ∈ Oura.Raw.day <$>
        [Examples.night_uneven; Examples.nap_200; Examples.night_350].
Proof.
  apply (oura_fetch_days
    (Examples.oura_ok
       [Examples.night_uneven; Examples.nap_200; Examples.night_350])
    19894 (Some 19896) []).
  vm_compute. reflexivity.
Defined.

Lemma set_total_sleep_duration_stored session total :
  Oura.stored (Oura.Raw.set_total_sleep_duration session total)
  = Oura.stored session.
Proof. reflexivity. Qed.

Lemma oura_keep_longest_set_total excl d session total :
  Oura.keep_longest excl d (Oura.Raw.set_total_sleep_duration session total)
  = Oura.keep_longest excl d session.
Proof. reflexivity. Qed.

(** X3. The phase-code fetch never reads the vendor's own
    [total_sleep_duration]: replacing that field in every session of the
    payload by any other figure leaves the result unchanged. *)
Theorem oura_fetch_ignores_vendor_total
    requests_get start_date end_date excl (vendor_total : Oura.Raw.session → Z) :
  Oura.get_oura_sleep_data
    (λ start stop,
       {| Oura.status_code := Oura.status_code (requests_get start stop);
          Oura.json_data :=
            (λ session,
               Oura.Raw.set_total_sleep_duration session (vendor_total session))
            <$> Oura.json_data (requests_get start stop) |})
    start_date end_date excl
  = Oura.get_oura_sleep_data requests_get start_date end_date excl.
Proof.
  unfold Oura.get_oura_sleep_data. simpl. case_decide; [|done].
  do 3 f_equal. unfold Oura.group_by_day.
  generalize (@nil (string * Oura.Raw.session)).
  induction (Oura.json_data _) as [|session data IH]; intros d; [done|].
  rewrite fmap_cons. cbn [foldl].
  by rewrite oura_keep_longest_set_total, IH.
Qed.

(** X4. When the phase-code normalizer returns, its entries are those of the
    records whose day is not excluded, one entry per record and in the order
    of the input; it does not merge records of the same day. *)
Theorem process_sleep_data_days data excl out :
  Oura.process_sleep_data data excl = Ok out →
  Oura.Entry.day <$> out = filter (λ day, day ∉ excl) (Oura.Raw.day <$> data).
Proof.
  revert out. induction data as [|sleep_data data IH]; intros out.
  - by intros [= <-].
  - rewrite fmap_cons. cbn [Oura.process_sleep_data].
    destruct (decide (Oura.Raw.day sleep_data ∈ excl)) as [Hex|Hex].
    + intros Hout. rewrite filter_cons_False by by intros ?. by apply IH.
    + rewrite filter_cons_True by done.
      destruct (Oura.process_entry sleep_data) as [entry|] eqn:Hentry; [|done].
      cbn [mbind result_bind].
      destruct (Oura.process_sleep_data data excl) as [entries|]; [|done].
      cbn [mbind result_bind]. intros [= <-].
      rewrite fmap_cons, (IH entries) by done. f_equal.
      by apply process_entry_Ok in Hentry as (_ & _ & _ & _ & _ & -> & _).
Qed.

Lemma process_sleep_data_days_witness :
  ∃ out,
    Oura.process_sleep_data
      [Examples.nap_200; Examples.night_uneven; Examples.night_350]
      ["2024-06-22"%string] = Ok out
    ∧ Oura.Entry.day <$> out = ["2024-06-20"; "2024-06-20"]%string.
Proof.
  eexists. split; [vm_compute; reflexivity|].
  apply (process_sleep_data_days
    [Examples.nap_200; Examples.night_uneven; Examples.night_350]
    ["2024-06-22"%string]).
  vm_compute. reflexivity.
Defined.

(** ** The phase-code normalizer *)

(** X5. In the phase-code normalizer a clock time between 00:00 and 23:59
    maps to ((h*60 + m + 720) mod 1440) - 720, the minutes elapsed since
    noon less 720: an offset from -720 (noon) up to 719 (11:59 the next
    morning). *)
Theorem oura_time_to_minutes_range (time : Oura.datetime) :
  0 ≤ Oura.hour time < 24 → 0 ≤ Oura.minute time < 60 →
  Oura.time_to_minutes time
  = (Oura.hour time * 60 + Oura.minute time + 720) `mod` 1440 - 720
  ∧ -720 ≤ Oura.time_to_minutes time < 720.
Proof.
  intros Hhour Hminute. unfold Oura.time_to_minutes.
  case_decide; Z.div_mod_to_equations; lia.
Qed.

Lemma oura_time_to_minutes_range_witness :
  Oura.time_to_minutes {| Oura.hour := 12; Oura.minute := 0 |}
  = (12 * 60 + 0 + 720) `mod` 1440 - 720
  ∧ -720 ≤ Oura.time_to_minutes {| Oura.hour := 12; Oura.minute := 0 |} < 720.
Proof.
  apply (oura_time_to_minutes_range {| Oura.hour := 12; Oura.minute := 0 |});
    simpl; lia.
Defined.

Lemma int_of_char_Ok c :
  is_digit c →
  Oura.int_of_char c = Ok (Z.of_N (Ascii.N_of_ascii c) - 48).
Proof. intros Hc. unfold Oura.int_of_char. simpl. by rewrite decide_True. Qed.

Lemma int_of_char_Raise c :
  ¬ is_digit c → Oura.int_of_char c = Raise ValueError.
Proof. intros Hc. unfold Oura.int_of_char. simpl. by rewrite decide_False. Qed.

Lemma parse_sleep_phases_Raise (sleep_phase_str : string) e :
  Oura.parse_sleep_phases sleep_phase_str = Raise e → e = ValueError.
Proof.
  induction sleep_phase_str as [|c str IH]; simpl; [done|].
  destruct (decide (is_digit c)) as [Hc|Hc].
  - rewrite int_of_char_Ok by done. simpl.
    destruct (Oura.parse_sleep_phases str); [done|]. simpl.
    intros [= <-]. by apply IH.
  - rewrite int_of_char_Raise by done. simpl. by intros [= <-].
Qed.

(** X6. On a phase string whose characters have code points below 256,
    parsing succeeds exactly when every character is one of '0' to '9'; it
    then yields one code between 0 and 9 per character, in order, and
    otherwise raises [ValueError]. *)
Theorem parse_sleep_phases_digits (sleep_phase_str : string) :
  let chars := String.list_ascii_of_string sleep_phase_str in
  (Forall is_digit chars →
   Oura.parse_sleep_phases sleep_phase_str
   = Ok ((λ c, Z.of_N (Ascii.N_of_ascii c) - 48) <$> chars))
  ∧ (¬ Forall is_digit chars →
     Oura.parse_sleep_phases sleep_phase_str = Raise ValueError)
  ∧ (∀ phases,
     Oura.parse_sleep_phases sleep_phase_str = Ok phases →
     length phases = String.length sleep_phase_str
     ∧ Forall (λ phase, 0 ≤ phase ≤ 9) phases).
Proof.
  induction sleep_phase_str as [|c str (IHok & IHraise & IHphases)]; simpl.
  - split_and!; [done|by intros []|]. by intros phases [= <-].
  - destruct (decide (is_digit c)) as [Hc|Hc].
    + rewrite int_of_char_Ok by done. simpl. split_and!.
      * intros [_ Hstr]%Forall_cons. by rewrite IHok.
      * intros Hstr. rewrite IHraise; [done|]. contradict Hstr.
        by constructor.
      * intros phases.
        destruct (Oura.parse_sleep_phases str) as [phases'|]; [|done].
        simpl. intros [= <-]. destruct (IHphases _ eq_refl) as [Hlen Hbound].
        split; [simpl; by rewrite Hlen|].
        constructor; [|done]. unfold is_digit in Hc. lia.
    + rewrite int_of_char_Raise by done. simpl. split_and!; [|done..].
      by intros [? _]%Forall_cons.
Qed.

Lemma parse_sleep_phases_digits_witness :
  Oura.parse_sleep_phases "4422241134" = Ok [4; 4; 2; 2; 2; 4; 1; 1; 3; 4]
  ∧ Oura.parse_sleep_phases "44x4" = Raise ValueError.
Proof.
  split.
  - apply (proj1 (parse_sleep_phases_digits "4422241134")).
    vm_compute. repeat (constructor; [split; discriminate|]). constructor.
  - apply (proj1 (proj2 (parse_sleep_phases_digits "44x4"))).
    intros Hdigits. do 2 apply Forall_cons in Hdigits as [_ Hdigits].
    apply Forall_cons in Hdigits as [Hx _]. vm_compute in Hx.
    by destruct Hx as [_ []].
Defined.

(** X7. What one record does to the phase-code normalizer: a phase string
    with a character that is no digit raises [ValueError]; a string of
    digits that are all 4 (the empty string too) raises [TypeError]; a
    string with some other digit raises [KeyError] when the
    [rem_sleep_duration] key is absent, and yields an entry otherwise. *)
Theorem process_entry_outcome (sleep_data : Oura.Raw.session) :
  match Oura.parse_sleep_phases (Oura.Raw.sleep_phase_5_min sleep_data) with
  | Raise e => e = ValueError ∧ Oura.process_entry sleep_data = Raise ValueError
  | Ok phases =>
      if decide (Forall (λ phase, phase = 4) phases)
      then Oura.process_entry sleep_data = Raise TypeError
      else
        match Oura.Raw.rem_sleep_duration sleep_data with
        | None =>
            Oura.process_entry sleep_data
            = Raise (KeyError "rem_sleep_duration")
        | Some _ => ∃ entry, Oura.process_entry sleep_data = Ok entry
        end
  end.
Proof.
  unfold Oura.process_entry.
  destruct (Oura.parse_sleep_phases _) as [phases|e] eqn:Hparse.
  - cbn [mbind result_bind]. unfold Oura.awake_time_filtered_phases.
    case_decide as Hawake.
    + by rewrite (proj2 (end_index_None phases) Hawake).
    + destruct (Oura.end_index phases) as [end_index|] eqn:Hend;
        [|by apply end_index_None in Hend].
      cbn [mbind result_bind].
      destruct (Oura.Raw.rem_sleep_duration sleep_data); [by eexists|done].
  - by apply parse_sleep_phases_Raise in Hparse as ->.
Qed.

(** X8. The phase-code normalizer is all-or-nothing: it returns when every
    record that is not excluded yields an entry, and otherwise raises what
    the first failing record raises, whatever the records after it hold. *)
Theorem process_sleep_data_first_error data excl :
  (Forall (λ sleep_data,
      Oura.Raw.day sleep_data ∈ excl
      ∨ ∃ entry, Oura.process_entry sleep_data = Ok entry) data →
   ∃ out, Oura.process_sleep_data data excl = Ok out)
  ∧ (∀ before sleep_data after e,
     data = before ++ sleep_data :: after →
     Forall (λ sleep_data,
        Oura.Raw.day sleep_data ∈ excl
        ∨ ∃ entry, Oura.process_entry sleep_data = Ok entry) before →
     Oura.Raw.day sleep_data ∉ excl →
     Oura.process_entry sleep_data = Raise e →
     Oura.process_sleep_data data excl = Raise e).
Proof.
  split.
  - induction 1 as [|sleep_data data Hhead _ [out IH]]; [by eexists|].
    cbn [Oura.process_sleep_data]. case_decide as Hday; [by eexists|].
    destruct Hhead as [?|[entry ->]]; [done|]. rewrite IH. by eexists.
  - intros before sleep_data after e -> Hbefore Hday Hraise.
    induction Hbefore as [|first before Hfirst _ IH]; cbn [Oura.process_sleep_data app].
    + by rewrite decide_False, Hraise by done.
    + case_decide as Hfirst_day; [done|].
      destruct Hfirst as [?|[entry ->]]; [done|]. by rewrite IH.
Qed.

Lemma process_sleep_data_first_error_witness :
  (∃ out,
     Oura.process_sleep_data
       [Examples.night_350; Examples.all_awake] ["2024-06-23"%string]
     = Ok out)
  ∧ Oura.process_sleep_data
      [Examples.night_350; Examples.all_awake; Examples.night_uneven] []
    = Raise TypeError.
Proof.
  split.
  - apply (proj1 (process_sleep_data_first_error
      [Examples.night_350; Examples.all_awake] ["2024-06-23"%string])).
    constructor; [|constructor; [|constructor]].
    + right. eexists. vm_compute. reflexivity.
    + left. vm_compute. left.
  - apply (proj2 (process_sleep_data_first_error
      [Examples.night_350; Examples.all_awake; Examples.night_uneven] [])
      [Examples.night_350] Examples.all_awake [Examples.night_uneven]).
    + reflexivity.
    + constructor; [|constructor]. right. eexists. vm_compute. reflexivity.
    + apply not_elem_of_nil.
    + vm_compute. reflexivity.
Defined.

(** The buckets before the first and after the last non-awake one. *)
Lemma awake_outside_window phases s e :
  Oura.start_index phases = Some s → Oura.end_index phases = Some e →
  Forall (λ phase, phase = 4) (take (Z.to_nat s) phases)
  ∧ Forall (λ phase, phase = 4) (drop (Z.to_nat (e + 1)) phases).
Proof.
  unfold Oura.start_index, Oura.end_index.
  intros (n & -> & _ & Hmin)%next_index_Some.
  intros (j & (n' & -> & (y & Hy & _) & Hmin')%next_index_Some & ->)%fmap_Some.
  pose proof (lookup_lt_Some _ _ _ Hy) as Hn'. rewrite length_reverse in Hn'.
  assert (∀ phase, Oura.not_awake phase = true ∨ phase = 4) as Hcases.
  { intros phase. unfold Oura.not_awake.
    destruct (decide (phase = 4)); [by right|left].
    by apply bool_decide_eq_true. }
  split; apply Forall_lookup; intros i phase Hi.
  - apply lookup_take_Some in Hi as [Hi Hlt].
    destruct (Hcases phase) as [Hphase|]; [|done].
    pose proof (Hmin _ _ Hi Hphase). lia.
  - rewrite lookup_drop in Hi. pose proof (lookup_lt_Some _ _ _ Hi) as Hlt.
    destruct (Hcases phase) as [Hphase|]; [|done].
    assert (reverse phases
              !! (length phases
                  - S (Z.to_nat (Z.of_nat (length phases)
                                 - (0 + Z.of_nat n') - 1 + 1) + i))%nat
            = Some phase) as Hrev.
    { rewrite reverse_lookup by lia. rewrite <-Hi. f_equal. lia. }
    pose proof (Hmin' _ _ Hrev Hphase). lia.
Qed.

Lemma filter_complement_length {A} (P : A → Prop) `{∀ x, Decision (P x)}
    (l : list A) :
  (length (filter P l) + length (filter (λ x, ¬ P x) l))%nat = length l.
Proof. by rewrite <-length_app, filter_app_complement. Qed.

(** The non-awake buckets all lie in the window from the first to the last
    of them, whose other buckets are the awake ones counted by line 88. *)
Lemma window_buckets phases s e :
  Oura.start_index phases = Some s → Oura.end_index phases = Some e →
  Z.of_nat (length (filter (λ phase, phase = 4)
                      (Oura.slice phases (Some s) (e + 1))))
  + Z.of_nat (length (filter (λ phase, phase ≠ 4) phases))
  = e + 1 - s.
Proof.
  intros Hs He. destruct (start_end_index _ _ _ Hs He) as [Hse He_lt].
  destruct (awake_outside_window _ _ _ Hs He) as [Hbefore Hafter].
  unfold Oura.slice. simpl.
  set (window := drop (Z.to_nat s) (take (Z.to_nat (e + 1)) phases)).
  assert (phases = take (Z.to_nat s) phases ++ window
                   ++ drop (Z.to_nat (e + 1)) phases) as Hsplit.
  { unfold window.
    rewrite <-(take_drop (Z.to_nat (e + 1)) phases) at 1.
    rewrite <-(take_drop (Z.to_nat s) (take (Z.to_nat (e + 1)) phases)) at 1.
    rewrite take_take, <-app_assoc. do 2 f_equal. lia. }
  assert (filter (λ phase, phase ≠ 4) phases
          = filter (λ phase, phase ≠ 4) window) as ->.
  { rewrite Hsplit at 1. rewrite !filter_app.
    rewrite (filter_none _ (take _ _)), (filter_none _ (drop _ _)).
    - by rewrite app_nil_r.
    - intros phase Hin. rewrite Forall_forall in Hafter.
      by rewrite (Hafter _ Hin); intros [].
    - intros phase Hin. rewrite Forall_forall in Hbefore.
      by rewrite (Hbefore _ Hin); intros []. }
  rewrite <-Nat2Z.inj_add, filter_complement_length.
  unfold window. rewrite length_drop, length_take. lia.
Qed.

(** X9. In every entry of the phase-code normalizer the sleep window starts
    a whole number of 5-minute buckets after the bedtime start, and its
    length splits into the awake minutes counted inside it and 5 minutes
    for every non-awake code of the phase string: no asleep bucket lies
    outside the window. *)
Theorem phase_window_buckets data excl out entry :
  Oura.process_sleep_data data excl = Ok out → entry ∈ out →
  ∃ sleep_data phases,
    sleep_data ∈ data
    ∧ Oura.process_entry sleep_data = Ok entry
    ∧ Oura.parse_sleep_phases (Oura.Raw.sleep_phase_5_min sleep_data)
      = Ok phases
    ∧ (Oura.Entry.sleeptime_start entry - Oura.Entry.bedtime_start entry)
        `mod` 5 = 0
    ∧ 0 ≤ Oura.Entry.awake_time_filtered_phases entry
    ∧ Oura.Entry.sleeptime_end entry - Oura.Entry.sleeptime_start entry
      = Oura.Entry.awake_time_filtered_phases entry
        + 5 * Z.of_nat (length (filter (λ phase, phase ≠ 4) phases)).
Proof.
  intros Hout Hentry.
  destruct (process_sleep_data_elem_of _ _ _ _ Hout Hentry)
    as (sleep_data & Hin & _ & Hok).
  exists sleep_data. pose proof Hok as Hentry_ok.
  unfold Oura.process_entry in Hok.
  destruct (Oura.parse_sleep_phases _) as [phases|] eqn:Hparse; [|done].
  cbn [mbind result_bind] in Hok. unfold Oura.awake_time_filtered_phases in Hok.
  destruct (Oura.end_index phases) as [e|] eqn:He; [|done].
  destruct (Oura.start_index phases) as [s|] eqn:Hs.
  2:{ apply start_index_None, end_index_None in Hs. congruence. }
  cbn [mbind result_bind] in Hok.
  destruct (Oura.Raw.rem_sleep_duration sleep_data); [|done].
  cbn [mbind result_bind] in Hok. injection Hok as <-.
  exists phases. split_and!; [done..| | |]; simpl.
  - unfold Oura.sleeptime_start, Oura.phase_duration. rewrite Hs.
    replace (_ - _) with (s * 5) by lia. apply Z.mod_mul. lia.
  - unfold Oura.phase_duration. lia.
  - pose proof (window_buckets _ _ _ Hs He).
    unfold Oura.sleeptime_start, Oura.sleeptime_end, Oura.phase_duration.
    rewrite Hs, He. lia.
Qed.

(** Ten buckets "4422241134": the window runs from bucket 2 to bucket 8,
    35 minutes, of which 5 awake and 6 buckets asleep. *)
Lemma phase_window_buckets_witness :
  ∃ entry,
    Oura.process_sleep_data [Examples.night_350] [] = Ok [entry]
    ∧ Oura.Entry.sleeptime_end entry - Oura.Entry.sleeptime_start entry = 35
    ∧ Oura.Entry.awake_time_filtered_phases entry = 5.
Proof.
  eexists. split; [vm_compute; reflexivity|].
  edestruct (phase_window_buckets [Examples.night_350] [])
    as (sleep_data & phases & Hin & _ & Hparse & _ & _ & Hwindow);
    [vm_compute; reflexivity|left|].
  apply list_elem_of_singleton in Hin as ->.
  vm_compute in Hparse. injection Hparse as <-.
  split; [exact Hwindow|reflexivity].
Defined.

(** ** The segment-list normalizer *)

(** X10. Every entry of the segment-list normalizer is computed from the
    record kept for its day, and, the local clock being at a fixed offset
    from UTC, its bedtime end is the minute of the local day at which that
    record's bedtime ended, between 0 and 1439; its bedtime start is not
    after it when the record's bedtime start is not after its bedtime end,
    and it is negative exactly when the bedtime began on an earlier local
    day. *)
Theorem ultrahuman_bedtime_offsets utc_offset isoformat data excl entry :
  entry ∈ Ultrahuman.process_ultrahuman_sleep_data utc_offset isoformat
            data excl →
  ∃ sleep_data,
    is_first_longest (Ultrahuman.bedtime_span utc_offset)
      (filter (λ r, Ultrahuman.day_of utc_offset isoformat r
                    = Ultrahuman.Entry.day entry) data) sleep_data
    ∧ entry = Ultrahuman.process_entry utc_offset
                (Ultrahuman.Entry.day entry)
                (Ultrahuman.stored utc_offset sleep_data)
    ∧ let bedtime_start :=
        Ultrahuman.fromtimestamp utc_offset
          (Ultrahuman.Raw.bedtime_start sleep_data) in
      let bedtime_end :=
        Ultrahuman.fromtimestamp utc_offset
          (Ultrahuman.Raw.bedtime_end sleep_data) in
      Ultrahuman.Entry.bedtime_end entry = bedtime_end `mod` 86400 / 60
      ∧ 0 ≤ Ultrahuman.Entry.bedtime_end entry < 1440
      ∧ (bedtime_start ≤ bedtime_end →
         Ultrahuman.Entry.bedtime_start entry
         ≤ Ultrahuman.Entry.bedtime_end entry)
      ∧ (Ultrahuman.Entry.bedtime_start entry < 0
         ↔ Ultrahuman.date bedtime_start < Ultrahuman.date bedtime_end).
Proof.
  intros Hentry.
  apply process_ultrahuman_sleep_data_kept in Hentry
    as (sleep_data & Hkept & _ & Hentry).
  exists sleep_data. split_and!; [done..|].
  generalize dependent (Ultrahuman.Entry.day entry). intros day _ ->.
  destruct (ultrahuman_process_entry_window utc_offset day sleep_data)
    as (Hstart & Hend & _).
  simpl. rewrite Hstart, Hend, !time_to_minutes_div.
  unfold Ultrahuman.replace_midnight, Ultrahuman.date.
  generalize (Ultrahuman.fromtimestamp utc_offset
    (Ultrahuman.Raw.bedtime_start sleep_data)).
  generalize (Ultrahuman.fromtimestamp utc_offset
    (Ultrahuman.Raw.bedtime_end sleep_data)).
  intros be bs.
  replace (be - (be - be `mod` 86400)) with (be `mod` 86400) by lia.
  pose proof (Z.mod_pos_bound be 86400 ltac:(lia)) as Hmod.
  pose proof (Z.div_mod be 86400 ltac:(lia)) as Hbe.
  pose proof (Z.div_mod bs 86400 ltac:(lia)) as Hbs.
  pose proof (Z.mod_pos_bound bs 86400 ltac:(lia)) as Hbs_mod.
  split_and!; [done| | | |].
  - apply Z.div_pos; lia.
  - apply Z.div_lt_upper_bound; lia.
  - intros Hle. apply Z.div_le_mono; lia.
  - split.
    + intros Hneg.
      assert (bs - (be - be `mod` 86400) < 0) as Hlt.
      { destruct (decide (bs - (be - be `mod` 86400) < 0)); [done|].
        pose proof (Z.div_pos (bs - (be - be `mod` 86400)) 60). lia. }
      nia.
    + intros Hdate. apply Z.div_lt_upper_bound; [lia|]. nia.
Qed.

(** Two records of one day: the entry is computed from the second, which
    was longer in bed, from 22:00 of the eve to 06:00. *)
Lemma ultrahuman_bedtime_offsets_witness :
  ∃ entry,
    Ultrahuman.process_ultrahuman_sleep_data 0 Ultrahuman.date_isoformat
      [Examples.long_asleep; Examples.long_in_bed] [] = [entry]
    ∧ Ultrahuman.Entry.bedtime_end entry = 360
    ∧ Ultrahuman.Entry.bedtime_start entry = -120
    ∧ Ultrahuman.date (Ultrahuman.fromtimestamp 0
        (Ultrahuman.Raw.bedtime_start Examples.long_in_bed))
      < Ultrahuman.date (Ultrahuman.fromtimestamp 0
          (Ultrahuman.Raw.bedtime_end Examples.long_in_bed)).
Proof.
  eexists. split; [vm_compute; reflexivity|].
  edestruct (ultrahuman_bedtime_offsets 0 Ultrahuman.date_isoformat
    [Examples.long_asleep; Examples.long_in_bed] [])
    as (sleep_data & Hkept & _ & Hend & _ & _ & Hnegative); [left|].
  assert (sleep_data = Examples.long_in_bed) as ->.
  { destruct Hkept as (l1 & l2 & Hlist & Hbefore & Hafter).
    vm_compute in Hlist.
    destruct l1 as [|r1 [|r2 [|r3 l1]]]; simplify_eq; try done;
      apply Forall_cons in Hafter as [Hafter _]; by vm_compute in Hafter. }
  split_and!; [exact Hend|reflexivity|]. apply Hnegative. reflexivity.
Defined.

(** X11. The segment-list normalizer returns its entries in strictly
    increasing order of their day, one per day, and the days it returns are
    exactly the days of the input records that are not excluded. *)
Theorem ultrahuman_normalizer_days utc_offset isoformat data excl :
  let out :=
    Ultrahuman.process_ultrahuman_sleep_data utc_offset isoformat data excl in
  Sorted (λ a b, String.ltb (Ultrahuman.Entry.day a) (Ultrahuman.Entry.day b)
                 = true) out
  ∧ NoDup (Ultrahuman.Entry.day <$> out)
  ∧ ∀ day,
      day ∈ Ultrahuman.Entry.day <$> out
      ↔ (day ∉ excl)
        ∧ day ∈ Ultrahuman.day_of utc_offset isoformat <$> data.
Proof.
  intros out.
  assert (NoDup (Ultrahuman.Entry.day <$> out)) as Hnd.
  { unfold out, Ultrahuman.process_ultrahuman_sleep_data, PyDict.items.
    rewrite sorted_Permutation, <-list_fmap_compose.
    replace ((Ultrahuman.Entry.day
                ∘ (λ '(day, daily), Ultrahuman.process_entry utc_offset day daily))
             <$> Ultrahuman.group_by_day utc_offset isoformat excl data)
      with (Ultrahuman.group_by_day utc_offset isoformat excl data).*1.
    - unfold Ultrahuman.group_by_day.
      rewrite ultrahuman_keep_longest_reconcile.
      apply reconcile_NoDup, NoDup_nil_2.
    - apply Forall_fmap_ext, Forall_forall. intros [day daily] _. simpl.
      by rewrite process_entry_day. }
  split_and!; [|done|].
  - apply Sorted_leb_NoDup_ltb; [apply sorted_Sorted|done].
  - intros day. split.
    + intros (entry & -> & Hin)%list_elem_of_fmap.
      apply process_ultrahuman_sleep_data_elem_of in Hin
        as (sleep_data & Hin & Hday & ->).
      rewrite process_entry_day. split; [done|].
      apply list_elem_of_fmap. by exists sleep_data.
    + intros [Hday (sleep_data & -> & Hin)%list_elem_of_fmap].
      destruct (process_ultrahuman_sleep_data_first_longest utc_offset
        isoformat data excl _ Hday) as (kept & _ & Hkept).
      { intros Hnil.
        apply (filter_nil_not_elem_of _ _ sleep_data Hnil eq_refl Hin). }
      assert (Ultrahuman.process_entry utc_offset
                (Ultrahuman.day_of utc_offset isoformat sleep_data)
                (Ultrahuman.stored utc_offset kept)
              ∈ filter (λ e, Ultrahuman.Entry.day e
                             = Ultrahuman.day_of utc_offset isoformat sleep_data)
                  out) as Hmem by (unfold out; rewrite Hkept; left).
      apply list_elem_of_filter in Hmem as [_ Hmem].
      apply list_elem_of_fmap. eexists. split; [|exact Hmem].
      by rewrite process_entry_day.
Qed.

Lemma stage_time_of_le_tagged tag sleep_stages :
  Forall (λ stage, 0 ≤ Ultrahuman.Stage.stage_time stage) sleep_stages →
  Ultrahuman.stage_time_of tag sleep_stages
  ≤ tagged_stage_time tag sleep_stages
  ∧ 0 ≤ tagged_stage_time tag sleep_stages.
Proof.
  unfold tagged_stage_time.
  induction 1 as [|stage l Hstage _ [IH IH0]]; [done|].
  rewrite stage_time_of_cons.
  destruct (decide (Ultrahuman.Stage.type stage = tag)) as [Htag|Htag].
  - rewrite filter_cons_True by done. rewrite fmap_cons, sum_cons. lia.
  - by rewrite filter_cons_False by done.
Qed.

Lemma tagged_le_non_awake sleep_stages :
  Forall (λ stage, 0 ≤ Ultrahuman.Stage.stage_time stage) sleep_stages →
  tagged_stage_time "deep_sleep" sleep_stages
  + tagged_stage_time "light_sleep" sleep_stages
  + tagged_stage_time "rem_sleep" sleep_stages
  ≤ Ultrahuman.non_awake_stage_time sleep_stages.
Proof.
  unfold tagged_stage_time, Ultrahuman.non_awake_stage_time.
  induction 1 as [|stage l Hstage _ IH]; [done|]. cbn [List.filter].
  destruct (decide (Ultrahuman.Stage.type stage = "awake")) as [Hawake|Hawake].
  - rewrite bool_decide_eq_true_2 by done. cbn [negb].
    by rewrite !filter_cons_False by (rewrite Hawake; discriminate).
  - rewrite bool_decide_eq_false_2 by done. cbn [negb].
    rewrite fmap_cons, sum_cons.
    destruct (decide (Ultrahuman.Stage.type stage = "deep_sleep")) as [Hd|Hd];
    [rewrite (filter_cons_True (λ stage, _ = "deep_sleep"%string)) by done;
     rewrite !filter_cons_False by (rewrite Hd; discriminate)
    |rewrite (filter_cons_False (λ stage, _ = "deep_sleep"%string)) by done;
     destruct (decide (Ultrahuman.Stage.type stage = "light_sleep")) as [Hl|Hl];
     [rewrite (filter_cons_True (λ stage, _ = "light_sleep"%string)) by done;
      rewrite !filter_cons_False by (rewrite Hl; discriminate)
     |rewrite (filter_cons_False (λ stage, _ = "light_sleep"%string)) by done;
      destruct (decide (Ultrahuman.Stage.type stage = "rem_sleep")) as [Hr|Hr];
      [rewrite filter_cons_True by done|rewrite filter_cons_False by done]]];
    rewrite ?fmap_cons, ?sum_cons; lia.
Qed.

(** X12. Every entry of the segment-list normalizer is computed from the
    record kept for its day: a stage kind that this record's summary does
    not list has 0 minutes, and when no stage time of the summary is
    negative the total sleep is at least the deep, light and rem minutes
    together, whatever other kinds or repeated kinds the summary lists. *)
Theorem ultrahuman_stage_minutes utc_offset isoformat data excl entry :
  entry ∈ Ultrahuman.process_ultrahuman_sleep_data utc_offset isoformat
            data excl →
  ∃ sleep_data,
    is_first_longest (Ultrahuman.bedtime_span utc_offset)
      (filter (λ r, Ultrahuman.day_of utc_offset isoformat r
                    = Ultrahuman.Entry.day entry) data) sleep_data
    ∧ entry = Ultrahuman.process_entry utc_offset
                (Ultrahuman.Entry.day entry)
                (Ultrahuman.stored utc_offset sleep_data)
    ∧ let sleep_stages := Ultrahuman.Raw.sleep_stages sleep_data in
      let kinds := Ultrahuman.Stage.type <$> sleep_stages in
      ("deep_sleep"%string ∉ kinds →
       Ultrahuman.Entry.deep_sleep_duration entry = 0)
      ∧ ("light_sleep"%string ∉ kinds →
         Ultrahuman.Entry.light_sleep_duration entry = 0)
      ∧ ("rem_sleep"%string ∉ kinds →
         Ultrahuman.Entry.rem_sleep_duration entry = 0)
      ∧ (Forall (λ stage, 0 ≤ Ultrahuman.Stage.stage_time stage) sleep_stages →
         Ultrahuman.Entry.deep_sleep_duration entry
         + Ultrahuman.Entry.light_sleep_duration entry
         + Ultrahuman.Entry.rem_sleep_duration entry
         ≤ Ultrahuman.Entry.total_sleep_duration entry).
Proof.
  intros Hentry.
  apply process_ultrahuman_sleep_data_kept in Hentry
    as (sleep_data & Hkept & _ & Hentry).
  exists sleep_data. split_and!; [done..|].
  generalize dependent (Ultrahuman.Entry.day entry). intros day _ ->.
  destruct (ultrahuman_process_entry_stages utc_offset day
    (Ultrahuman.stored utc_offset sleep_data))
    as (Htotal & Hdeep & Hlight & Hrem).
  simpl in Htotal, Hdeep, Hlight, Hrem. simpl.
  rewrite Htotal, Hdeep, Hlight, Hrem.
  split_and!; try (intros Habsent; by rewrite (stage_time_of_absent _ _ Habsent)).
  intros Hnonneg.
  pose proof (tagged_le_non_awake _ Hnonneg).
  pose proof (stage_time_of_le_tagged "deep_sleep" _ Hnonneg).
  pose proof (stage_time_of_le_tagged "light_sleep" _ Hnonneg).
  pose proof (stage_time_of_le_tagged "rem_sleep" _ Hnonneg).
  pose proof (div_60_sum
    (Ultrahuman.stage_time_of "deep_sleep" (Ultrahuman.Raw.sleep_stages sleep_data))
    (Ultrahuman.stage_time_of "light_sleep" (Ultrahuman.Raw.sleep_stages sleep_data))
    (Ultrahuman.stage_time_of "rem_sleep" (Ultrahuman.Raw.sleep_stages sleep_data)))
    as [Hsum _].
  etrans; [exact Hsum|]. apply Z.div_le_mono; lia.
Qed.

(** Two records of one day; the one kept has a summary of light sleep and
    awake time only: no deep and no rem minutes, 7 minutes in all. *)
Lemma ultrahuman_stage_minutes_witness :
  ∃ entry,
    Ultrahuman.process_ultrahuman_sleep_data 0 Ultrahuman.date_isoformat
      [Examples.graph_example; Examples.restless_graph] [] = [entry]
    ∧ Ultrahuman.Entry.deep_sleep_duration entry = 0
    ∧ Ultrahuman.Entry.rem_sleep_duration entry = 0
    ∧ Ultrahuman.Entry.deep_sleep_duration entry
      + Ultrahuman.Entry.light_sleep_duration entry
      + Ultrahuman.Entry.rem_sleep_duration entry
      ≤ Ultrahuman.Entry.total_sleep_duration entry.
Proof.
  eexists. split; [vm_compute; reflexivity|].
  edestruct (ultrahuman_stage_minutes 0 Ultrahuman.date_isoformat
    [Examples.graph_example; Examples.restless_graph] [])
    as (sleep_data & Hkept & _ & Hdeep & _ & Hrem & Hsum); [left|].
  assert (sleep_data = Examples.restless_graph) as ->.
  { destruct Hkept as (l1 & l2 & Hlist & Hbefore & Hafter).
    vm_compute in Hlist.
    destruct l1 as [|r1 [|r2 [|r3 l1]]]; simplify_eq; try done;
      apply Forall_cons in Hafter as [Hafter _]; by vm_compute in Hafter. }
  split_and!.
  - apply Hdeep. vm_compute. intros H. repeat (inversion_clear H as [|? ? ? H']; rename H' into H).
  - apply Hrem. vm_compute. intros H. repeat (inversion_clear H as [|? ? ? H']; rename H' into H).
  - apply Hsum. repeat constructor; discriminate.
Defined.

(** X13. Every entry of the segment-list normalizer is computed from the
    record kept for its day, and its awake minutes are not negative when no
    awake segment of that record's sleep graph ends before it starts. *)
Theorem ultrahuman_awake_nonnegative utc_offset isoformat data excl entry :
  entry ∈ Ultrahuman.process_ultrahuman_sleep_data utc_offset isoformat
            data excl →
  ∃ sleep_data,
    is_first_longest (Ultrahuman.bedtime_span utc_offset)
      (filter (λ r, Ultrahuman.day_of utc_offset isoformat r
                    = Ultrahuman.Entry.day entry) data) sleep_data
    ∧ entry = Ultrahuman.process_entry utc_offset
                (Ultrahuman.Entry.day entry)
                (Ultrahuman.stored utc_offset sleep_data)
    ∧ (Forall (λ segment,
          Ultrahuman.Segment.type segment = "awake" →
          Ultrahuman.Segment.start segment ≤ Ultrahuman.Segment.end_ segment)
         (Ultrahuman.Raw.sleep_graph sleep_data) →
       0 ≤ Ultrahuman.Entry.awake_time_filtered entry).
Proof.
  intros Hentry.
  apply process_ultrahuman_sleep_data_kept in Hentry
    as (sleep_data & Hkept & _ & Hentry).
  exists sleep_data. split_and!; [done..|].
  generalize dependent (Ultrahuman.Entry.day entry). intros day _ ->.
  intros Hsegments.
  destruct (ultrahuman_process_entry_window utc_offset day sleep_data)
    as (_ & _ & Hwindow).
  destruct (Ultrahuman.non_awake_segments _) as [|segment segments].
  { by destruct Hwindow as (_ & _ & ->). }
  destruct Hwindow as (_ & _ & ->). rewrite awake_time_in_window_filter.
  apply Z.div_pos; [|lia].
  generalize (Ultrahuman.min_of (Ultrahuman.Segment.start segment)
                (Ultrahuman.Segment.start <$> segments)).
  generalize (Ultrahuman.max_of (Ultrahuman.Segment.end_ segment)
                (Ultrahuman.Segment.end_ <$> segments)).
  intros hi lo. induction Hsegments as [|s l Hs _ IH]; [done|].
  destruct (decide (Ultrahuman.Segment.type s = "awake"
                    ∧ lo ≤ Ultrahuman.Segment.start s < hi)) as [Hin_w|Hout_w].
  - rewrite filter_cons_True by done. rewrite fmap_cons, sum_cons.
    destruct Hin_w as [Hawake _]. specialize (Hs Hawake). lia.
  - by rewrite filter_cons_False by done.
Qed.

Lemma ultrahuman_awake_nonnegative_witness :
  ∃ entry,
    Ultrahuman.process_ultrahuman_sleep_data 0 Ultrahuman.date_isoformat
      [Examples.graph_example; Examples.restless_graph] [] = [entry]
    ∧ 0 ≤ Ultrahuman.Entry.awake_time_filtered entry.
Proof.
  eexists. split; [vm_compute; reflexivity|].
  edestruct (ultrahuman_awake_nonnegative 0 Ultrahuman.date_isoformat
    [Examples.graph_example; Examples.restless_graph] [])
    as (sleep_data & Hkept & _ & Hawake); [left|].
  assert (sleep_data = Examples.restless_graph) as ->.
  { destruct Hkept as (l1 & l2 & Hlist & Hbefore & Hafter).
    vm_compute in Hlist.
    destruct l1 as [|r1 [|r2 [|r3 l1]]]; simplify_eq; try done;
      apply Forall_cons in Hafter as [Hafter _]; by vm_compute in Hafter. }
  apply Hawake. repeat constructor; intros _; vm_compute; discriminate.
Defined.

(** ** The segment-list fetch *)

Lemma fetch_each_day_agree isoformat requests_get requests_get' excl days :
  Forall (λ day, isoformat day ∉ excl → requests_get day = requests_get' day)
    days →
  fetch_each_day isoformat requests_get excl days
  = fetch_each_day isoformat requests_get' excl days.
Proof.
  induction 1 as [|day days Hday _ IH]; [done|].
  rewrite !fetch_each_day_cons, IH. simpl.
  destruct (decide (isoformat day ∈ excl)); [done|]. by rewrite Hday.
Qed.

Lemma fetch_each_day_count isoformat requests_get excl days :
  let fetched := fetch_each_day isoformat requests_get excl days in
  (2 * length fetched.1 + length fetched.2)%nat
  = (2 * length (filter (λ day, isoformat day ∉ excl) days))%nat.
Proof.
  induction days as [|day days IH]; [done|].
  rewrite fetch_each_day_cons. simpl in IH |- *.
  destruct (decide (isoformat day ∈ excl)).
  - by rewrite filter_cons_False by by intros ?.
  - rewrite filter_cons_True by done.
    destruct (decide _); simpl in *; lia.
Qed.

Lemma get_ultrahuman_sleep_data_days
    isoformat requests_get start_date end_date excl :
  Ultrahuman.get_ultrahuman_sleep_data isoformat requests_get
    start_date end_date excl
  = fetch_each_day isoformat requests_get excl
      (seqZ start_date (default start_date end_date - start_date + 1)).
Proof.
  unfold Ultrahuman.get_ultrahuman_sleep_data.
  rewrite fetch_loop_spec by lia. simpl.
  destruct (decide (0 ≤ default start_date end_date - start_date + 1)).
  - by rewrite Z2Nat.id by done.
  - rewrite Z2Nat.nonpos by lia. by rewrite !seqZ_nil by lia.
Qed.

(** X14. The segment-list fetch asks for no day outside the range and for
    no excluded day: its result depends only on the answers for the days
    of the range that are not excluded. Each of those days adds either one
    payload to the list or two lines (the error and the response text) to
    the output, and an end date before the start date gives the empty
    list. *)
Theorem ultrahuman_fetch_requested_days
    isoformat requests_get start_date end_date excl :
  (∀ requests_get',
     (∀ day, start_date ≤ day ≤ default start_date end_date →
             isoformat day ∉ excl → requests_get day = requests_get' day) →
     Ultrahuman.get_ultrahuman_sleep_data isoformat requests_get
       start_date end_date excl
     = Ultrahuman.get_ultrahuman_sleep_data isoformat requests_get'
         start_date end_date excl)
  ∧ (let fetched :=
       Ultrahuman.get_ultrahuman_sleep_data isoformat requests_get
         start_date end_date excl in
     (2 * length fetched.1 + length fetched.2)%nat
     = (2 * length
            (filter (λ day, isoformat day ∉ excl)
               (seqZ start_date
                  (default start_date end_date - start_date + 1))))%nat)
  ∧ (default start_date end_date < start_date →
     Ultrahuman.get_ultrahuman_sleep_data isoformat requests_get
       start_date end_date excl = ([], [])).
Proof.
  split_and!.
  - intros requests_get' Hagree.
    rewrite !get_ultrahuman_sleep_data_days.
    apply fetch_each_day_agree, Forall_forall.
    intros day [Hlo Hhi]%elem_of_seqZ. apply Hagree. lia.
  - rewrite get_ultrahuman_sleep_data_days. apply fetch_each_day_count.
  - intros Hempty. rewrite get_ultrahuman_sleep_data_days.
    by rewrite seqZ_nil by lia.
Qed.

Lemma ultrahuman_fetch_requested_days_witness :
  Ultrahuman.get_ultrahuman_sleep_data Ultrahuman.date_isoformat
    (Examples.ultrahuman_http [2; 3]) 1 (Some 4) []
  = Ultrahuman.get_ultrahuman_sleep_data Ultrahuman.date_isoformat
      (Examples.ultrahuman_http [2; 3; 7]) 1 (Some 4) []
  ∧ Ultrahuman.get_ultrahuman_sleep_data Ultrahuman.date_isoformat
      (Examples.ultrahuman_http [2; 3]) 5 (Some 4) [] = ([], []).
Proof.
  split.
  - apply (proj1 (ultrahuman_fetch_requested_days Ultrahuman.date_isoformat
      (Examples.ultrahuman_http [2; 3]) 1 (Some 4) [])).
    intros day Hrange _. unfold Examples.ultrahuman_http. f_equal.
    simpl in Hrange.
    repeat case_decide; try done;
      rewrite ?not_elem_of_cons, ?elem_of_cons, ?elem_of_nil in *; exfalso; lia.
  - apply (proj2 (proj2 (ultrahuman_fetch_requested_days
      Ultrahuman.date_isoformat (Examples.ultrahuman_http [2; 3]) 5 (Some 4) []))).
    simpl. lia.
Defined.

(** ** The merge *)

Section merge_properties.
Import Merger.
Context {Timestamp : Type} `{EqDecision Timestamp}.
Variable to_datetime : string → Timestamp.





End merge_properties.



(** ** The error columns *)

Section error_properties.
Import Merger Analysis.
Context {Timestamp : Type}.
Implicit Types row : Row.t Timestamp.

Lemma column_assign_ne name name' value row :
  name ≠ name' → column name' (assign name value row) = column name' row.
Proof. intros Hne. unfold column, assign. simpl. by rewrite get_set_ne. Qed.

Lemma get_assign_ne name name' value row :
  name ≠ name' →
  PyDict.get (Row.numeric (assign name value row)) name'
  = PyDict.get (Row.numeric row) name'.
Proof. apply get_set_ne. Qed.

Lemma get_assign_eq name value row :
  PyDict.get (Row.numeric (assign name value row)) name = Some value.
Proof. apply get_set_eq. Qed.

Lemma Date_assign name value row :
  Row.Date (assign name value row) = Row.Date row.
Proof. reflexivity. Qed.

Lemma day_assign name value row :
  Row.day (assign name value row) = Row.day row.
Proof. reflexivity. Qed.

Lemma column_Ok name row value :
  column name row = Ok value ↔ PyDict.get (Row.numeric row) name = Some value.
Proof.
  unfold column. destruct (PyDict.get _ _); split; by intros [= ->].
Qed.

Lemma assign_abs_difference_Ok target left right row row' :
  assign_abs_difference target left right row = Ok row' ↔
  ∃ l r, column left row = Ok l ∧ column right row = Ok r
         ∧ row' = assign target (Z.abs (l - r)) row.
Proof.
  unfold assign_abs_difference.
  destruct (column left row) as [l|]; simpl;
    [|split; [done|by intros (? & ? & [=] & _)]].
  destruct (column right row) as [r|]; simpl;
    [|split; [done|by intros (? & ? & _ & [=] & _)]].
  split; [intros [= <-]; by eexists _, _|by intros (? & ? & [= <-] & [= <-] & ->)].
Qed.

Lemma assign_difference_Ok target left right row row' :
  assign_difference target left right row = Ok row' ↔
  ∃ l r, column left row = Ok l ∧ column right row = Ok r
         ∧ row' = assign target (l - r) row.
Proof.
  unfold assign_difference.
  destruct (column left row) as [l|]; simpl;
    [|split; [done|by intros (? & ? & [=] & _)]].
  destruct (column right row) as [r|]; simpl;
    [|split; [done|by intros (? & ? & _ & [=] & _)]].
  split; [intros [= <-]; by eexists _, _|by intros (? & ? & [= <-] & [= <-] & ->)].
Qed.

Lemma result_bind_Ok {A B} (m : result A) (f : A → result B) (b : B) :
  m ≫= f = Ok b → ∃ a, m = Ok a ∧ f a = Ok b.
Proof. destruct m as [a|]; [by exists a|done]. Qed.

(** The row after the twelve assignments, given the nine values read. *)
Lemma calculate_errors_row_Ok row row' :
  calculate_errors_row row = Ok row' ↔
  ∃ start total end_ start_oura start_ultrahuman total_oura total_ultrahuman
    end_oura end_ultrahuman,
    column "jared_sleep_start" row = Ok start
    ∧ column "jared_total_sleep" row = Ok total
    ∧ column "jared_sleep_end" row = Ok end_
    ∧ column "sleeptime_start_oura" row = Ok start_oura
    ∧ column "sleeptime_start_ultrahuman" row = Ok start_ultrahuman
    ∧ column "total_sleep_duration_oura" row = Ok total_oura
    ∧ column "total_sleep_duration_ultrahuman" row = Ok total_ultrahuman
    ∧ column "sleeptime_end_oura" row = Ok end_oura
    ∧ column "sleeptime_end_ultrahuman" row = Ok end_ultrahuman
    ∧ row' =
        assign "sleep_end_error_ultrahuman" (end_ultrahuman - end_)
       (assign "sleep_end_error_oura" (end_oura - end_)
       (assign "total_sleep_error_ultrahuman" (total_ultrahuman - total)
       (assign "total_sleep_error_oura" (total_oura - total)
       (assign "sleep_start_error_ultrahuman" (start_ultrahuman - start)
       (assign "sleep_start_error_oura" (start_oura - start)
       (assign "sleep_end_error_abs_ultrahuman" (Z.abs (end_ - end_ultrahuman))
       (assign "sleep_end_error_abs_oura" (Z.abs (end_ - end_oura))
       (assign "total_sleep_error_abs_ultrahuman"
          (Z.abs (total - total_ultrahuman))
       (assign "total_sleep_error_abs_oura" (Z.abs (total - total_oura))
       (assign "sleep_start_error_abs_ultrahuman"
          (Z.abs (start - start_ultrahuman))
       (assign "sleep_start_error_abs_oura" (Z.abs (start - start_oura))
          row))))))))))).
Proof.
  unfold calculate_errors_row. split.
  - intros Hrow.
    repeat (apply result_bind_Ok in Hrow
              as (? & (? & ? & ? & ? & ->)%assign_abs_difference_Ok & Hrow)
            || apply result_bind_Ok in Hrow
                 as (? & (? & ? & ? & ? & ->)%assign_difference_Ok & Hrow)).
    apply assign_difference_Ok in Hrow as (? & ? & ? & ? & ->).
    rewrite !column_assign_ne in * by done.
    repeat match goal with
           | H1 : column ?n row = Ok ?a, H2 : column ?n row = Ok ?b |- _ =>
               rewrite H1 in H2; injection H2 as <-
           end.
    eexists _, _, _, _, _, _, _, _, _.
    repeat (split; [eassumption|]). reflexivity.
  - intros (start & total & end_ & so & su & to & tu & eo & eu
            & Hs & Ht & He & Hso & Hsu & Hto & Htu & Heo & Heu & ->).
    repeat (first
      [ erewrite (proj2 (assign_abs_difference_Ok _ _ _ _ _))
          by (eexists _, _; split_and!;
              [rewrite ?column_assign_ne by done; eassumption..|reflexivity])
      | erewrite (proj2 (assign_difference_Ok _ _ _ _ _))
          by (eexists _, _; split_and!;
              [rewrite ?column_assign_ne by done; eassumption..|reflexivity]) ];
      cbn [mbind result_bind]).
    reflexivity.
Qed.

Lemma calculate_errors_Forall2 (df df' : list (Row.t Timestamp)) :
  calculate_errors df = Ok df' →
  Forall2 (λ row row', calculate_errors_row row = Ok row') df df'.
Proof.
  revert df'. induction df as [|row df IH]; intros df'; simpl.
  - intros [= <-]. constructor.
  - destruct (calculate_errors_row row) as [row'|] eqn:Hrow; [|done]. simpl.
    destruct (calculate_errors df) as [rows'|]; [|done]. simpl.
    intros [= <-]. constructor; [done|by apply IH].
Qed.

Lemma get_app {V} (d1 d2 : list (string * V)) (name : string) :
  PyDict.get (d1 ++ d2) name
  = match PyDict.get d1 name with
    | Some value => Some value
    | None => PyDict.get d2 name
    end.
Proof.
  induction d1 as [|[name' value] d1 IH]; [done|]. simpl.
  by destruct (decide (name = name')).
Qed.

Lemma get_fmap {V W} (f : V → W) (d : list (string * V)) (name : string) :
  PyDict.get (prod_map id f <$> d) name = f <$> PyDict.get d name.
Proof.
  induction d as [|[name' value] d IH]; [done|]. simpl.
  by destruct (decide (name = name')).
Qed.

(** The values of the twelve error columns after [calculate_errors_row]. *)
Lemma calculate_errors_row_values row row' :
  calculate_errors_row row = Ok row' →
  Row.Date row' = Row.Date row
  ∧ Forall (λ '(abs_name, signed_name, jared, vendor),
       ∃ j v,
         PyDict.get (Row.numeric row) jared = Some j
         ∧ PyDict.get (Row.numeric row) vendor = Some v
         ∧ PyDict.get (Row.numeric row') abs_name = Some (Z.abs (j - v))
         ∧ PyDict.get (Row.numeric row') signed_name = Some (v - j))
      error_columns.
Proof.
  intros (s & t & e & so & su & to & tu & eo & eu
    & Hs & Ht & He & Hso & Hsu & Hto & Htu & Heo & Heu & ->)%calculate_errors_row_Ok.
  apply column_Ok in Hs, Ht, He, Hso, Hsu, Hto, Htu, Heo, Heu.
  split; [by rewrite !Date_assign|].
  unfold error_columns.
  repeat (constructor;
    [eexists _, _; split_and!;
       [eassumption|eassumption
       |repeat (rewrite get_assign_ne by discriminate); apply get_assign_eq
       |repeat (rewrite get_assign_ne by discriminate); apply get_assign_eq]|]).
  constructor.
Qed.

(** X18. On one row whose numbers pandas computes with exactly,
    [calculate_errors] succeeds exactly when the three anecdotal and six
    vendor columns it reads are present. It then leaves the date, the day
    and every other column as they were, and for each of the six
    comparisons the absolute-error column holds |anecdotal - vendor| and
    the signed-error column vendor - anecdotal, so the absolute error is
    the absolute value of the signed one. *)
Theorem calculate_errors_row_columns row :
  exact_columns (Row.numeric row) →
  ((∃ row', calculate_errors_row row = Ok row')
   ↔ Forall (λ '(_, _, jared, vendor),
        is_Some (PyDict.get (Row.numeric row) jared)
        ∧ is_Some (PyDict.get (Row.numeric row) vendor)) error_columns)
  ∧ (∀ row',
     calculate_errors_row row = Ok row' →
     Row.Date row' = Row.Date row
     ∧ Row.day row' = Row.day row
     ∧ Forall (λ '(abs_name, signed_name, jared, vendor),
          ∃ j v abs_error signed_error,
            PyDict.get (Row.numeric row) jared = Some j
            ∧ PyDict.get (Row.numeric row) vendor = Some v
            ∧ PyDict.get (Row.numeric row') abs_name = Some abs_error
            ∧ PyDict.get (Row.numeric row') signed_name = Some signed_error
            ∧ abs_error = Z.abs (j - v)
            ∧ signed_error = v - j
            ∧ abs_error = Z.abs signed_error) error_columns
     ∧ (∀ name,
        Forall (λ '(abs_name, signed_name, _, _),
           name ≠ abs_name ∧ name ≠ signed_name) error_columns →
        PyDict.get (Row.numeric row') name
        = PyDict.get (Row.numeric row) name)).
Proof.
  intros _. split.
  - split.
    + intros [row' (s & t & e & so & su & to & tu & eo & eu
        & Hs & Ht & He & Hso & Hsu & Hto & Htu & Heo & Heu & _)%calculate_errors_row_Ok].
      apply column_Ok in Hs, Ht, He, Hso, Hsu, Hto, Htu, Heo, Heu.
      unfold error_columns.
      repeat (constructor; [split; eexists; eassumption|]). constructor.
    + unfold error_columns. intros Hcolumns.
      repeat (apply Forall_cons in Hcolumns
                as [[[? ?%column_Ok] [? ?%column_Ok]] Hcolumns]).
      eexists. apply calculate_errors_row_Ok.
      eexists _, _, _, _, _, _, _, _, _.
      repeat (split; [eassumption|]). reflexivity.
  - intros row' Hrow'.
    destruct (calculate_errors_row_values _ _ Hrow') as [Hdate Hvalues].
    apply calculate_errors_row_Ok in Hrow'
      as (s & t & e & so & su & to & tu & eo & eu & _ & _ & _ & _ & _ & _
          & _ & _ & _ & ->).
    split_and!.
    + exact Hdate.
    + by rewrite !day_assign.
    + eapply Forall_impl; [exact Hvalues|].
      intros [[[abs_name signed_name] jared] vendor] (j & v & ? & ? & ? & ?).
      exists j, v, (Z.abs (j - v)), (v - j). split_and!; [done..|lia].
    + intros name Hname. unfold error_columns in Hname.
      repeat (apply Forall_cons in Hname as [[? ?] Hname]).
      by rewrite !get_assign_ne by congruence.
Qed.

End error_properties.

Lemma calculate_errors_row_columns_witness :
  ∃ row',
    Analysis.calculate_errors_row unmatched_row = Ok row'
    ∧ Merger.Row.Date row' = "2024-06-21"%string
    ∧ PyDict.get (Merger.Row.numeric row') "jared_total_sleep" = Some 420.
Proof.
  assert (exact_columns (Merger.Row.numeric unmatched_row)) as Hexact
    by compute_done.
  destruct (proj2 (proj1 (calculate_errors_row_columns unmatched_row Hexact)))
    as [row' Hrow'].
  { unfold error_columns. repeat (constructor; [by split; eexists|]).
    constructor. }
  exists row'. split; [done|].
  destruct (proj2 (calculate_errors_row_columns unmatched_row Hexact)
    row' Hrow') as (Hdate & _ & _ & Hother).
  split; [exact Hdate|]. rewrite Hother; [reflexivity|].
  unfold error_columns. repeat (constructor; [by split|]). constructor.
Defined.

Section zero_filled_errors.
Import Merger Analysis.
Context {Timestamp : Type} `{EqDecision Timestamp}.
Variable to_datetime : string → Timestamp.

(** X19. After the merge and the error calculation, a date without a
    phase-code entry, with anecdotal numbers that pandas computes with
    exactly, has for both vendors absolute errors equal to the absolute
    anecdotal values and signed errors equal to minus the anecdotal values:
    the zero filled in for the missing vendor data is compared like a
    measurement. (The anecdotal frame has no column named like a vendor
    column.) *)
Theorem errors_without_vendor_entry
    oura_data ultrahuman_data anecdotal_data rows rows' anecdotal :
  NoDup (to_datetime ∘ Oura.Entry.day <$> oura_data) →
  NoDup (to_datetime ∘ Ultrahuman.Entry.day <$> ultrahuman_data) →
  create_dataframes to_datetime oura_data ultrahuman_data anecdotal_data
  = Ok rows →
  calculate_errors rows = Ok rows' →
  anecdotal ∈ anecdotal_data →
  Anecdotal.Date anecdotal ∉ (to_datetime ∘ Oura.Entry.day <$> oura_data) →
  Forall (λ '(_, _, _, vendor),
     PyDict.get (Anecdotal.numeric anecdotal) vendor = None) error_columns →
  exact_columns (prod_map id (default 0) <$> Anecdotal.numeric anecdotal) →
  ∃ row',
    row' ∈ rows'
    ∧ Row.Date row' = Anecdotal.Date anecdotal
    ∧ Forall (λ '(abs_name, signed_name, jared, _),
         ∃ j,
           default 0 <$> PyDict.get (Anecdotal.numeric anecdotal) jared
           = Some j
           ∧ PyDict.get (Row.numeric row') abs_name = Some (Z.abs j)
           ∧ PyDict.get (Row.numeric row') signed_name = Some (- j))
        error_columns.
Proof.
  intros Hnd_oura Hnd_ultrahuman Hrows Hrows' Hin Hno_oura Hnames _.
  assert (oura_data ≠ [] ∧ ultrahuman_data ≠ []) as [Houra Hultrahuman].
  { destruct oura_data; [done|]. by destruct ultrahuman_data. }
  destruct (create_dataframes_left_join to_datetime oura_data ultrahuman_data
    anecdotal_data Houra Hultrahuman Hnd_oura Hnd_ultrahuman)
    as (rows0 & Hrows0 & Hdates & Hjoin).
  rewrite Hrows in Hrows0. injection Hrows0 as <-.
  apply list_elem_of_lookup in Hin as [i Hi].
  destruct (Forall2_lookup_l _ _ _ _ _ Hjoin Hi) as (row & Hrow & Hzero).
  destruct (Hzero Hno_oura) as [_ Hnumeric].
  destruct (Forall2_lookup_l _ _ _ _ _ (calculate_errors_Forall2 _ _ Hrows')
    Hrow) as (row' & Hrow' & Herrors).
  exists row'.
  destruct (calculate_errors_row_values _ _ Herrors) as [Hdate Hcolumns].
  split_and!.
  - by eapply list_elem_of_lookup_2.
  - rewrite Hdate. apply (f_equal (λ l, l !! i)) in Hdates.
    rewrite !list_lookup_fmap, Hrow, Hi in Hdates. by injection Hdates.
  - unfold error_columns in *. rewrite Hnumeric in Hcolumns.
    repeat
      (apply Forall_cons in Hcolumns as [Hcolumn Hcolumns];
       apply Forall_cons in Hnames as [Hname Hnames];
       constructor;
       [clear Hcolumns Hnames;
        destruct Hcolumn as (j & v & Hj & Hv & Habs & Hsigned);
        rewrite get_app, get_fmap in Hj, Hv; rewrite Hname in Hv;
        vm_compute in Hv; injection Hv as <-;
        exists j; split_and!;
          [match goal with |- _ <$> ?g = _ => destruct g end;
             [exact Hj|by vm_compute in Hj]
          |rewrite Habs; f_equal; lia
          |rewrite Hsigned; f_equal; lia]
       |clear Hcolumn Hname]).
    constructor.
Qed.

End zero_filled_errors.

Lemma errors_without_vendor_entry_witness :
  ∃ rows rows' row',
    Merger.create_dataframes id MergeExamples.oura_entries
      MergeExamples.ultrahuman_entries MergeExamples.anecdotal_rows = Ok rows
    ∧ Analysis.calculate_errors rows = Ok rows'
    ∧ row' ∈ rows'
    ∧ Merger.Row.Date row' = "2024-06-21"%string
    ∧ PyDict.get (Merger.Row.numeric row') "sleep_start_error_abs_oura"
      = Some 15
    ∧ PyDict.get (Merger.Row.numeric row') "sleep_start_error_oura"
      = Some (-15).
Proof.
  destruct (Merger.create_dataframes id MergeExamples.oura_entries
    MergeExamples.ultrahuman_entries MergeExamples.anecdotal_rows)
    as [rows|] eqn:Hrows; [|by vm_compute in Hrows].
  destruct (Analysis.calculate_errors rows) as [rows'|] eqn:Hrows'.
  2: { vm_compute in Hrows. injection Hrows as <-. by vm_compute in Hrows'. }
  destruct (errors_without_vendor_entry id MergeExamples.oura_entries
    MergeExamples.ultrahuman_entries MergeExamples.anecdotal_rows rows rows'
    (MergeExamples.anecdotal "2024-06-21" 15 420 450))
    as (row' & Hin & Hdate & Hcolumns);
    [compute_done|compute_done|exact Hrows|exact Hrows'|right; right; left
    |compute_done| |compute_done|].
  { unfold error_columns. repeat (constructor; [reflexivity|]). constructor. }
  exists rows, rows', row'. split_and!; [done|done|done|done|..];
    unfold error_columns in Hcolumns;
    apply Forall_cons in Hcolumns as [(j & Hj & Habs & Hsigned) _];
    vm_compute in Hj; injection Hj as <-; [exact Habs|exact Hsigned].
Defined.

(** ** The analysis driver *)

Lemma process_sleep_data_not_excluded data excl :
  Forall (λ session, Oura.Raw.day session ∉ excl) data →
  Oura.process_sleep_data data excl = Oura.process_sleep_data data [].
Proof.
  induction 1 as [|session data Hday _ IH]; [done|].
  cbn [Oura.process_sleep_data].
  rewrite decide_False by done.
  rewrite (decide_False (P := Oura.Raw.day session ∈ [])) by apply not_elem_of_nil.
  by rewrite IH.
Qed.

Lemma process_sleep_data_all_days data out :
  Oura.process_sleep_data data [] = Ok out →
  Oura.Entry.day <$> out = Oura.Raw.day <$> data.
Proof.
  revert out. induction data as [|sleep_data data IH]; intros out.
  - by intros [= <-].
  - cbn [Oura.process_sleep_data].
    rewrite decide_False by apply not_elem_of_nil.
    destruct (Oura.process_entry sleep_data) as [entry|] eqn:Hentry; [|done].
    cbn [mbind result_bind].
    destruct (Oura.process_sleep_data data []) as [entries|]; [|done].
    cbn [mbind result_bind]. intros [= <-].
    rewrite !fmap_cons, (IH entries) by done. f_equal.
    by apply process_entry_Ok in Hentry as (_ & _ & _ & _ & _ & -> & _).
Qed.

Lemma get_oura_sleep_data_not_excluded
    requests_get start_date end_date excl out :
  Oura.get_oura_sleep_data requests_get start_date end_date excl = Ok out →
  Forall (λ session, Oura.Raw.day session ∉ excl) out.
Proof.
  intros Hout. apply Forall_forall. intros session Hin.
  by destruct (get_oura_sleep_data_elem_of _ _ _ _ _ _ Hout Hin)
    as (raw & _ & -> & Hday).
Qed.

Lemma get_oura_sleep_data_NoDup requests_get start_date end_date excl out :
  Oura.get_oura_sleep_data requests_get start_date end_date excl = Ok out →
  NoDup (Oura.Raw.day <$> out).
Proof.
  intros [_ ->]%get_oura_sleep_data_Ok.
  rewrite sorted_Permutation, oura_group_by_day_keys.
  apply oura_group_by_day_NoDup.
Qed.

Lemma get_oura_sleep_data_increasing
    requests_get start_date end_date excl out :
  Oura.get_oura_sleep_data requests_get start_date end_date excl = Ok out →
  Sorted (λ a b, String.ltb a b = true) (Oura.Raw.day <$> out).
Proof.
  intros Hout. pose proof (get_oura_sleep_data_NoDup _ _ _ _ _ Hout) as Hnd.
  apply get_oura_sleep_data_Ok in Hout as [_ ->].
  eapply Sorted_fmap; [|apply Sorted_leb_NoDup_ltb;
    [apply sorted_Sorted|exact Hnd]].
  done.
Qed.

Lemma process_ultrahuman_sleep_data_NoDup utc_offset isoformat data excl :
  NoDup (Ultrahuman.Entry.day <$>
    Ultrahuman.process_ultrahuman_sleep_data utc_offset isoformat data excl).
Proof.
  unfold Ultrahuman.process_ultrahuman_sleep_data, PyDict.items.
  rewrite sorted_Permutation, <-list_fmap_compose.
  replace ((Ultrahuman.Entry.day
              ∘ (λ '(day, daily), Ultrahuman.process_entry utc_offset day daily))
           <$> Ultrahuman.group_by_day utc_offset isoformat excl data)
    with (Ultrahuman.group_by_day utc_offset isoformat excl data).*1.
  - unfold Ultrahuman.group_by_day.
    rewrite ultrahuman_keep_longest_reconcile.
    apply reconcile_NoDup, NoDup_nil_2.
  - apply Forall_fmap_ext, Forall_forall. intros [day daily] _. simpl.
    by rewrite process_entry_day.
Qed.

Lemma process_ultrahuman_sleep_data_increasing
    utc_offset isoformat data excl :
  Sorted (λ a b, String.ltb a b = true)
    (Ultrahuman.Entry.day <$>
       Ultrahuman.process_ultrahuman_sleep_data utc_offset isoformat data excl).
Proof.
  eapply Sorted_fmap;
    [|apply Sorted_leb_NoDup_ltb;
       [apply sorted_Sorted|apply process_ultrahuman_sleep_data_NoDup]].
  done.
Qed.

(** X20. On the sessions returned by the phase-code fetch, the exclusion
    list handed to the phase-code normalizer removes nothing: the fetch has
    already dropped the excluded days, so the normalizer gives the same
    result, or raises the same error, as with an empty exclusion list. *)
Theorem normalizer_exclusion_redundant
    requests_get start_date end_date excl raw :
  Oura.get_oura_sleep_data requests_get start_date end_date excl = Ok raw →
  Oura.process_sleep_data raw excl = Oura.process_sleep_data raw [].
Proof.
  intros Hraw. apply process_sleep_data_not_excluded.
  by eapply get_oura_sleep_data_not_excluded.
Qed.

Lemma normalizer_exclusion_redundant_witness :
  Oura.process_sleep_data
    [Oura.stored Examples.night_350] ["2024-06-22"%string]
  = Oura.process_sleep_data [Oura.stored Examples.night_350] [].
Proof.
  apply (normalizer_exclusion_redundant
    (Examples.oura_ok
       [Examples.night_uneven; Examples.nap_200; Examples.night_350])
    19894 (Some 19896) ["2024-06-22"%string]).
  vm_compute. reflexivity.
Defined.

Section driver.
Variable DATES_TO_EXCLUDE : list string.
Variable utc_offset : Z.
Variable isoformat : Z → string.
Variable oura_get : Z → Z → Oura.response.
Variable ultrahuman_get : Z → Ultrahuman.response.

(** What the driver returned, by stage. *)
Lemma fetch_and_process_data_Ok start_date end_date oura ultrahuman stdout :
  Analysis.fetch_and_process_data DATES_TO_EXCLUDE utc_offset isoformat
    oura_get ultrahuman_get start_date end_date
  = Ok (oura, ultrahuman, stdout) →
  ∃ oura_raw ultrahuman_raw,
    Oura.get_oura_sleep_data oura_get start_date (Some end_date)
      DATES_TO_EXCLUDE = Ok oura_raw
    ∧ Oura.process_sleep_data oura_raw [] = Ok oura
    ∧ (∃ fetch_stdout,
         Ultrahuman.get_ultrahuman_sleep_data isoformat ultrahuman_get
           start_date (Some end_date) DATES_TO_EXCLUDE
         = (ultrahuman_raw, fetch_stdout)
         ∧ stdout
           = fetch_stdout
             ++ match ultrahuman_raw with
                | [] => []
                | _ =>
                    Ultrahuman.process_ultrahuman_sleep_data_stdout
                      ultrahuman_raw
                end)
    ∧ ultrahuman
      = Ultrahuman.process_ultrahuman_sleep_data utc_offset isoformat
          ultrahuman_raw DATES_TO_EXCLUDE.
Proof.
  unfold Analysis.fetch_and_process_data.
  destruct (Oura.get_oura_sleep_data _ _ _ _) as [raw|] eqn:Hraw; [|done].
  cbn [mbind result_bind].
  assert (match raw with
          | [] => Ok []
          | _ => Oura.process_sleep_data raw DATES_TO_EXCLUDE
          end = Oura.process_sleep_data raw []) as ->.
  { rewrite <-(process_sleep_data_not_excluded raw DATES_TO_EXCLUDE)
      by by eapply get_oura_sleep_data_not_excluded.
    by destruct raw. }
  destruct (Oura.process_sleep_data raw []) as [entries|] eqn:Hentries;
    [|done].
  cbn [mbind result_bind].
  destruct (Ultrahuman.get_ultrahuman_sleep_data _ _ _ _ _)
    as [ultrahuman_raw printed].
  destruct ultrahuman_raw as [|sleep_data ultrahuman_raw];
    intros [= <- <- <-].
  - exists raw, []. split_and!; [done..| |done].
    by exists printed.
  - exists raw, (sleep_data :: ultrahuman_raw). split_and!; [done..| |done].
    by exists printed.
Qed.

(** X21. The two emptiness checks of [fetch_and_process_data] change
    nothing in what is returned or raised: the driver returns the lists,
    or raises the exception, of the plain composition of each vendor's
    fetch with its normalizer, an exception of the phase-code vendor being
    the driver's whatever the segment-list vendor answers. They change the
    output only: when the segment-list fetch returned no record, the entry
    count of 0 that the normalizer would print is not printed. *)
Theorem fetch_and_process_data_composition start_date end_date :
  match fetch_then_process DATES_TO_EXCLUDE utc_offset isoformat
          oura_get ultrahuman_get start_date end_date with
  | Ok (oura, ultrahuman, stdout) =>
      ∃ stdout',
        Analysis.fetch_and_process_data DATES_TO_EXCLUDE utc_offset isoformat
          oura_get ultrahuman_get start_date end_date
        = Ok (oura, ultrahuman, stdout')
        ∧ if decide
               ((Ultrahuman.get_ultrahuman_sleep_data isoformat ultrahuman_get
                   start_date (Some end_date) DATES_TO_EXCLUDE).1 = [])
          then stdout = stdout' ++ [Ultrahuman.TotalSleepDataEntries 0]
          else stdout' = stdout
  | Raise e =>
      Analysis.fetch_and_process_data DATES_TO_EXCLUDE utc_offset isoformat
        oura_get ultrahuman_get start_date end_date
      = Raise e
  end.
Proof.
  unfold fetch_then_process, Analysis.fetch_and_process_data.
  destruct (Oura.get_oura_sleep_data _ _ _ _) as [raw|]; [|done].
  cbn [mbind result_bind].
  assert (match raw with
          | [] => Ok []
          | _ => Oura.process_sleep_data raw DATES_TO_EXCLUDE
          end = Oura.process_sleep_data raw DATES_TO_EXCLUDE) as ->
    by by destruct raw.
  destruct (Oura.process_sleep_data raw DATES_TO_EXCLUDE); [|done].
  cbn [mbind result_bind].
  destruct (Ultrahuman.get_ultrahuman_sleep_data _ _ _ _ _)
    as [[|sleep_data ultrahuman_raw] stdout]; cbn [fst].
  - exists (stdout ++ []). split; [reflexivity|].
    rewrite decide_True by done. by rewrite app_nil_r.
  - eexists. split; [reflexivity|]. by rewrite decide_False by done.
Qed.

(** X22. When [fetch_and_process_data] returns, there is one phase-code
    entry per fetched session, in the same order; each vendor's entries
    come in strictly increasing order of their day, so at most one per
    day, and none of them has an excluded day. *)
Theorem fetch_and_process_data_days start_date end_date oura ultrahuman stdout :
  Analysis.fetch_and_process_data DATES_TO_EXCLUDE utc_offset isoformat
    oura_get ultrahuman_get start_date end_date
  = Ok (oura, ultrahuman, stdout) →
  (∃ raw,
     Oura.get_oura_sleep_data oura_get start_date (Some end_date)
       DATES_TO_EXCLUDE = Ok raw
     ∧ Oura.Entry.day <$> oura = Oura.Raw.day <$> raw)
  ∧ Sorted (λ a b, String.ltb a b = true) (Oura.Entry.day <$> oura)
  ∧ Sorted (λ a b, String.ltb a b = true) (Ultrahuman.Entry.day <$> ultrahuman)
  ∧ Forall (λ day, day ∉ DATES_TO_EXCLUDE) (Oura.Entry.day <$> oura)
  ∧ Forall (λ day, day ∉ DATES_TO_EXCLUDE)
      (Ultrahuman.Entry.day <$> ultrahuman).
Proof.
  intros (raw & ultrahuman_raw & Hraw & Hentries & _ & ->)%fetch_and_process_data_Ok.
  apply process_sleep_data_all_days in Hentries.
  split_and!.
  - by exists raw.
  - rewrite Hentries. by eapply get_oura_sleep_data_increasing.
  - apply process_ultrahuman_sleep_data_increasing.
  - rewrite Hentries. apply Forall_fmap.
    by eapply get_oura_sleep_data_not_excluded.
  - apply Forall_fmap, Forall_forall. intros entry Hin. simpl.
    apply process_ultrahuman_sleep_data_elem_of in Hin
      as (sleep_data & _ & Hday & ->).
    by rewrite process_entry_day.
Qed.


End driver.

Lemma fetch_and_process_data_days_witness :
  ∃ oura ultrahuman stdout,
    Analysis.fetch_and_process_data ["2024-06-21"%string] 0
      Ultrahuman.date_isoformat
      (Examples.oura_ok
         [Examples.night_uneven; Examples.nap_200; Examples.night_350])
      (Examples.ultrahuman_http [19895]) 19894 19896
    = Ok (oura, ultrahuman, stdout)
    ∧ Sorted (λ a b, String.ltb a b = true) (Oura.Entry.day <$> oura)
    ∧ Forall (λ day, day ∉ ["2024-06-21"%string])
        (Ultrahuman.Entry.day <$> ultrahuman).
Proof.
  destruct (Analysis.fetch_and_process_data ["2024-06-21"%string] 0
    Ultrahuman.date_isoformat
    (Examples.oura_ok
       [Examples.night_uneven; Examples.nap_200; Examples.night_350])
    (Examples.ultrahuman_http [19895]) 19894 19896)
    as [[[oura ultrahuman] stdout]|] eqn:Hfetch; [|by vm_compute in Hfetch].
  exists oura, ultrahuman, stdout. split; [done|].
  destruct (fetch_and_process_data_days _ _ _ _ _ _ _ _ _ _ Hfetch)
    as (_ & Hsorted & _ & _ & Hexcluded).
  by split.
Defined.

